(** * WAL archive / restore coordination (xlogarchive.c)

    A shallow embedding of [src/backend/access/transam/xlogarchive.c]:
    the command-template expansion loops on a bounded character array,
    the restore orchestrator [RestoreArchivedFile], the recovery command
    runner [ExecuteRecoveryCommand] and the archive status protocol
    ([XLogArchiveNotify], [XLogArchiveCheckDone], [XLogArchiveIsBusy],
    [XLogArchiveCleanup]).

    C strings are lists of characters whose terminator is implicit (or the
    first NUL they contain); character arrays are lists updated by index;
    calls into the operating system and into other subsystems are the
    nodes of a small program tree that is run against an arbitrary
    environment. *)

From Stdlib Require Import ZArith Lia Ascii String List.
From stdpp Require Import base option list strings gmap.

Import ListNotations.
Local Open Scope nat_scope.
Local Open Scope char_scope.

(** ** C strings *)

Definition NUL : ascii := "000".

Definition is_nul (c : ascii) : bool := Ascii.eqb c NUL.

(** The value of a C string: the characters before its terminator. *)
Fixpoint cstr (s : list ascii) : list ascii :=
  match s with
  | [] => []
  | c :: s' => if is_nul c then [] else c :: cstr s'
  end.

Definition lit (s : string) : list ascii := list_ascii_of_string s.

(** ** Character arrays

    An array is a list of characters; a pointer into it is an offset.  A
    store or a load outside the array yields [None]. *)

Definition poke (b : list ascii) (i : nat) (c : ascii) : option (list ascii) :=
  if decide (i < length b) then Some (<[i:=c]> b) else None.

Fixpoint poke_all (b : list ascii) (i : nat) (cs : list ascii) : option (list ascii) :=
  match cs with
  | [] => Some b
  | c :: cs' => b' ← poke b i c; poke_all b' (S i) cs'
  end.

(** [strncpy(dst, src, n)] writes exactly [n] characters: those of [src]
    up to its terminator, then NUL padding. *)
Definition strncpy (b : list ascii) (dst : nat) (src : list ascii) (n : nat)
  : option (list ascii) :=
  poke_all b dst (take n (cstr src ++ replicate n NUL)).

(** [strlen] of the string that starts at the head of [m]; [None] when no
    terminator is met before the end of the array. *)
Fixpoint strlen_from (m : list ascii) : option nat :=
  match m with
  | [] => None
  | c :: m' => if is_nul c then Some 0 else S <$> strlen_from m'
  end.

Definition strlen_at (b : list ascii) (p : nat) : option nat :=
  strlen_from (drop p b).

(** The C string stored in an array from offset [p]. *)
Definition string_at (b : list ascii) (p : nat) : option (list ascii) :=
  n ← strlen_at b p; Some (take n (drop p b)).

(** Modelled from the spec: the [StrNCpy] macro (c.h) is not among the
    sources.  The spec has a substituted value appended within the room
    that is left and cut silently beyond it; the macro does so by copying
    [len] characters and ending them with a terminator in the last one:
<<
   Size _len = (len);
   if (_len > 0) { strncpy(_dst, (src), _len); _dst[_len-1] = '\0'; }
>>
    A negative [len] converts to a huge [Size], so that [strncpy] runs off
    the array. *)
Definition StrNCpy (b : list ascii) (dst : nat) (src : list ascii) (len : Z)
  : option (list ascii) :=
  if (len =? 0)%Z then Some b
  else if (len <? 0)%Z then None
  else b' ← strncpy b dst src (Z.to_nat len);
       poke b' (dst + Z.to_nat len - 1) NUL.

(** Modelled from the spec: [make_native_path] (src/port/path.c) is not
    among the sources; the spec has [%p] replaced by the target file path
    itself, so the path is left as it is. *)
Definition make_native_path (b : list ascii) (p : nat) : option (list ascii) :=
  Some b.

(** ** The expansion loops *)

(** The destination array together with the write pointer [dp]. *)
Record cursor := Cursor { mem : list ascii; dp : nat }.

(** [if (dp < endp) *dp++ = *sp;] *)
Definition put (endp : nat) (c : ascii) (st : cursor) : option cursor :=
  if decide (dp st < endp)
  then m ← poke (mem st) (dp st) c; Some (Cursor m (S (dp st)))
  else Some st.

(** [StrNCpy(dp, src, endp - dp); dp += strlen(dp);] *)
Definition copy_in (endp : nat) (src : list ascii) (st : cursor) : option cursor :=
  m ← StrNCpy (mem st) (dp st) src (Z.of_nat endp - Z.of_nat (dp st));
  n ← strlen_at m (dp st);
  Some (Cursor m (dp st + n)).

(** The [for (sp = recoveryRestoreCommand; *sp; sp++)] loop of
    [RestoreArchivedFile]. *)
Fixpoint restore_loop (endp : nat) (xlogpath xlogfname lastRestartPointFname : list ascii)
    (sp : list ascii) (st : cursor) {struct sp} : option cursor :=
  match sp with
  | [] => Some st
  | c :: sp1 =>
    if is_nul c then Some st
    else if Ascii.eqb c "%" then
      match sp1 with
      | c1 :: sp2 =>
        if Ascii.eqb c1 "p" then
          m ← StrNCpy (mem st) (dp st) xlogpath (Z.of_nat endp - Z.of_nat (dp st));
          m' ← make_native_path m (dp st);
          n ← strlen_at m' (dp st);
          restore_loop endp xlogpath xlogfname lastRestartPointFname sp2
                       (Cursor m' (dp st + n))
        else if Ascii.eqb c1 "f" then
          st' ← copy_in endp xlogfname st;
          restore_loop endp xlogpath xlogfname lastRestartPointFname sp2 st'
        else if Ascii.eqb c1 "r" then
          st' ← copy_in endp lastRestartPointFname st;
          restore_loop endp xlogpath xlogfname lastRestartPointFname sp2 st'
        else if Ascii.eqb c1 "%" then
          st' ← put endp c1 st;
          restore_loop endp xlogpath xlogfname lastRestartPointFname sp2 st'
        else
          st' ← put endp c st;
          restore_loop endp xlogpath xlogfname lastRestartPointFname sp1 st'
      | [] =>
        st' ← put endp c st;
        restore_loop endp xlogpath xlogfname lastRestartPointFname sp1 st'
      end
    else
      st' ← put endp c st;
      restore_loop endp xlogpath xlogfname lastRestartPointFname sp1 st'
  end.

(** The same loop in [ExecuteRecoveryCommand]: only [%r] and [%%] are
    cases of its switch. *)
Fixpoint recovery_loop (endp : nat) (lastRestartPointFname : list ascii)
    (sp : list ascii) (st : cursor) {struct sp} : option cursor :=
  match sp with
  | [] => Some st
  | c :: sp1 =>
    if is_nul c then Some st
    else if Ascii.eqb c "%" then
      match sp1 with
      | c1 :: sp2 =>
        if Ascii.eqb c1 "r" then
          st' ← copy_in endp lastRestartPointFname st;
          recovery_loop endp lastRestartPointFname sp2 st'
        else if Ascii.eqb c1 "%" then
          st' ← put endp c1 st;
          recovery_loop endp lastRestartPointFname sp2 st'
        else
          st' ← put endp c st;
          recovery_loop endp lastRestartPointFname sp1 st'
      | [] =>
        st' ← put endp c st;
        recovery_loop endp lastRestartPointFname sp1 st'
      end
    else
      st' ← put endp c st;
      recovery_loop endp lastRestartPointFname sp1 st'
  end.

(** Lines 147-195 of [RestoreArchivedFile]: [array] is the automatic array
    [xlogRestoreCmd[MAXPGPATH]] with whatever it holds on entry. *)
Definition BuildRestoreCommand (MAXPGPATH : nat) (array : list ascii)
    (recoveryRestoreCommand xlogpath xlogfname lastRestartPointFname : list ascii)
  : option (list ascii) :=
  let endp := MAXPGPATH - 1 in
  m0 ← poke array endp NUL;
  st ← restore_loop endp xlogpath xlogfname lastRestartPointFname
         recoveryRestoreCommand (Cursor m0 0);
  poke (mem st) (dp st) NUL.

(** Lines 355-390 of [ExecuteRecoveryCommand]. *)
Definition BuildRecoveryCommand (MAXPGPATH : nat) (array : list ascii)
    (command lastRestartPointFname : list ascii) : option (list ascii) :=
  let endp := MAXPGPATH - 1 in
  m0 ← poke array endp NUL;
  st ← recovery_loop endp lastRestartPointFname command (Cursor m0 0);
  poke (mem st) (dp st) NUL.

(** *** The loops seen as one loop over a table of placeholders

    Both loops have the same shape and differ in the cases of the switch.
    [expand_loop] is that shape, with the cases given as a table from the
    placeholder character to the substituted string; the two loops above
    are shown to be instances of it before anything is proved about them. *)

Fixpoint expand_loop (endp : nat) (value : ascii → option (list ascii))
    (sp : list ascii) (st : cursor) {struct sp} : option cursor :=
  match sp with
  | [] => Some st
  | c :: sp1 =>
    if is_nul c then Some st
    else if Ascii.eqb c "%" then
      match sp1 with
      | c1 :: sp2 =>
        match value c1 with
        | Some v => st' ← copy_in endp v st; expand_loop endp value sp2 st'
        | None =>
          if Ascii.eqb c1 "%"
          then st' ← put endp c1 st; expand_loop endp value sp2 st'
          else st' ← put endp c st; expand_loop endp value sp1 st'
        end
      | [] => st' ← put endp c st; expand_loop endp value sp1 st'
      end
    else st' ← put endp c st; expand_loop endp value sp1 st'
  end.

Definition restore_placeholders (xlogpath xlogfname lastRestartPointFname : list ascii)
    (c : ascii) : option (list ascii) :=
  if Ascii.eqb c "p" then Some xlogpath
  else if Ascii.eqb c "f" then Some xlogfname
  else if Ascii.eqb c "r" then Some lastRestartPointFname
  else None.

Definition recovery_placeholders (lastRestartPointFname : list ascii)
    (c : ascii) : option (list ascii) :=
  if Ascii.eqb c "r" then Some lastRestartPointFname else None.

(** What the loop has written so far, as a string that holds at most [cap]
    characters: a single character is appended while there is room; a
    substituted value is cut so that one position stays free after it. *)
Definition emit (cap : nat) (c : ascii) (out : list ascii) : list ascii :=
  if decide (length out < cap) then out ++ [c] else out.

Definition emit_value (cap : nat) (v : list ascii) (out : list ascii) : list ascii :=
  out ++ take (cap - length out - 1) (cstr v).

Fixpoint emitted (cap : nat) (value : ascii → option (list ascii))
    (sp : list ascii) (out : list ascii) {struct sp} : list ascii :=
  match sp with
  | [] => out
  | c :: sp1 =>
    if is_nul c then out
    else if Ascii.eqb c "%" then
      match sp1 with
      | c1 :: sp2 =>
        match value c1 with
        | Some v => emitted cap value sp2 (emit_value cap v out)
        | None =>
          if Ascii.eqb c1 "%"
          then emitted cap value sp2 (emit cap c1 out)
          else emitted cap value sp1 (emit cap c out)
        end
      | [] => emitted cap value sp1 (emit cap c out)
      end
    else emitted cap value sp1 (emit cap c out)
  end.

(** The expansion in the words of the specification, with no bound on the
    output: a recognised placeholder is replaced by its value, [%%] by one
    [%], a [%] before any other character is passed through together with
    that character, and every other character stands for itself. *)
Fixpoint expansion (value : ascii → option (list ascii)) (sp : list ascii)
    {struct sp} : list ascii :=
  match sp with
  | [] => []
  | c :: sp1 =>
    if is_nul c then []
    else if Ascii.eqb c "%" then
      match sp1 with
      | c1 :: sp2 =>
        match value c1 with
        | Some v => cstr v ++ expansion value sp2
        | None =>
          if Ascii.eqb c1 "%" then "%" :: expansion value sp2
          else if is_nul c1 then ["%"]
          else "%" :: c1 :: expansion value sp2
        end
      | [] => ["%"]
      end
    else c :: expansion value sp1
  end.

(** Whether the loop substitutes no value anywhere in the template: every
    [%] in it is followed by [%], by a character that is no placeholder of
    the table, or by nothing. *)
Fixpoint plain (value : ascii → option (list ascii)) (sp : list ascii)
    {struct sp} : bool :=
  match sp with
  | [] => true
  | c :: sp1 =>
    if is_nul c then true
    else if Ascii.eqb c "%" then
      match sp1 with
      | c1 :: sp2 =>
        match value c1 with
        | Some _ => false
        | None => if Ascii.eqb c1 "%" then plain value sp2 else plain value sp1
        end
      | [] => true
      end
    else plain value sp1
  end.

(** [rep cap st out]: the array of the cursor has [cap + 1] characters, its
    last one is the terminator written before the loop, and the characters
    below [dp] are the string [out], none of them NUL. *)
Record rep (cap : nat) (st : cursor) (out : list ascii) : Prop := Rep {
  rep_length : length (mem st) = S cap;
  rep_dp : dp st = length out;
  rep_out : ∀ i c, out !! i = Some c → mem st !! i = Some c;
  rep_end : mem st !! cap = Some NUL;
  rep_no_nul : Forall (λ c, c ≠ NUL) out;
  rep_room : length out ≤ cap
}.

(** ** Formatting *)

(** [snprintf(dst, n, ...)] keeps the first [n - 1] characters of what the
    format yields ([n] is positive wherever it is used). *)
Definition snprintf (n : nat) (s : list ascii) : list ascii := take (n - 1) (cstr s).

Definition hexdigit (d : Z) : ascii :=
  nth (Z.to_nat d) (lit "0123456789ABCDEF") "0".

(** [%08X] of a [uint32]. *)
Definition hex8 (n : Z) : list ascii :=
  let u := (n mod 2 ^ 32)%Z in
  map (λ i : Z, hexdigit ((u / 16 ^ i) mod 16)%Z) [7; 6; 5; 4; 3; 2; 1; 0]%Z.

(** [strcmp]: the difference of the first two characters that differ, read
    as unsigned; a string that ends is continued by its terminator. *)
Fixpoint strcmp (a b : list ascii) : Z :=
  match a, b with
  | [], [] => 0
  | [], y :: _ => (0 - Z.of_nat (nat_of_ascii y))%Z
  | x :: _, [] => Z.of_nat (nat_of_ascii x)
  | x :: a', y :: b' =>
    if Ascii.eqb x y
    then (if is_nul x then 0%Z else strcmp a' b')
    else (Z.of_nat (nat_of_ascii x) - Z.of_nat (nat_of_ascii y))%Z
  end.

(** ** Wait statuses

    Modelled from the spec: <sys/wait.h> and <signal.h> are not among the
    sources.  A raw status is decoded into the spec's Command Outcome
    (exited with a code, or terminated by a signal) with the usual layout:
    the low seven bits hold the terminating signal, the next byte the exit
    code. *)

Definition signed_char (z : Z) : Z :=
  let u := (z mod 256)%Z in if (u <? 128)%Z then u else (u - 256)%Z.

Definition WTERMSIG (status : Z) : Z := Z.land status 127.

Definition WEXITSTATUS (status : Z) : Z := Z.shiftr (Z.land status 65280) 8.

Definition WIFSIGNALED (status : Z) : bool :=
  (Z.shiftr (signed_char (Z.land status 127 + 1)) 1 >? 0)%Z.

Definition SIGTERM : Z := 15.

(** Modelled from the spec: <errno.h> is not among the sources; [ENOENT]
    is the error of a file that does not exist. *)
Definition ENOENT : Z := 2.

(** ** Programs and their environment *)

Inductive elevel := DEBUG3 | DEBUG2 | DEBUG1 | LOG | WARNING | FATAL.

Inductive message :=
| could_not_stat (path : list ascii)
| could_not_remove (path : list ascii)
| executing_restore_command (cmd : list ascii)
| wrong_size (xlogfname : list ascii) (actual expected : Z)
| restored_log_file (xlogfname : list ascii)
| could_not_restore (xlogfname : list ascii) (rc : Z)
| executing (commandName command : list ascii)
| return_code (commandName command : list ascii) (rc : Z)
| could_not_create_status (path : list ascii)
| could_not_write_status (path : list ascii).

Inductive stat_result :=
| StatOk (st_size : Z)
| StatErr (errno : Z).

Definition stat_ok (r : stat_result) : bool :=
  match r with StatOk _ => true | StatErr _ => false end.

Inductive pmsignal := PMSIGNAL_WAKEN_ARCHIVER.

(** What the code asks of the operating system and of the other
    subsystems. *)
Inductive syscall :=
| stat (path : list ascii)
| unlink (path : list ascii)
| system (command : list ascii)
| AllocateFile (path mode : list ascii)
| FreeFile (file : nat)
| GetOldestRestartPoint
| PreRestoreCommand
| PostRestoreCommand
| SendPostmasterSignal (reason : pmsignal)
| elog (lvl : elevel) (msg : message).

(** What comes back: [unlink], [system] and [FreeFile] return an [int],
    [AllocateFile] a file or NULL, [GetOldestRestartPoint] the redo pointer
    and the timeline of the oldest restart point. *)
Definition reply (c : syscall) : Type :=
  match c with
  | stat _ => stat_result
  | unlink _ => Z
  | system _ => Z
  | AllocateFile _ _ => option nat
  | FreeFile _ => Z
  | GetOldestRestartPoint => (Z * Z)%type
  | PreRestoreCommand | PostRestoreCommand => unit
  | SendPostmasterSignal _ => unit
  | elog _ _ => unit
  end.

(** Ways in which the process ends without the function returning. *)
Inductive halt :=
| proc_exit (code : Z)
| fatal_error
| assertion_trap
| memory_fault.

Inductive prog (R : Type) : Type :=
| Ret (r : R)
| Do (c : syscall) (k : reply c → prog R)
| Halt (h : halt).

Arguments Ret {R} r.
Arguments Do {R} c k.
Arguments Halt {R} h.

Fixpoint bind {A B : Type} (p : prog A) (f : A → prog B) : prog B :=
  match p with
  | Ret r => f r
  | Do c k => Do c (λ x, bind (k x) f)
  | Halt h => Halt h
  end.

#[global] Instance prog_ret : MRet prog := @Ret.
#[global] Instance prog_bind : MBind prog := λ A B f p, bind p f.

Definition call (c : syscall) : prog (reply c) := Do c Ret.

(** Modelled from the spec: [ereport] (elog.c) is not among the sources.
    The report is handed to the logger; a fatal report ends the process,
    every lower severity returns to the caller. *)
Definition ereport (lvl : elevel) (msg : message) : prog unit :=
  Do (elog lvl msg)
     (λ _, match lvl with FATAL => Halt fatal_error | _ => Ret tt end).

(** One entry of a trace per call, with what came back. *)
Inductive event :=
| EvStat (path : list ascii) (r : stat_result)
| EvUnlink (path : list ascii) (r : Z)
| EvSystem (command : list ascii) (rc : Z)
| EvAllocateFile (path mode : list ascii) (r : option nat)
| EvFreeFile (file : nat) (r : Z)
| EvGetOldestRestartPoint (restartRedoPtr restartTli : Z)
| EvPreRestoreCommand
| EvPostRestoreCommand
| EvSendPostmasterSignal (reason : pmsignal)
| EvLog (lvl : elevel) (msg : message).

Definition observe (c : syscall) : reply c → event :=
  match c return reply c → event with
  | stat p => EvStat p
  | unlink p => EvUnlink p
  | system cmd => EvSystem cmd
  | AllocateFile p m => EvAllocateFile p m
  | FreeFile f => EvFreeFile f
  | GetOldestRestartPoint => λ r, EvGetOldestRestartPoint r.1 r.2
  | PreRestoreCommand => λ _, EvPreRestoreCommand
  | PostRestoreCommand => λ _, EvPostRestoreCommand
  | SendPostmasterSignal s => λ _, EvSendPostmasterSignal s
  | elog l m => λ _, EvLog l m
  end.

Definition is_system (e : event) : Prop :=
  match e with EvSystem _ _ => True | _ => False end.

Definition is_restart_point (e : event) : Prop :=
  match e with EvGetOldestRestartPoint _ _ => True | _ => False end.

Inductive outcome (R : Type) : Type :=
| Returned (r : R)
| Halted (h : halt).

Arguments Returned {R} r.
Arguments Halted {R} h.

(** The environment is a state [W] of the world outside the function
    together with its answer to every call; the answer may change the
    world in any way, which is how other processes acting between two
    calls are accounted for. *)
Definition environment (W : Type) : Type := ∀ c : syscall, W → reply c * W.

Fixpoint run {W R : Type} (os : environment W) (p : prog R) (w : W)
  : list event * outcome R * W :=
  match p with
  | Ret r => ([], Returned r, w)
  | Halt h => ([], Halted h, w)
  | Do c k =>
    let '(x, w1) := os c w in
    let '(tr, o, w2) := run os (k x) w1 in
    (observe c x :: tr, o, w2)
  end.

Definition trace_of {W R : Type} (os : environment W) (p : prog R) (w : W) : list event :=
  (run os p w).1.1.

Definition outcome_of {W R : Type} (os : environment W) (p : prog R) (w : W) : outcome R :=
  (run os p w).1.2.

(** The run step by step: every entry of the trace together with the world
    in which the call left the environment. *)
Fixpoint steps {W R : Type} (os : environment W) (p : prog R) (w : W)
  : list (event * W) :=
  match p with
  | Ret _ | Halt _ => []
  | Do c k => let '(x, w1) := os c w in (observe c x, w1) :: steps os (k x) w1
  end.

(** [up_to_command os rest p w]: the run of [p] from [w] either ends the
    process before any call of [system], or it calls [system] once, then
    [PostRestoreCommand], and goes on as [rest rc] with the status [rc]
    that [system] returned, in the world that [PostRestoreCommand] left. *)
Definition up_to_command {W R : Type} (os : environment W) (rest : Z → prog R)
    (p : prog R) (w : W) : Prop :=
  (Forall (λ s, ¬ is_system s.1) (steps os p w) ∧ ∃ h, outcome_of os p w = Halted h)
  ∨ ∃ before cmd rc w0,
      Forall (λ s, ¬ is_system s.1) before
      ∧ steps os p w
        = before ++ (EvSystem cmd rc, w0)
                 :: (EvPostRestoreCommand, (os PostRestoreCommand w0).2)
                 :: steps os (rest rc) (os PostRestoreCommand w0).2
      ∧ outcome_of os p w = outcome_of os (rest rc) (os PostRestoreCommand w0).2.

(** ** Configuration *)

(** What is fixed when the server is built.  [MAXPGPATH]
    (pg_config_manual.h), [XLOGDIR] and the segment size (xlog_internal.h)
    are not among the sources and are taken as parameters, as is the
    presence of assertions; [indeterminate] stands for whatever an
    automatic array holds before it is written. *)
Record platform := Platform {
  MAXPGPATH : nat;
  XLOGDIR : list ascii;
  XLogSegSize : Z;
  USE_ASSERT_CHECKING : bool;
  indeterminate : nat → ascii
}.

(** What the process holds in its global variables. *)
Record globals := Globals {
  recoveryRestoreCommand : option (list ascii);
  StandbyMode : bool;
  XLogArchivingActive : bool;
  IsUnderPostmaster : bool;
  ThisTimeLineID : Z
}.

(** An automatic array holds indeterminate characters on entry. *)
Definition automatic (P : platform) (n : nat) : list ascii :=
  map (indeterminate P) (seq 0 n).

(** Modelled from the spec: the macros of xlog_internal.h are not among
    the sources.  A log id spans 0x100000000 bytes of segments. *)
Definition XLogSegmentsPerXLogId (P : platform) : Z := (4294967296 / XLogSegSize P)%Z.

(** Modelled from the spec: the [XLogFileName] macro (xlog_internal.h) is
    not among the sources.  The spec has a segment identity made of a
    timeline and a sequence number and rendered as a fixed-width filename
    whose lexicographic order is the order of the segments: three
    [uint32] fields of eight upper-case hexadecimal digits each, the
    timeline first. *)
Definition XLogFileName (P : platform) (tli logSegNo : Z) : list ascii :=
  hex8 tli ++ hex8 (logSegNo / XLogSegmentsPerXLogId P)
           ++ hex8 (logSegNo mod XLogSegmentsPerXLogId P).

(** Modelled from the spec: the [StatusFilePath] macro (xlog_internal.h) is
    not among the sources.  The spec has the markers [<segment>.ready] and
    [<segment>.done] in a subdirectory next to the segments. *)
Definition StatusFilePath (P : platform) (xlog suffix : list ascii) : list ascii :=
  snprintf (MAXPGPATH P)
    (XLOGDIR P ++ lit "/archive_status/" ++ cstr xlog ++ cstr suffix).

(** Modelled from the spec: the [Assert] macro (c.h) is not among the
    sources.  The spec has a violation be an internal assertion and no
    error reported to the user: the condition is checked only in a build
    with assertions, where a violation traps the process. *)
Definition Assert (P : platform) (cond : bool) : prog unit :=
  if USE_ASSERT_CHECKING P && negb cond then Halt assertion_trap else Ret tt.

(** ** The functions of xlogarchive.c *)

Section Functions.

Variable P : platform.
Variable G : globals.

(** Modelled from the spec: [XLByteToSeg] (xlog_internal.h) is not among
    the sources; the segment of a position is the position divided by the
    size of a segment. *)
Definition XLByteToSeg (xlrp : Z) : Z := (xlrp / XLogSegSize P)%Z.

(** Lines 304-314 of [RestoreArchivedFile], the [not_available] label:
    [path] receives the name of the normal on-line file. *)
Definition not_available (xlogfname : list ascii) : prog (bool * list ascii) :=
  Ret (false, snprintf (MAXPGPATH P) (XLOGDIR P ++ lit "/" ++ cstr xlogfname)).

(** Lines 295-302 of [RestoreArchivedFile], which run into the
    [not_available] label: what is reached when the command did not leave
    a file. *)
Definition restore_failed (xlogfname : list ascii) (rc : Z) : prog (bool * list ascii) :=
  if WIFSIGNALED rc && (WTERMSIG rc =? SIGTERM)%Z then Halt (proc_exit 1)
  else
    let signaled := WIFSIGNALED rc || (WEXITSTATUS rc >? 125)%Z in
    _ ← ereport (if signaled then FATAL else DEBUG2) (could_not_restore xlogfname rc);
    not_available xlogfname.

(** Lines 133-142 of [RestoreArchivedFile]: the archive file cutoff
    point, as the file name that [%r] stands for. *)
Definition restore_cutoff (xlogfname : list ascii) (cleanupEnabled : bool)
  : prog (list ascii) :=
  if cleanupEnabled then
    '(restartRedoPtr, restartTli) ← call GetOldestRestartPoint;
    let restartSegNo := XLByteToSeg restartRedoPtr in
    let lastRestartPointFname := XLogFileName P restartTli restartSegNo in
    (* we shouldn't need anything earlier than last restart point *)
    _ ← Assert P (strcmp lastRestartPointFname xlogfname <=? 0)%Z;
    Ret lastRestartPointFname
  else Ret (XLogFileName P 0 0).

(** Lines 213-314 of [RestoreArchivedFile]: what is made of the status
    [rc] that [system] returned.  [path] is what the caller's buffer
    holds on entry. *)
Definition restore_result (path xlogfname xlogpath : list ascii)
    (expectedSize : Z) (rc : Z) : prog (bool * list ascii) :=
  if (rc =? 0)%Z then
    (* command apparently succeeded, but let's make sure the file is
       really there now and has the correct size. *)
    st ← call (stat xlogpath);
    match st with
    | StatOk st_size =>
      if (expectedSize >? 0)%Z && negb (st_size =? expectedSize)%Z then
        let elevel :=
          if StandbyMode G && (st_size <? expectedSize)%Z then DEBUG1 else FATAL in
        _ ← ereport elevel (wrong_size xlogfname st_size expectedSize);
        Ret (false, path)
      else
        _ ← ereport LOG (restored_log_file xlogfname);
        Ret (true, cstr xlogpath)
    | StatErr errno =>
      _ ← (if (errno =? ENOENT)%Z then Ret tt
           else ereport FATAL (could_not_stat xlogpath));
      restore_failed xlogfname rc
    end
  else restore_failed xlogfname rc.

(** The result is the returned flag together with what the caller's
    buffer [path] holds on return. *)
Definition RestoreArchivedFile (path xlogfname recovername : list ascii)
    (expectedSize : Z) (cleanupEnabled : bool) : prog (bool * list ascii) :=
  match recoveryRestoreCommand G with
  | None => not_available xlogfname
  | Some restoreCommand =>
    let xlogpath := snprintf (MAXPGPATH P) (XLOGDIR P ++ lit "/" ++ cstr recovername) in
    (* Make sure there is no existing file named recovername. *)
    st ← call (stat xlogpath);
    _ ← match st with
        | StatErr errno =>
          if (errno =? ENOENT)%Z then Ret tt
          else ereport FATAL (could_not_stat xlogpath)
        | StatOk _ =>
          r ← call (unlink xlogpath);
          if (r =? 0)%Z then Ret tt
          else ereport FATAL (could_not_remove xlogpath)
        end;
    lastRestartPointFname ← restore_cutoff xlogfname cleanupEnabled;
    (* construct the command to be executed *)
    match BuildRestoreCommand (MAXPGPATH P) (automatic P (MAXPGPATH P))
            restoreCommand xlogpath xlogfname lastRestartPointFname
          ≫= λ m, string_at m 0 with
    | None => Halt memory_fault
    | Some xlogRestoreCmd =>
      _ ← ereport DEBUG3 (executing_restore_command xlogRestoreCmd);
      _ ← call PreRestoreCommand;
      rc ← call (system xlogRestoreCmd);
      _ ← call PostRestoreCommand;
      restore_result path xlogfname xlogpath expectedSize rc
    end
  end.

(** [command] and [commandName] are strings, so that the
    [Assert(command && commandName)] on entry holds. *)
Definition ExecuteRecoveryCommand (command commandName : list ascii)
    (failOnSignal : bool) : prog unit :=
  '(restartRedoPtr, restartTli) ← call GetOldestRestartPoint;
  let restartSegNo := XLByteToSeg restartRedoPtr in
  let lastRestartPointFname := XLogFileName P restartTli restartSegNo in
  match BuildRecoveryCommand (MAXPGPATH P) (automatic P (MAXPGPATH P))
          command lastRestartPointFname
        ≫= λ m, string_at m 0 with
  | None => Halt memory_fault
  | Some xlogRecoveryCmd =>
    _ ← ereport DEBUG3 (executing (cstr commandName) (cstr command));
    rc ← call (system xlogRecoveryCmd);
    if (rc =? 0)%Z then Ret tt
    else
      let signaled := WIFSIGNALED rc || (WEXITSTATUS rc >? 125)%Z in
      ereport (if signaled && failOnSignal then FATAL else WARNING)
              (return_code (cstr commandName) (cstr command) rc)
  end.

Definition XLogArchiveNotify (xlog : list ascii) : prog unit :=
  let archiveStatusPath := StatusFilePath P xlog (lit ".ready") in
  fd ← call (AllocateFile archiveStatusPath (lit "w"));
  match fd with
  | None => ereport LOG (could_not_create_status archiveStatusPath)
  | Some file =>
    r ← call (FreeFile file);
    if negb (r =? 0)%Z then ereport LOG (could_not_write_status archiveStatusPath)
    else if IsUnderPostmaster G then call (SendPostmasterSignal PMSIGNAL_WAKEN_ARCHIVER)
    else Ret tt
  end.

Definition XLogArchiveNotifySeg (segno : Z) : prog unit :=
  XLogArchiveNotify (XLogFileName P (ThisTimeLineID G) segno).

Definition XLogArchiveCheckDone (xlog : list ascii) : prog bool :=
  if negb (XLogArchivingActive G) then Ret true
  else
    st ← call (stat (StatusFilePath P xlog (lit ".done")));
    if stat_ok st then Ret true
    else
      st ← call (stat (StatusFilePath P xlog (lit ".ready")));
      if stat_ok st then Ret false
      else
        st ← call (stat (StatusFilePath P xlog (lit ".done")));
        if stat_ok st then Ret true
        else
          _ ← XLogArchiveNotify xlog;
          Ret false.

Definition XLogArchiveIsBusy (xlog : list ascii) : prog bool :=
  st ← call (stat (StatusFilePath P xlog (lit ".done")));
  if stat_ok st then Ret false
  else
    st ← call (stat (StatusFilePath P xlog (lit ".ready")));
    if stat_ok st then Ret true
    else
      st ← call (stat (StatusFilePath P xlog (lit ".done")));
      if stat_ok st then Ret false
      else
        st ← call (stat (snprintf (MAXPGPATH P) (XLOGDIR P ++ lit "/" ++ cstr xlog)));
        match st with
        | StatErr errno => if (errno =? ENOENT)%Z then Ret false else Ret true
        | StatOk _ => Ret true
        end.

Definition XLogArchiveCleanup (xlog : list ascii) : prog unit :=
  _ ← call (unlink (StatusFilePath P xlog (lit ".done")));
  _ ← call (unlink (StatusFilePath P xlog (lit ".ready")));
  Ret tt.

End Functions.

(** ** A scripted environment

    The world is the list of answers still to be given to each kind of
    call; a call takes the next one.  When a list is used up, [stat] fails
    with [ENOENT], [AllocateFile] returns NULL and the calls that return an
    [int] return zero. *)

Record script := Script {
  stats : list stat_result;
  unlinks : list Z;
  systems : list Z;
  restart_points : list (Z * Z);
  allocations : list (option nat);
  closes : list Z
}.

Definition scripted : environment script := λ c,
  match c return script → reply c * script with
  | stat _ => λ w,
    match stats w with
    | r :: rs => (r, Script rs (unlinks w) (systems w) (restart_points w) (allocations w) (closes w))
    | [] => (StatErr ENOENT, w)
    end
  | unlink _ => λ w,
    match unlinks w with
    | r :: rs => (r, Script (stats w) rs (systems w) (restart_points w) (allocations w) (closes w))
    | [] => (0%Z, w)
    end
  | system _ => λ w,
    match systems w with
    | r :: rs => (r, Script (stats w) (unlinks w) rs (restart_points w) (allocations w) (closes w))
    | [] => (0%Z, w)
    end
  | GetOldestRestartPoint => λ w,
    match restart_points w with
    | r :: rs => (r, Script (stats w) (unlinks w) (systems w) rs (allocations w) (closes w))
    | [] => ((0%Z, 0%Z), w)
    end
  | AllocateFile _ _ => λ w,
    match allocations w with
    | r :: rs => (r, Script (stats w) (unlinks w) (systems w) (restart_points w) rs (closes w))
    | [] => (None, w)
    end
  | FreeFile _ => λ w,
    match closes w with
    | r :: rs => (r, Script (stats w) (unlinks w) (systems w) (restart_points w) (allocations w) rs)
    | [] => (0%Z, w)
    end
  | PreRestoreCommand => λ w, (tt, w)
  | PostRestoreCommand => λ w, (tt, w)
  | SendPostmasterSignal _ => λ w, (tt, w)
  | elog _ _ => λ w, (tt, w)
  end.

(** A build as the server is usually built, and a process in archive
    recovery. *)
Definition pg_build : platform :=
  Platform 1024 (lit "pg_xlog") 16777216 true (λ _, "x").

Definition in_recovery : globals :=
  Globals (Some (lit "cp /mnt/archive/%f %p")) false true true 1.

Definition standby : globals :=
  Globals (Some (lit "cp /mnt/archive/%f %p")) true true true 1.

Definition no_archiving : globals :=
  Globals None false false true 1.

Definition quiet : script := Script [] [] [] [] [] [].

Definition segment3 : list ascii := lit "000000010000000000000003".

Definition RECOVERYXLOG : list ascii := lit "RECOVERYXLOG".

Definition cp_segment3 : list ascii :=
  lit "cp /mnt/archive/000000010000000000000003 pg_xlog/RECOVERYXLOG".

(** What precedes the call of [system] in a run of [RestoreArchivedFile]
    that finds no stale file, and in one that asks for the cutoff. *)
Definition before_command : list event :=
  [ EvStat (lit "pg_xlog/RECOVERYXLOG") (StatErr ENOENT);
    EvLog DEBUG3 (executing_restore_command cp_segment3);
    EvPreRestoreCommand ].

Definition before_command_with_cutoff : list event :=
  [ EvStat (lit "pg_xlog/RECOVERYXLOG") (StatErr ENOENT);
    EvGetOldestRestartPoint 33554432 1;
    EvLog DEBUG3 (executing_restore_command cp_segment3);
    EvPreRestoreCommand ].

(** ** A local disk

    An environment in which the calls of the status protocol act on a map
    from paths to file sizes and nothing fails but for a file that is
    missing: [stat] and [unlink] of a missing file fail with [ENOENT],
    [AllocateFile] (only ever called with mode ["w"]) creates the file or
    empties it, [FreeFile] succeeds.  No other process touches the files.
    [SendPostmasterSignal] is counted.  Commands are not run: [system]
    returns 0 and the restart point is at 0. *)

Record disk := Disk {
  files : gmap (list ascii) Z;
  wakeups : nat
}.

Definition local_disk : environment disk := λ c,
  match c return disk → reply c * disk with
  | stat p => λ d,
    (match files d !! p with Some size => StatOk size | None => StatErr ENOENT end, d)
  | unlink p => λ d,
    match files d !! p with
    | Some _ => (0%Z, Disk (delete p (files d)) (wakeups d))
    | None => ((-1)%Z, d)
    end
  | AllocateFile p _ => λ d, (Some 0, Disk (<[p:=0%Z]> (files d)) (wakeups d))
  | FreeFile _ => λ d, (0%Z, d)
  | SendPostmasterSignal _ => λ d, (tt, Disk (files d) (S (wakeups d)))
  | system _ => λ d, (0%Z, d)
  | GetOldestRestartPoint => λ d, ((0%Z, 0%Z), d)
  | PreRestoreCommand => λ d, (tt, d)
  | PostRestoreCommand => λ d, (tt, d)
  | elog _ _ => λ d, (tt, d)
  end.

(** The archiver finishing with a segment: its [.ready] marker is renamed
    to [.done]. *)
Definition archived (ready done : list ascii) (d : disk) : disk :=
  match files d !! ready with
  | Some size => Disk (<[done:=size]> (delete ready (files d))) (wakeups d)
  | None => d
  end.

(** The local disk with an archiver beside the caller: the world holds the
    number of calls that the caller still makes before the archiver
    finishes with the segment ([None]: it does not finish, or it has). *)
Definition beside_archiver (ready done : list ascii) : environment (option nat * disk) :=
  λ c '(turn, d),
    let '(turn', d') :=
      match turn with
      | Some 0 => (None, archived ready done d)
      | Some (S n) => (Some n, d)
      | None => (None, d)
      end in
    let '(x, d'') := local_disk c d' in
    (x, (turn', d'')).

(** Two disks: one with nothing on it, one with the [.ready] marker and
    the file of a segment. *)
Definition empty_disk : disk := Disk ∅ 0.

Definition notified_disk : disk :=
  Disk (<[lit "pg_xlog/archive_status/000000010000000000000003.ready" := 0%Z]>
          (<[lit "pg_xlog/000000010000000000000003" := 16777216%Z]> ∅))
       0.

Definition junk (n : nat) : list ascii := replicate n "x".

(** * Properties *)

(** ** The functions on small inputs *)

Example restore_cmd_small :
  (BuildRestoreCommand 64 (junk 64) (lit "cp /a/%f %p # %r 100%% %q %")
     (lit "pg_xlog/RECOVERYXLOG") (lit "00000001") (lit "00000000")) ≫= (λ m, string_at m 0)
  = Some (lit "cp /a/00000001 pg_xlog/RECOVERYXLOG # 00000000 100% %q %").
Proof. vm_compute. reflexivity. Qed.

(** A value that would just fill the array loses its last character:
    [StrNCpy] keeps the last of the [endp - dp] positions for a terminator. *)
Example restore_cmd_exact_fit :
  (BuildRestoreCommand 8 (junk 8) (lit "%f")
     (lit "p") (lit "ABCDEFG") (lit "r")) ≫= (λ m, string_at m 0)
  = Some (lit "ABCDEF").
Proof. vm_compute. reflexivity. Qed.

Example wait_statuses :
  WIFSIGNALED 15 = true ∧ WTERMSIG 15 = SIGTERM
  ∧ WIFSIGNALED 2 = true ∧ WTERMSIG 2 = 2%Z
  ∧ WIFSIGNALED 256 = false ∧ WEXITSTATUS 256 = 1%Z
  ∧ WIFSIGNALED 32512 = false ∧ WEXITSTATUS 32512 = 127%Z
  ∧ WIFSIGNALED (-1) = false ∧ WEXITSTATUS (-1) = 255%Z.
Proof. repeat split; vm_compute; reflexivity. Qed.

Example restore_cmd_trunc :
  (BuildRestoreCommand 8 (junk 8) (lit "%fXY")
     (lit "p") (lit "ABCDEFGHIJ") (lit "r")) ≫= (λ m, string_at m 0)
  = Some (lit "ABCDEFX").
Proof. vm_compute. reflexivity. Qed.

Example restore_run_ok :
  run scripted
      (RestoreArchivedFile pg_build in_recovery [] (lit "000000010000000000000003")
         (lit "RECOVERYXLOG") 16777216 false)
      (Script [StatErr ENOENT; StatOk 16777216] [] [0%Z] [] [] [])
  = ([ EvStat (lit "pg_xlog/RECOVERYXLOG") (StatErr ENOENT);
       EvLog DEBUG3 (executing_restore_command
          (lit "cp /mnt/archive/000000010000000000000003 pg_xlog/RECOVERYXLOG"));
       EvPreRestoreCommand;
       EvSystem (lit "cp /mnt/archive/000000010000000000000003 pg_xlog/RECOVERYXLOG") 0;
       EvPostRestoreCommand;
       EvStat (lit "pg_xlog/RECOVERYXLOG") (StatOk 16777216);
       EvLog LOG (restored_log_file (lit "000000010000000000000003")) ],
     Returned (true, lit "pg_xlog/RECOVERYXLOG"),
     quiet).
Proof. vm_compute. reflexivity. Qed.


(** ** C strings and character arrays *)

Lemma is_nul_false (c : ascii) : is_nul c = false ↔ c ≠ NUL.
Proof. unfold is_nul. apply Ascii.eqb_neq. Qed.

Lemma is_nul_true (c : ascii) : is_nul c = true ↔ c = NUL.
Proof. unfold is_nul. apply Ascii.eqb_eq. Qed.

Lemma cstr_no_nul (s : list ascii) : Forall (λ c, c ≠ NUL) (cstr s).
Proof.
  induction s as [|c s IH]; simpl; [constructor|].
  destruct (is_nul c) eqn:E; constructor; [by apply is_nul_false | done].
Qed.

Lemma cstr_id (s : list ascii) : Forall (λ c, c ≠ NUL) s → cstr s = s.
Proof.
  induction 1 as [|c s Hc _ IH]; simpl; [done|].
  apply is_nul_false in Hc. by rewrite Hc, IH.
Qed.

Lemma cstr_snprintf (n : nat) (s : list ascii) : cstr (snprintf n s) = snprintf n s.
Proof. apply cstr_id, Forall_take, cstr_no_nul. Qed.

Lemma poke_Some (b : list ascii) (i : nat) (c : ascii) :
  i < length b → poke b i c = Some (<[i:=c]> b).
Proof. intros H. unfold poke. by rewrite decide_True. Qed.

Lemma poke_all_spec (cs : list ascii) : ∀ (b : list ascii) (i : nat),
  i + length cs ≤ length b →
  ∃ b', poke_all b i cs = Some b' ∧ length b' = length b
        ∧ (∀ j, j < i ∨ i + length cs ≤ j → b' !! j = b !! j)
        ∧ (∀ j, j < length cs → b' !! (i + j) = cs !! j).
Proof.
  induction cs as [|c cs IH]; intros b i Hlen; simpl in *.
  - exists b. split; [done|]. split; [done|]. split; [done|].
    intros j Hj. lia.
  - rewrite poke_Some by lia. simpl.
    destruct (IH (<[i:=c]> b) (S i)) as (b' & Hb' & Hl & Hout & Hin).
    { rewrite length_insert. lia. }
    exists b'. rewrite length_insert in Hl.
    split; [done|]. split; [done|]. split.
    + intros j Hj. rewrite Hout by lia. apply list_lookup_insert_ne. lia.
    + intros [|j] Hj.
      * rewrite Nat.add_0_r, Hout by lia. simpl.
        apply list_lookup_insert_eq. lia.
      * replace (i + S j) with (S i + j) by lia. simpl. apply Hin. lia.
Qed.

Lemma strlen_at_spec (k : nat) : ∀ (m : list ascii) (p : nat),
  (∀ j, j < k → ∃ c, m !! (p + j) = Some c ∧ c ≠ NUL) →
  m !! (p + k) = Some NUL →
  strlen_at m p = Some k.
Proof.
  unfold strlen_at.
  induction k as [|k IH]; intros m p Hpre Hend.
  - rewrite Nat.add_0_r in Hend. by rewrite (drop_S _ _ _ Hend).
  - destruct (Hpre 0) as (c & Hc & Hnn); [lia|].
    rewrite Nat.add_0_r in Hc. rewrite (drop_S _ _ _ Hc). cbn [strlen_from].
    apply is_nul_false in Hnn. rewrite Hnn.
    rewrite (IH m (S p)); [done| |].
    + intros j Hj. destruct (Hpre (S j)) as (c' & Hc' & Hn'); [lia|].
      exists c'. by replace (S p + j) with (p + S j) by lia.
    + by replace (S p + k) with (p + S k) by lia.
Qed.

(** ** The loops maintain a bounded, terminated string *)

Lemma put_rep (cap : nat) (c : ascii) (st : cursor) (out : list ascii) :
  rep cap st out → c ≠ NUL →
  ∃ st', put cap c st = Some st' ∧ rep cap st' (emit cap c out).
Proof.
  intros [Hl Hd Ho He Hn Hr] Hc. unfold put, emit. rewrite Hd.
  destruct (decide (length out < cap)) as [Hlt|Hge].
  - rewrite poke_Some by lia. simpl.
    eexists; split; [done|]. constructor; simpl.
    + by rewrite length_insert.
    + rewrite length_app. simpl. lia.
    + intros i x Hx. destruct (decide (i = length out)) as [->|Hne].
      * rewrite lookup_app_r, Nat.sub_diag in Hx by lia. simpl in Hx.
        injection Hx as <-. apply list_lookup_insert_eq. lia.
      * rewrite list_lookup_insert_ne by lia. apply Ho.
        apply lookup_lt_Some in Hx as Hlt'. rewrite length_app in Hlt'. simpl in Hlt'.
        rewrite lookup_app_l in Hx by lia. done.
    + rewrite list_lookup_insert_ne by lia. done.
    + apply Forall_app. split; [done|]. by constructor.
    + rewrite length_app. simpl. lia.
  - eexists; split; [done|]. by constructor.
Qed.

Lemma copy_rep (cap : nat) (v : list ascii) (st : cursor) (out : list ascii) :
  rep cap st out →
  ∃ st', copy_in cap v st = Some st' ∧ rep cap st' (emit_value cap v out).
Proof.
  intros [Hl Hd Ho He Hn Hr]. unfold copy_in, emit_value, StrNCpy. rewrite Hd.
  destruct (decide (length out = cap)) as [Heq|Hne].
  - (* no room at all: nothing is copied, and dp already is at the terminator *)
    rewrite Heq, Z.sub_diag. simpl.
    rewrite (strlen_at_spec 0 (mem st) cap); [|intros j Hj; lia|by rewrite Nat.add_0_r].
    simpl. eexists; split; [done|].
    replace (cap - cap - 1) with 0 by lia. rewrite take_0, app_nil_r.
    constructor; simpl; try done; lia.
  - set (d := length out) in *.
    set (n := cap - d).
    assert (Hn1 : 1 ≤ n) by (unfold n; lia).
    replace (Z.of_nat cap - Z.of_nat d)%Z with (Z.of_nat n) by (unfold n; lia).
    destruct (Z.of_nat n =? 0)%Z eqn:E0; [apply Z.eqb_eq in E0; lia|].
    destruct (Z.of_nat n <? 0)%Z eqn:E1; [apply Z.ltb_lt in E1; lia|].
    rewrite Nat2Z.id. unfold strncpy.
    set (X := take n (cstr v ++ replicate n NUL)).
    assert (HX : length X = n).
    { unfold X. rewrite length_take, length_app, length_replicate. lia. }
    destruct (poke_all_spec X (mem st) d) as (b1 & Hb1 & Hl1 & Hout1 & Hin1).
    { rewrite HX. unfold n. lia. }
    rewrite Hb1. simpl. rewrite poke_Some by (rewrite Hl1; unfold n; lia). simpl.
    set (m2 := <[d + n - 1:=NUL]> b1).
    set (Y := take (n - 1) (cstr v)).
    assert (HY : length Y ≤ n - 1) by (unfold Y; rewrite length_take; lia).
    assert (HYc : length Y ≤ length (cstr v)) by (unfold Y; rewrite length_take; lia).
    assert (Hbody : ∀ j, j < length Y → m2 !! (d + j) = Y !! j).
    { intros j Hj. unfold m2. rewrite list_lookup_insert_ne by lia.
      rewrite Hin1 by lia. unfold X, Y.
      rewrite !lookup_take_lt by lia. apply lookup_app_l. lia. }
    assert (Hterm : m2 !! (d + length Y) = Some NUL).
    { unfold m2. destruct (decide (length Y = n - 1)) as [E|E].
      - rewrite E. replace (d + (n - 1)) with (d + n - 1) by lia.
        apply list_lookup_insert_eq. rewrite Hl1. unfold n. lia.
      - rewrite list_lookup_insert_ne by lia.
        rewrite Hin1 by lia. unfold X. rewrite lookup_take_lt by lia.
        assert (length Y = length (cstr v)) as ->.
        { unfold Y in *. rewrite length_take in *. lia. }
        rewrite lookup_app_r, Nat.sub_diag by lia.
        apply lookup_replicate_2. lia. }
    assert (HYn : Forall (λ c, c ≠ NUL) Y) by apply Forall_take, cstr_no_nul.
    rewrite (strlen_at_spec (length Y) m2 d); [|intros j Hj|done].
    2:{ destruct (lookup_lt_is_Some_2 Y j Hj) as [c Hc]. exists c. split.
        - by rewrite Hbody.
        - by apply (proj1 (Forall_lookup _ _) HYn j c). }
    simpl. eexists; split; [done|].
    replace (cap - d - 1) with (n - 1) by (unfold n; lia). fold Y.
    constructor; simpl.
    + unfold m2. rewrite length_insert. lia.
    + rewrite length_app. done.
    + intros i c Hc. destruct (decide (i < d)) as [Hi|Hi].
      * rewrite lookup_app_l in Hc by done.
        unfold m2. rewrite list_lookup_insert_ne by lia.
        rewrite Hout1 by lia. by apply Ho.
      * apply lookup_lt_Some in Hc as Hlt. rewrite length_app in Hlt. fold d in Hlt.
        rewrite lookup_app_r in Hc by lia. fold d in Hc.
        replace i with (d + (i - d)) by lia. rewrite Hbody by lia. done.
    + unfold m2. rewrite list_lookup_insert_ne by (unfold n; lia).
      rewrite Hout1 by (rewrite HX; unfold n; lia). done.
    + apply Forall_app. done.
    + rewrite length_app. fold d. unfold n in *. lia.
Qed.

(** Induction along a template: a step of the loop continues either after
    the character it looked at or after the one that follows it. *)
Lemma template_ind (Q : list ascii → Prop) :
  Q [] →
  (∀ c sp1, Q sp1 → (∀ c1 sp2, sp1 = c1 :: sp2 → Q sp2) → Q (c :: sp1)) →
  ∀ sp, Q sp.
Proof.
  intros Hnil Hcons sp.
  enough (Q sp ∧ ∀ c1 sp2, sp = c1 :: sp2 → Q sp2) by tauto.
  induction sp as [|c sp [IH1 IH2]].
  - split; [done | intros ? ? [=]].
  - split; [by apply Hcons | by intros ? ? [= _ <-]].
Qed.

Lemma percent_not_nul : "%" ≠ NUL.
Proof. discriminate. Qed.

Lemma expand_loop_rep (cap : nat) (value : ascii → option (list ascii)) (sp : list ascii) :
  ∀ st out, rep cap st out →
  ∃ st', expand_loop cap value sp st = Some st'
         ∧ rep cap st' (emitted cap value sp out).
Proof.
  induction sp as [|c sp1 IH1 IH2] using template_ind; intros st out Hrep.
  - by exists st.
  - cbn [expand_loop emitted].
    destruct (is_nul c) eqn:Hc; [by exists st|]. apply is_nul_false in Hc.
    assert (Hput : ∀ sp', (∀ st out, rep cap st out →
                 ∃ st', expand_loop cap value sp' st = Some st'
                        ∧ rep cap st' (emitted cap value sp' out)) →
              ∀ x, x ≠ NUL →
              ∃ st', put cap x st ≫= expand_loop cap value sp' = Some st'
                     ∧ rep cap st' (emitted cap value sp' (emit cap x out))).
    { intros sp' IH x Hx.
      destruct (put_rep cap x st out Hrep Hx) as (st1 & -> & Hrep1).
      simpl. by apply IH. }
    destruct (Ascii.eqb c "%") eqn:Hpc; [|by apply Hput].
    destruct sp1 as [|c1 sp2]; [by apply Hput|].
    destruct (value c1) as [v|].
    + destruct (copy_rep cap v st out Hrep) as (st1 & -> & Hrep1).
      simpl. by apply (IH2 c1 sp2).
    + destruct (Ascii.eqb c1 "%") eqn:Hc1.
      * apply Ascii.eqb_eq in Hc1 as ->.
        apply Hput; [by apply (IH2 "%" sp2) | apply percent_not_nul].
      * by apply Hput.
Qed.

(** The two loops of the source are the loop over their tables. *)
Lemma restore_loop_table (endp : nat) (xlogpath xlogfname lastRestartPointFname : list ascii)
    (sp : list ascii) : ∀ st,
  restore_loop endp xlogpath xlogfname lastRestartPointFname sp st
  = expand_loop endp (restore_placeholders xlogpath xlogfname lastRestartPointFname) sp st.
Proof.
  induction sp as [|c sp1 IH1 IH2] using template_ind; intros st; [done|].
  cbn [restore_loop expand_loop].
  destruct (is_nul c); [done|].
  assert (Hput : ∀ x,
    put endp x st ≫= restore_loop endp xlogpath xlogfname lastRestartPointFname sp1
    = put endp x st ≫= expand_loop endp
        (restore_placeholders xlogpath xlogfname lastRestartPointFname) sp1).
  { intros x. destruct (put endp x st); simpl; [apply IH1 | done]. }
  destruct (Ascii.eqb c "%"); [|apply Hput].
  destruct sp1 as [|c1 sp2]; [apply Hput|].
  specialize (IH2 c1 sp2 eq_refl).
  unfold restore_placeholders.
  destruct (Ascii.eqb c1 "p") eqn:Ep.
  { unfold copy_in, make_native_path.
    destruct (StrNCpy _ _ _ _) as [m|]; simpl; [|done].
    destruct (strlen_at m (dp st)); simpl; [apply IH2 | done]. }
  destruct (Ascii.eqb c1 "f") eqn:Ef.
  { destruct (copy_in _ _ _); simpl; [apply IH2 | done]. }
  destruct (Ascii.eqb c1 "r") eqn:Er.
  { destruct (copy_in _ _ _); simpl; [apply IH2 | done]. }
  destruct (Ascii.eqb c1 "%") eqn:Epc; [|apply Hput].
  destruct (put _ _ _); simpl; [apply IH2 | done].
Qed.

Lemma recovery_loop_table (endp : nat) (lastRestartPointFname : list ascii)
    (sp : list ascii) : ∀ st,
  recovery_loop endp lastRestartPointFname sp st
  = expand_loop endp (recovery_placeholders lastRestartPointFname) sp st.
Proof.
  induction sp as [|c sp1 IH1 IH2] using template_ind; intros st; [done|].
  cbn [recovery_loop expand_loop].
  destruct (is_nul c); [done|].
  assert (Hput : ∀ x,
    put endp x st ≫= recovery_loop endp lastRestartPointFname sp1
    = put endp x st ≫= expand_loop endp (recovery_placeholders lastRestartPointFname) sp1).
  { intros x. destruct (put endp x st); simpl; [apply IH1 | done]. }
  destruct (Ascii.eqb c "%"); [|apply Hput].
  destruct sp1 as [|c1 sp2]; [apply Hput|].
  specialize (IH2 c1 sp2 eq_refl).
  unfold recovery_placeholders.
  destruct (Ascii.eqb c1 "r") eqn:Er.
  { destruct (copy_in _ _ _); simpl; [apply IH2 | done]. }
  destruct (Ascii.eqb c1 "%") eqn:Epc; [|apply Hput].
  destruct (put _ _ _); simpl; [apply IH2 | done].
Qed.

(** The three lines around the loop: the terminator stored at [endp], the
    loop from the start of the array, the terminator stored at [dp]. *)
Lemma build_spec (cap : nat) (value : ascii → option (list ascii))
    (template array : list ascii) :
  length array = S cap →
  ∃ m, (m0 ← poke array cap NUL;
        st ← expand_loop cap value template (Cursor m0 0);
        poke (mem st) (dp st) NUL) = Some m
       ∧ length m = S cap
       ∧ m !! length (emitted cap value template []) = Some NUL
       ∧ string_at m 0 = Some (emitted cap value template [])
       ∧ Forall (λ c, c ≠ NUL) (emitted cap value template [])
       ∧ length (emitted cap value template []) ≤ cap.
Proof.
  intros Hlen. rewrite poke_Some by lia. simpl.
  assert (Hrep0 : rep cap (Cursor (<[cap:=NUL]> array) 0) []).
  { constructor; simpl; try done.
    - by rewrite length_insert.
    - apply list_lookup_insert_eq. lia.
    - lia. }
  destruct (expand_loop_rep cap value template _ _ Hrep0) as (st & -> & Hrep).
  simpl. set (out := emitted cap value template []) in *.
  destruct Hrep as [Hl Hd Ho He Hn Hr].
  rewrite poke_Some by lia. rewrite Hd.
  set (m := <[length out:=NUL]> (mem st)).
  assert (Hbody : ∀ j, j < length out → m !! j = out !! j).
  { intros j Hj. unfold m. rewrite list_lookup_insert_ne by lia.
    destruct (lookup_lt_is_Some_2 out j Hj) as [c Hc]. rewrite Hc. by apply Ho. }
  assert (Hterm : m !! length out = Some NUL).
  { apply list_lookup_insert_eq. lia. }
  exists m. split; [done|]. split; [unfold m; by rewrite length_insert|].
  split; [done|]. split; [|done].
  unfold string_at.
  rewrite (strlen_at_spec (length out) m 0); [|intros j Hj|done].
  2:{ destruct (lookup_lt_is_Some_2 out j Hj) as [c Hc]. exists c. split.
      - simpl. by rewrite Hbody.
      - by apply (proj1 (Forall_lookup _ _) Hn j c). }
  simpl. f_equal. rewrite drop_0. apply list_eq. intros i.
  destruct (decide (i < length out)) as [Hi|Hi].
  - rewrite lookup_take_lt by done. by apply Hbody.
  - rewrite lookup_take_ge by lia. symmetry. apply lookup_ge_None. lia.
Qed.

(** ** The bounded output against the unbounded expansion *)

Lemma expansion_other (value : ascii → option (list ascii)) (c1 : ascii) (sp2 : list ascii) :
  value c1 = None → Ascii.eqb c1 "%" = false →
  expansion value ("%" :: c1 :: sp2) = "%" :: expansion value (c1 :: sp2).
Proof.
  intros Hv Hp. cbn [expansion]. rewrite Hv, Hp.
  replace (is_nul "%") with false by done. replace (Ascii.eqb "%" "%") with true by done.
  by destruct (is_nul c1).
Qed.

Lemma emitted_other (cap : nat) (value : ascii → option (list ascii))
    (c1 : ascii) (sp2 out : list ascii) :
  value c1 = None → Ascii.eqb c1 "%" = false →
  emitted cap value ("%" :: c1 :: sp2) out = emitted cap value (c1 :: sp2) (emit cap "%" out).
Proof. intros Hv Hp. cbn [emitted]. by rewrite Hv, Hp. Qed.

Ltac at_percent :=
  cbn [emitted expansion];
  change (is_nul "%") with false;
  change (Ascii.eqb "%" "%") with true;
  cbn [emitted expansion].

Ltac at_percent_in H :=
  cbn [emitted expansion] in H;
  change (is_nul "%") with false in H;
  change (Ascii.eqb "%" "%") with true in H;
  cbn [emitted expansion] in H.

Lemma emitted_fits (cap : nat) (value : ascii → option (list ascii)) (sp : list ascii) :
  ∀ out, length out + length (expansion value sp) < cap →
  emitted cap value sp out = out ++ expansion value sp.
Proof.
  induction sp as [|c sp1 IH1 IH2] using template_ind; intros out Hfit.
  - simpl. by rewrite app_nil_r.
  - assert (Hemit : ∀ x sp', (∀ out, length out + length (expansion value sp') < cap →
                 emitted cap value sp' out = out ++ expansion value sp') →
              length out + S (length (expansion value sp')) < cap →
              emitted cap value sp' (emit cap x out) = out ++ x :: expansion value sp').
    { intros x sp' IH Hlt. unfold emit. rewrite decide_True by lia.
      rewrite IH; [by rewrite <- app_assoc | rewrite length_app; simpl; lia]. }
    destruct (Ascii.eqb c "%") eqn:Hpc.
    + apply Ascii.eqb_eq in Hpc as ->.
      destruct sp1 as [|c1 sp2]; [by apply (Hemit "%" [])|].
      destruct (value c1) as [v|] eqn:Hv.
      * at_percent. at_percent_in Hfit. rewrite Hv in Hfit |- *. rewrite length_app in Hfit.
        rewrite (IH2 c1 sp2 eq_refl); unfold emit_value.
        -- rewrite take_ge by lia. by rewrite <- app_assoc.
        -- rewrite take_ge by lia. rewrite length_app. lia.
      * destruct (Ascii.eqb c1 "%") eqn:Hc1.
        -- apply Ascii.eqb_eq in Hc1 as ->.
           at_percent. at_percent_in Hfit. rewrite Hv in Hfit |- *.
           apply (Hemit "%" sp2); [by apply (IH2 "%" sp2) | done].
        -- rewrite expansion_other in Hfit |- * by done.
           rewrite emitted_other by done.
           by apply (Hemit "%" (c1 :: sp2)).
    + cbn [emitted expansion] in Hfit |- *. rewrite Hpc in Hfit |- *.
      destruct (is_nul c); [by rewrite app_nil_r|]. by apply (Hemit c sp1).
Qed.

Lemma emit_sublist (cap : nat) (x : ascii) (out : list ascii) :
  sublist (emit cap x out) (out ++ [x]).
Proof.
  unfold emit. case_decide; [done|]. by apply sublist_inserts_r.
Qed.

(** Whatever the bound, the output is the unbounded expansion with
    characters left out. *)
Lemma emitted_sublist (cap : nat) (value : ascii → option (list ascii)) (sp : list ascii) :
  ∀ out, sublist (emitted cap value sp out) (out ++ expansion value sp).
Proof.
  induction sp as [|c sp1 IH1 IH2] using template_ind; intros out.
  - simpl. by rewrite app_nil_r.
  - assert (Hemit : ∀ x sp', (∀ out, sublist (emitted cap value sp' out)
                                          (out ++ expansion value sp')) →
              sublist (emitted cap value sp' (emit cap x out))
                      (out ++ x :: expansion value sp')).
    { intros x sp' IH. etrans; [apply IH|].
      rewrite (cons_middle x), app_assoc.
      apply sublist_app; [apply emit_sublist | done]. }
    destruct (Ascii.eqb c "%") eqn:Hpc.
    + apply Ascii.eqb_eq in Hpc as ->.
      destruct sp1 as [|c1 sp2]; [by apply (Hemit "%" [])|].
      destruct (value c1) as [v|] eqn:Hv.
      * at_percent. rewrite Hv.
        etrans; [apply (IH2 c1 sp2 eq_refl)|].
        unfold emit_value. rewrite <- app_assoc.
        apply sublist_app; [done|]. apply sublist_app; [apply sublist_take | done].
      * destruct (Ascii.eqb c1 "%") eqn:Hc1.
        -- apply Ascii.eqb_eq in Hc1 as ->.
           at_percent. rewrite Hv.
           apply (Hemit "%" sp2). by apply (IH2 "%" sp2).
        -- rewrite expansion_other, emitted_other by done.
           by apply (Hemit "%" (c1 :: sp2)).
    + cbn [emitted expansion]. rewrite Hpc.
      destruct (is_nul c); [by rewrite app_nil_r|]. by apply (Hemit c sp1).
Qed.

Lemma BuildRestoreCommand_table (M : nat)
    (array template xlogpath xlogfname lastRestartPointFname : list ascii) :
  BuildRestoreCommand M array template xlogpath xlogfname lastRestartPointFname
  = (m0 ← poke array (M - 1) NUL;
     st ← expand_loop (M - 1) (restore_placeholders xlogpath xlogfname lastRestartPointFname)
            template (Cursor m0 0);
     poke (mem st) (dp st) NUL).
Proof.
  unfold BuildRestoreCommand. destruct (poke array (M - 1) NUL); simpl; [|done].
  by rewrite restore_loop_table.
Qed.

Lemma BuildRecoveryCommand_table (M : nat)
    (array command lastRestartPointFname : list ascii) :
  BuildRecoveryCommand M array command lastRestartPointFname
  = (m0 ← poke array (M - 1) NUL;
     st ← expand_loop (M - 1) (recovery_placeholders lastRestartPointFname)
            command (Cursor m0 0);
     poke (mem st) (dp st) NUL).
Proof.
  unfold BuildRecoveryCommand. destruct (poke array (M - 1) NUL); simpl; [|done].
  by rewrite recovery_loop_table.
Qed.

(** The command handed to [system] by [RestoreArchivedFile]. *)
Lemma restore_command_string (M : nat)
    (array template xlogpath xlogfname lastRestartPointFname : list ascii) :
  1 ≤ M → length array = M →
  BuildRestoreCommand M array template xlogpath xlogfname lastRestartPointFname
    ≫= (λ m, string_at m 0)
  = Some (emitted (M - 1) (restore_placeholders xlogpath xlogfname lastRestartPointFname)
            template []).
Proof.
  intros HM Hlen. rewrite BuildRestoreCommand_table.
  destruct (build_spec (M - 1) (restore_placeholders xlogpath xlogfname lastRestartPointFname)
              template array) as (m & -> & _ & _ & Hs & _); [lia|].
  done.
Qed.

(** The command handed to [system] by [ExecuteRecoveryCommand]. *)
Lemma recovery_command_string (M : nat) (array command lastRestartPointFname : list ascii) :
  1 ≤ M → length array = M →
  BuildRecoveryCommand M array command lastRestartPointFname ≫= (λ m, string_at m 0)
  = Some (emitted (M - 1) (recovery_placeholders lastRestartPointFname) command []).
Proof.
  intros HM Hlen. rewrite BuildRecoveryCommand_table.
  destruct (build_spec (M - 1) (recovery_placeholders lastRestartPointFname)
              command array) as (m & -> & _ & _ & Hs & _); [lia|].
  done.
Qed.

Lemma length_automatic (P : platform) (n : nat) : length (automatic P n) = n.
Proof. unfold automatic. by rewrite length_map, length_seq. Qed.

(** ** Template expansion *)

(** C9.  Whatever the template and the substituted values, and however long
    their full expansion, the lines that build the restore command never
    store or load outside the destination array (the model yields [None]
    on any such access), and they leave in it a string that is terminated
    inside the array: it has fewer than [MAXPGPATH] characters, a NUL
    follows them, and it is the full expansion with characters left out. *)
Theorem BuildRestoreCommand_within_bounds (M : nat)
    (array template xlogpath xlogfname lastRestartPointFname : list ascii) :
  1 ≤ M → length array = M →
  ∃ m cmd,
    BuildRestoreCommand M array template xlogpath xlogfname lastRestartPointFname = Some m
    ∧ length m = M
    ∧ string_at m 0 = Some cmd
    ∧ length cmd < M
    ∧ m !! length cmd = Some NUL
    ∧ Forall (λ c, c ≠ NUL) cmd
    ∧ sublist cmd
        (expansion (restore_placeholders xlogpath xlogfname lastRestartPointFname) template).
Proof.
  intros HM Hlen. rewrite BuildRestoreCommand_table.
  destruct (build_spec (M - 1) (restore_placeholders xlogpath xlogfname lastRestartPointFname)
              template array) as (m & -> & Hl & Ht & Hs & Hn & Hr); [lia|].
  eexists m, _. split; [done|]. split; [lia|]. split; [exact Hs|].
  split; [lia|]. split; [done|]. split; [done|].
  apply (emitted_sublist _ _ _ []).
Qed.

Lemma BuildRestoreCommand_within_bounds_overlong :
  ∃ m cmd,
    BuildRestoreCommand 8 (replicate 8 "x") (lit "%fXY") (lit "p") (lit "ABCDEFGHIJ") (lit "r")
      = Some m
    ∧ length m = 8
    ∧ string_at m 0 = Some cmd
    ∧ length cmd < 8
    ∧ m !! length cmd = Some NUL
    ∧ Forall (λ c, c ≠ NUL) cmd
    ∧ sublist cmd
        (expansion (restore_placeholders (lit "p") (lit "ABCDEFGHIJ") (lit "r")) (lit "%fXY")).
Proof.
  apply (BuildRestoreCommand_within_bounds 8); [lia | reflexivity].
Defined.

(** The expansion of the specification on [%%] and on a [%] that is
    followed by a character outside the table of placeholders. *)
Lemma expansion_percent_percent (value : ascii → option (list ascii)) (t : list ascii) :
  value "%" = None →
  expansion value ("%" :: "%" :: t) = "%" :: expansion value t.
Proof. intros Hv. at_percent. by rewrite Hv. Qed.

Lemma expansion_unrecognised (value : ascii → option (list ascii)) (c : ascii) (t : list ascii) :
  value c = None → c ≠ "%" → c ≠ NUL →
  expansion value ("%" :: c :: t) = "%" :: c :: expansion value t.
Proof.
  intros Hv Hp Hn. apply Ascii.eqb_neq in Hp. apply is_nul_false in Hn.
  at_percent. by rewrite Hv, Hp, Hn.
Qed.

(** What the loop has written is what the array holds below [dp]. *)
Lemma rep_written (cap : nat) (st : cursor) (out : list ascii) :
  rep cap st out → out = take (dp st) (mem st).
Proof.
  intros [Hl Hd Ho He Hn Hr]. apply list_eq. intros i.
  destruct (decide (i < length out)) as [Hi|Hi].
  - rewrite lookup_take_lt by lia.
    destruct (lookup_lt_is_Some_2 out i Hi) as [c Hc]. rewrite Hc. symmetry. by apply Ho.
  - rewrite lookup_take_ge by lia. apply lookup_ge_None. lia.
Qed.

(** A single character is stored whenever [dp < endp], and is dropped
    otherwise; no store is outside an array that reaches [endp]. *)
Lemma put_within (endp : nat) (c : ascii) (st : cursor) :
  endp < length (mem st) →
  put endp c st
  = Some (if decide (dp st < endp) then Cursor (<[dp st:=c]> (mem st)) (S (dp st)) else st).
Proof.
  intros Hlen. unfold put. case_decide; [|done]. by rewrite poke_Some by lia.
Qed.

Lemma take_take_app {A : Type} (n : nat) (l k : list A) :
  take n (take n l ++ k) = take n (l ++ k).
Proof.
  destruct (decide (length l ≤ n)) as [Hle|Hgt].
  - by rewrite (take_ge l) by done.
  - rewrite !take_app_le by (rewrite ?length_take; lia). by rewrite take_take, Nat.min_id.
Qed.

Lemma emit_take (cap : nat) (c : ascii) (out : list ascii) :
  length out ≤ cap → emit cap c out = take cap (out ++ [c]).
Proof.
  intros Hle. unfold emit. case_decide.
  - rewrite take_ge; [done | rewrite length_app; simpl; lia].
  - replace cap with (length out) by lia. by rewrite take_app_length.
Qed.

Lemma length_emit (cap : nat) (c : ascii) (out : list ascii) :
  length out ≤ cap → length (emit cap c out) ≤ cap.
Proof. intros Hle. unfold emit. case_decide; [rewrite length_app; simpl; lia | done]. Qed.

(** Where no value is substituted, the output is the expansion cut at the
    bound. *)
Lemma emitted_plain (cap : nat) (value : ascii → option (list ascii)) (sp : list ascii) :
  plain value sp = true →
  ∀ out, length out ≤ cap →
  emitted cap value sp out = take cap (out ++ expansion value sp).
Proof.
  induction sp as [|c sp1 IH1 IH2] using template_ind; intros Hplain out Hle.
  - simpl. rewrite app_nil_r. by rewrite take_ge.
  - assert (Hemit : ∀ x sp',
              (∀ out, length out ≤ cap →
                 emitted cap value sp' out = take cap (out ++ expansion value sp')) →
              emitted cap value sp' (emit cap x out)
              = take cap (out ++ x :: expansion value sp')).
    { intros x sp' IH. rewrite IH by by apply length_emit.
      rewrite emit_take by done. rewrite take_take_app. by rewrite <- app_assoc. }
    cbn [plain] in Hplain.
    destruct (is_nul c) eqn:Hc.
    { cbn [emitted expansion]. rewrite Hc, app_nil_r. by rewrite take_ge. }
    destruct (Ascii.eqb c "%") eqn:Hpc.
    + apply Ascii.eqb_eq in Hpc as ->.
      destruct sp1 as [|c1 sp2].
      { apply (Hemit "%" []). intros o Ho. simpl. by rewrite app_nil_r, take_ge. }
      destruct (value c1) as [v|] eqn:Hv; [done|].
      destruct (Ascii.eqb c1 "%") eqn:Hc1.
      * apply Ascii.eqb_eq in Hc1 as ->.
        at_percent. rewrite Hv.
        apply (Hemit "%" sp2). by apply (IH2 "%" sp2).
      * rewrite expansion_other, emitted_other by done.
        apply (Hemit "%" (c1 :: sp2)). by apply IH1.
    + cbn [emitted expansion]. rewrite Hc, Hpc. apply (Hemit c sp1). by apply IH1.
Qed.

(** C8 (as amended).  Both expansions are functions of the template and of
    the substituted values alone: whatever the destination array held
    before, the resulting command is the same, and it is what the loop
    leaves below [dp].  At [%%] the loop stores exactly one [%] when
    [dp < endp], that is when fewer than [MAXPGPATH - 1] characters have
    been written, and stores nothing otherwise; at a [%] followed by a
    character that is no placeholder of the loop at hand ([p], [f], [r] in
    [RestoreArchivedFile], only [r] in [ExecuteRecoveryCommand]) it stores
    the [%] and then that character, each of them under the same
    condition.  Hence the command is the full expansion whenever that is
    at least two characters shorter than [MAXPGPATH], and in a template
    without placeholders it is the first [MAXPGPATH - 1] characters of the
    full expansion, in which [%%] stands for one [%] and a stray [%] for
    itself. *)
Theorem template_expansion_percent (M : nat)
    (array array' template xlogpath xlogfname lastRestartPointFname : list ascii) :
  1 ≤ M → length array = M → length array' = M →
  let restore := restore_placeholders xlogpath xlogfname lastRestartPointFname in
  let recovery := recovery_placeholders lastRestartPointFname in
  let keep (c : ascii) (st : cursor) :=
    if decide (dp st < M - 1) then Cursor (<[dp st:=c]> (mem st)) (S (dp st)) else st in
  (∃ cmd st,
      BuildRestoreCommand M array template xlogpath xlogfname lastRestartPointFname
        ≫= (λ m, string_at m 0) = Some cmd
      ∧ BuildRestoreCommand M array' template xlogpath xlogfname lastRestartPointFname
        ≫= (λ m, string_at m 0) = Some cmd
      ∧ restore_loop (M - 1) xlogpath xlogfname lastRestartPointFname template
          (Cursor (<[M - 1:=NUL]> array) 0) = Some st
      ∧ cmd = take (dp st) (mem st)
      ∧ (length (expansion restore template) + 2 ≤ M → cmd = expansion restore template)
      ∧ (plain restore template = true →
         cmd = take (M - 1) (expansion restore template)))
  ∧ (∃ cmd st,
      BuildRecoveryCommand M array template lastRestartPointFname
        ≫= (λ m, string_at m 0) = Some cmd
      ∧ BuildRecoveryCommand M array' template lastRestartPointFname
        ≫= (λ m, string_at m 0) = Some cmd
      ∧ recovery_loop (M - 1) lastRestartPointFname template
          (Cursor (<[M - 1:=NUL]> array) 0) = Some st
      ∧ cmd = take (dp st) (mem st)
      ∧ (length (expansion recovery template) + 2 ≤ M → cmd = expansion recovery template)
      ∧ (plain recovery template = true →
         cmd = take (M - 1) (expansion recovery template)))
  ∧ (∀ st t, length (mem st) = M →
       restore_loop (M - 1) xlogpath xlogfname lastRestartPointFname ("%" :: "%" :: t) st
       = restore_loop (M - 1) xlogpath xlogfname lastRestartPointFname t (keep "%" st))
  ∧ (∀ st t, length (mem st) = M →
       recovery_loop (M - 1) lastRestartPointFname ("%" :: "%" :: t) st
       = recovery_loop (M - 1) lastRestartPointFname t (keep "%" st))
  ∧ (∀ st c t, length (mem st) = M →
       c ≠ "p" → c ≠ "f" → c ≠ "r" → c ≠ "%" → c ≠ NUL →
       restore_loop (M - 1) xlogpath xlogfname lastRestartPointFname ("%" :: c :: t) st
       = restore_loop (M - 1) xlogpath xlogfname lastRestartPointFname t
           (keep c (keep "%" st)))
  ∧ (∀ st c t, length (mem st) = M → c ≠ "r" → c ≠ "%" → c ≠ NUL →
       recovery_loop (M - 1) lastRestartPointFname ("%" :: c :: t) st
       = recovery_loop (M - 1) lastRestartPointFname t (keep c (keep "%" st)))
  ∧ (∀ t, expansion restore ("%" :: "%" :: t) = "%" :: expansion restore t)
  ∧ (∀ t, expansion recovery ("%" :: "%" :: t) = "%" :: expansion recovery t)
  ∧ (∀ c t, c ≠ "p" → c ≠ "f" → c ≠ "r" → c ≠ "%" → c ≠ NUL →
        expansion restore ("%" :: c :: t) = "%" :: c :: expansion restore t)
  ∧ (∀ c t, c ≠ "r" → c ≠ "%" → c ≠ NUL →
        expansion recovery ("%" :: c :: t) = "%" :: c :: expansion recovery t).
Proof.
  intros HM Hlen Hlen' restore recovery keep.
  assert (Hrep0 : rep (M - 1) (Cursor (<[M - 1:=NUL]> array) 0) []).
  { constructor; simpl; try done.
    - rewrite length_insert. lia.
    - apply list_lookup_insert_eq. lia.
    - lia. }
  assert (Hkeep : ∀ c st, length (mem st) = M →
            put (M - 1) c st = Some (keep c st) ∧ length (mem (keep c st)) = M).
  { intros c st Hst. split; [apply put_within; lia|].
    unfold keep. case_decide; [simpl; by rewrite length_insert | done]. }
  split; [|split; [|split; [|split; [|split; [|split; [|split; [|split; [|split]]]]]]]].
  - destruct (expand_loop_rep (M - 1) restore template _ _ Hrep0) as (st & Hloop & Hrep).
    eexists _, st. split; [by apply restore_command_string|].
    split; [by apply restore_command_string|].
    split; [by rewrite restore_loop_table|].
    split; [by apply (rep_written (M - 1))|]. split.
    + intros Hfit. apply (emitted_fits _ _ _ []). simpl. fold restore. lia.
    + intros Hplain. apply (emitted_plain _ _ _ Hplain []). simpl. lia.
  - destruct (expand_loop_rep (M - 1) recovery template _ _ Hrep0) as (st & Hloop & Hrep).
    eexists _, st. split; [by apply recovery_command_string|].
    split; [by apply recovery_command_string|].
    split; [by rewrite recovery_loop_table|].
    split; [by apply (rep_written (M - 1))|]. split.
    + intros Hfit. apply (emitted_fits _ _ _ []). simpl. fold recovery. lia.
    + intros Hplain. apply (emitted_plain _ _ _ Hplain []). simpl. lia.
  - intros st t Hst. cbn [restore_loop].
    change (is_nul "%") with false. change (Ascii.eqb "%" "%") with true.
    change (Ascii.eqb "%" "p") with false. change (Ascii.eqb "%" "f") with false.
    change (Ascii.eqb "%" "r") with false. cbv iota.
    by rewrite (proj1 (Hkeep "%" st Hst)).
  - intros st t Hst. cbn [recovery_loop].
    change (is_nul "%") with false. change (Ascii.eqb "%" "%") with true.
    change (Ascii.eqb "%" "r") with false. cbv iota.
    by rewrite (proj1 (Hkeep "%" st Hst)).
  - intros st c t Hst Hp Hf Hr Hpc Hn.
    apply Ascii.eqb_neq in Hp, Hf, Hr, Hpc. apply is_nul_false in Hn.
    cbn [restore_loop].
    change (is_nul "%") with false. change (Ascii.eqb "%" "%") with true. cbv iota.
    rewrite Hp, Hf, Hr, Hpc.
    destruct (Hkeep "%" st Hst) as [-> Hst1]. cbn [mbind option_bind].
    cbn [restore_loop]. rewrite Hn, ?Hpc.
    by rewrite (proj1 (Hkeep c _ Hst1)).
  - intros st c t Hst Hr Hpc Hn.
    apply Ascii.eqb_neq in Hr, Hpc. apply is_nul_false in Hn.
    cbn [recovery_loop].
    change (is_nul "%") with false. change (Ascii.eqb "%" "%") with true. cbv iota.
    rewrite Hr, Hpc.
    destruct (Hkeep "%" st Hst) as [-> Hst1]. cbn [mbind option_bind].
    cbn [recovery_loop]. rewrite Hn, ?Hpc.
    by rewrite (proj1 (Hkeep c _ Hst1)).
  - intros t. by apply expansion_percent_percent.
  - intros t. by apply expansion_percent_percent.
  - intros c t Hp Hf Hr Hpc Hn. apply expansion_unrecognised; [|done..].
    unfold restore, restore_placeholders.
    apply Ascii.eqb_neq in Hp, Hf, Hr. by rewrite Hp, Hf, Hr.
  - intros c t Hr Hpc Hn. apply expansion_unrecognised; [|done..].
    unfold recovery, recovery_placeholders.
    apply Ascii.eqb_neq in Hr. by rewrite Hr.
Qed.

Lemma template_expansion_percent_examples :
  BuildRestoreCommand 64 (replicate 64 "x") (lit "cp %f %p 100%% %q")
      (lit "pg_xlog/RECOVERYXLOG") (lit "0001") (lit "0000")
    ≫= (λ m, string_at m 0) = Some (lit "cp 0001 pg_xlog/RECOVERYXLOG 100% %q")
  ∧ BuildRestoreCommand 64 (replicate 64 "y") (lit "cp %f %p 100%% %q")
      (lit "pg_xlog/RECOVERYXLOG") (lit "0001") (lit "0000")
    ≫= (λ m, string_at m 0) = Some (lit "cp 0001 pg_xlog/RECOVERYXLOG 100% %q")
  ∧ BuildRecoveryCommand 64 (replicate 64 "x") (lit "cp %f %p 100%% %q") (lit "0000")
    ≫= (λ m, string_at m 0) = Some (lit "cp %f %p 100% %q")
  ∧ BuildRestoreCommand 8 (replicate 8 "x") (lit "aaaaaa%%") (lit "p") (lit "f") (lit "r")
    ≫= (λ m, string_at m 0) = Some (lit "aaaaaa%")
  ∧ BuildRecoveryCommand 8 (replicate 8 "x") (lit "%%aaaaaaaaaaaa") (lit "r")
    ≫= (λ m, string_at m 0) = Some (lit "%aaaaaa")
  ∧ BuildRestoreCommand 1024 (automatic pg_build 1024) (replicate 1022 "a" ++ lit "%%")
      (lit "p") (lit "f") (lit "r")
    ≫= (λ m, string_at m 0) = Some (replicate 1022 "a" ++ lit "%")
  ∧ restore_loop 7 (lit "p") (lit "f") (lit "r") (lit "%%") (Cursor (lit "aaaaaaxx") 6)
    = Some (Cursor (lit "aaaaaa%x") 7)
  ∧ restore_loop 7 (lit "p") (lit "f") (lit "r") (lit "%%") (Cursor (lit "aaaaaaax") 7)
    = Some (Cursor (lit "aaaaaaax") 7)
  ∧ recovery_loop 7 (lit "r") (lit "%p") (Cursor (lit "aaaaaxxx") 5)
    = Some (Cursor (lit "aaaaa%px") 7)
  ∧ recovery_loop 7 (lit "r") (lit "%p") (Cursor (lit "aaaaaaxx") 6)
    = Some (Cursor (lit "aaaaaa%x") 7).
Proof.
  destruct (template_expansion_percent 64 (replicate 64 "x") (replicate 64 "y")
              (lit "cp %f %p 100%% %q") (lit "pg_xlog/RECOVERYXLOG") (lit "0001") (lit "0000"))
    as ((c1 & s1 & H1 & H1' & _ & _ & E1 & _) & (c2 & s2 & H2 & _ & _ & _ & E2 & _) & _);
    [lia | reflexivity | reflexivity |].
  rewrite E1 in H1, H1' by (vm_compute; lia).
  rewrite E2 in H2 by (vm_compute; lia).
  destruct (template_expansion_percent 8 (replicate 8 "x") (replicate 8 "y")
              (lit "aaaaaa%%") (lit "p") (lit "f") (lit "r"))
    as ((c3 & s3 & H3 & _ & _ & _ & _ & E3) & _ & L1 & _ & _ & L2 & _);
    [lia | reflexivity | reflexivity |].
  rewrite E3 in H3 by (vm_compute; reflexivity).
  destruct (template_expansion_percent 8 (replicate 8 "x") (replicate 8 "y")
              (lit "%%aaaaaaaaaaaa") (lit "p") (lit "f") (lit "r"))
    as (_ & (c4 & s4 & H4 & _ & _ & _ & _ & E4) & _);
    [lia | reflexivity | reflexivity |].
  rewrite E4 in H4 by (vm_compute; reflexivity).
  destruct (template_expansion_percent 1024 (automatic pg_build 1024) (automatic pg_build 1024)
              (replicate 1022 "a" ++ lit "%%") (lit "p") (lit "f") (lit "r"))
    as ((c5 & s5 & H5 & _ & _ & _ & _ & E5) & _);
    [lia | reflexivity | reflexivity |].
  rewrite E5 in H5 by (vm_compute; reflexivity).
  split; [exact H1|]. split; [exact H1'|]. split; [exact H2|].
  split; [exact H3|]. split; [exact H4|].
  split; [rewrite H5; vm_compute; reflexivity|].
  split; [exact (L1 (Cursor (lit "aaaaaaxx") 6) [] eq_refl)|].
  split; [exact (L1 (Cursor (lit "aaaaaaax") 7) [] eq_refl)|].
  split; [exact (L2 (Cursor (lit "aaaaaxxx") 5) "p" [] eq_refl
                   ltac:(discriminate) ltac:(discriminate) ltac:(discriminate))|].
  exact (L2 (Cursor (lit "aaaaaaxx") 6) "p" [] eq_refl
           ltac:(discriminate) ltac:(discriminate) ltac:(discriminate)).
Defined.

(** C8, as it is stated, fails once the array is full: after 1023 ordinary
    characters in an array of 1024, the [%%] that follows yields no [%] at
    all, although the expansion has one. *)
Lemma percent_percent_dropped_when_full :
  BuildRestoreCommand 1024 (automatic pg_build 1024) (replicate 1023 "a" ++ lit "%%")
      (lit "p") (lit "f") (lit "r")
    ≫= (λ m, string_at m 0) = Some (replicate 1023 "a")
  ∧ expansion (restore_placeholders (lit "p") (lit "f") (lit "r"))
      (replicate 1023 "a" ++ lit "%%") = replicate 1023 "a" ++ ["%"]
  ∧ BuildRecoveryCommand 1024 (automatic pg_build 1024) (replicate 1023 "a" ++ lit "%%")
      (lit "r")
    ≫= (λ m, string_at m 0) = Some (replicate 1023 "a")
  ∧ expansion (recovery_placeholders (lit "r"))
      (replicate 1023 "a" ++ lit "%%") = replicate 1023 "a" ++ ["%"].
Proof. repeat split; vm_compute; reflexivity. Qed.

(** ** Running programs *)

Arguments lit : simpl never.
Arguments StatusFilePath : simpl never.
Arguments snprintf : simpl never.
Arguments XLogFileName : simpl never.
Arguments BuildRestoreCommand : simpl never.
Arguments BuildRecoveryCommand : simpl never.
Arguments string_at : simpl never.
Arguments strcmp : simpl never.
Arguments WIFSIGNALED : simpl never.
Arguments WTERMSIG : simpl never.
Arguments WEXITSTATUS : simpl never.

Lemma run_bind {W A B : Type} (os : environment W) (p : prog A) (f : A → prog B) (w : W) :
  run os (bind p f) w
  = match run os p w with
    | (tr, Returned r, w1) => let '(tr2, o, w2) := run os (f r) w1 in (tr ++ tr2, o, w2)
    | (tr, Halted h, w1) => (tr, Halted h, w1)
    end.
Proof.
  revert w. induction p as [r|c k IH|h]; intros w; cbn [run bind].
  - by destruct (run os (f r) w) as [[tr o] w2].
  - destruct (os c w) as [x w1]. rewrite IH.
    destruct (run os (k x) w1) as [[tr [r|h]] w2]; [|done].
    by destruct (run os (f r) w2) as [[tr2 o] w3].
  - done.
Qed.

Lemma run_mbind {W A B : Type} (os : environment W) (p : prog A) (f : A → prog B) (w : W) :
  run os (p ≫= f) w
  = match run os p w with
    | (tr, Returned r, w1) => let '(tr2, o, w2) := run os (f r) w1 in (tr ++ tr2, o, w2)
    | (tr, Halted h, w1) => (tr, Halted h, w1)
    end.
Proof. apply run_bind. Qed.

(** One step of a run: the program tree is unfolded up to its next call. *)
Ltac run_step := cbn [run bind mbind prog_bind call ereport observe fst snd].

(** The next call, with an answer about which nothing is assumed. *)
Ltac any_answer x w :=
  run_step;
  match goal with
  | env : environment _ |- context [?f ?c ?w0] =>
    constr_eq f env; destruct (env c w0) as [x w]
  end;
  run_step.

(** Which entry of a trace given in full an equation [_ = before ++ e :: after]
    can speak of. *)
Ltac trace_cases before :=
  repeat (destruct before as [|? before]; simplify_eq/=).

(** The next call, with the answer given by hypothesis [H]. *)
Ltac answered H := run_step; rewrite H; run_step.

(** ** The archive status protocol *)

Section Protocol.

Context {W : Type} (os : environment W).
Variable P : platform.
Variable G : globals.

Implicit Types (xlog : list ascii) (w : W).

Local Abbreviation done_marker xlog := (StatusFilePath P xlog (lit ".done")).
Local Abbreviation ready_marker xlog := (StatusFilePath P xlog (lit ".ready")).
Local Abbreviation segment_file xlog :=
  (snprintf (MAXPGPATH P) (XLOGDIR P ++ lit "/" ++ cstr xlog)).

(** [XLogArchiveNotify] always comes back to its caller. *)
Lemma XLogArchiveNotify_returns xlog w :
  outcome_of os (XLogArchiveNotify P G xlog) w = Returned tt.
Proof.
  unfold outcome_of, XLogArchiveNotify. cbv zeta.
  any_answer fd w1. destruct fd as [file|].
  - any_answer r w2. destruct (negb (r =? 0)%Z).
    + by any_answer u w3.
    + destruct (IsUnderPostmaster G); [|done].
      any_answer u w3. by destruct u.
  - by any_answer u w2.
Qed.


(** C10.  The archiver is woken (and only when running under the
    postmaster) after the [.ready] marker has been created and closed
    with success, and at no other moment: when [AllocateFile] returns
    NULL or [FreeFile] returns nonzero, the failure is logged and the
    function returns with no signal sent. *)
Theorem XLogArchiveNotify_signals_after_close xlog w :
  (∀ w1, os (AllocateFile (ready_marker xlog) (lit "w")) w = (None, w1) →
     trace_of os (XLogArchiveNotify P G xlog) w
     = [EvAllocateFile (ready_marker xlog) (lit "w") None;
        EvLog LOG (could_not_create_status (ready_marker xlog))]
     ∧ outcome_of os (XLogArchiveNotify P G xlog) w = Returned tt)
  ∧ (∀ file w1 r w2,
     os (AllocateFile (ready_marker xlog) (lit "w")) w = (Some file, w1) →
     os (FreeFile file) w1 = (r, w2) → r ≠ 0%Z →
     trace_of os (XLogArchiveNotify P G xlog) w
     = [EvAllocateFile (ready_marker xlog) (lit "w") (Some file);
        EvFreeFile file r;
        EvLog LOG (could_not_write_status (ready_marker xlog))]
     ∧ outcome_of os (XLogArchiveNotify P G xlog) w = Returned tt)
  ∧ (∀ file w1 w2,
     os (AllocateFile (ready_marker xlog) (lit "w")) w = (Some file, w1) →
     os (FreeFile file) w1 = (0%Z, w2) →
     trace_of os (XLogArchiveNotify P G xlog) w
     = [EvAllocateFile (ready_marker xlog) (lit "w") (Some file); EvFreeFile file 0]
       ++ (if IsUnderPostmaster G
           then [EvSendPostmasterSignal PMSIGNAL_WAKEN_ARCHIVER] else [])
     ∧ outcome_of os (XLogArchiveNotify P G xlog) w = Returned tt)
  ∧ (∀ before after reason,
     trace_of os (XLogArchiveNotify P G xlog) w
     = before ++ EvSendPostmasterSignal reason :: after →
     IsUnderPostmaster G = true ∧ after = []
     ∧ ∃ file, before = [EvAllocateFile (ready_marker xlog) (lit "w") (Some file);
                         EvFreeFile file 0]).
Proof.
  split; [|split; [|split]].
  - intros w1 Ha. split; [|apply XLogArchiveNotify_returns].
    unfold trace_of, XLogArchiveNotify. cbv zeta.
    answered Ha. by any_answer u w2.
  - intros file w1 r w2 Ha Hf Hr. split; [|apply XLogArchiveNotify_returns].
    unfold trace_of, XLogArchiveNotify. cbv zeta.
    answered Ha. answered Hf.
    apply Z.eqb_neq in Hr. rewrite Hr. cbn [negb].
    by any_answer u w3.
  - intros file w1 w2 Ha Hf. split; [|apply XLogArchiveNotify_returns].
    unfold trace_of, XLogArchiveNotify. cbv zeta.
    answered Ha. answered Hf. cbn [Z.eqb negb].
    destruct (IsUnderPostmaster G); [|done].
    by any_answer u w3.
  - intros before after reason.
    unfold trace_of, XLogArchiveNotify. cbv zeta.
    any_answer fd w1. destruct fd as [file|].
    + any_answer r w2. destruct (r =? 0)%Z eqn:Hr; cbn [negb].
      * apply Z.eqb_eq in Hr as ->.
        destruct (IsUnderPostmaster G) eqn:HU.
        -- any_answer u w3. intros Htr. trace_cases before.
           split; [done|]. split; [done|]. by exists file.
        -- run_step. intros Htr. trace_cases before.
      * any_answer u w3. intros Htr. trace_cases before.
    + any_answer u w2. intros Htr. trace_cases before.
Qed.

(** C1.  With archiving inactive the answer is [true] and no marker is
    looked at.  With archiving active the checks come in this order:
    the [.done] marker (found: [true]), the [.ready] marker (found:
    [false]), the [.done] marker once more (found: [true]), and at last
    [XLogArchiveNotify] is called and the answer is [false]. *)
Theorem XLogArchiveCheckDone_order xlog w :
  (XLogArchivingActive G = false →
     run os (XLogArchiveCheckDone P G xlog) w = ([], Returned true, w))
  ∧ (∀ r1 w1,
     XLogArchivingActive G = true →
     os (stat (done_marker xlog)) w = (r1, w1) → stat_ok r1 = true →
     run os (XLogArchiveCheckDone P G xlog) w
     = ([EvStat (done_marker xlog) r1], Returned true, w1))
  ∧ (∀ r1 w1 r2 w2,
     XLogArchivingActive G = true →
     os (stat (done_marker xlog)) w = (r1, w1) → stat_ok r1 = false →
     os (stat (ready_marker xlog)) w1 = (r2, w2) → stat_ok r2 = true →
     run os (XLogArchiveCheckDone P G xlog) w
     = ([EvStat (done_marker xlog) r1; EvStat (ready_marker xlog) r2],
        Returned false, w2))
  ∧ (∀ r1 w1 r2 w2 r3 w3,
     XLogArchivingActive G = true →
     os (stat (done_marker xlog)) w = (r1, w1) → stat_ok r1 = false →
     os (stat (ready_marker xlog)) w1 = (r2, w2) → stat_ok r2 = false →
     os (stat (done_marker xlog)) w2 = (r3, w3) → stat_ok r3 = true →
     run os (XLogArchiveCheckDone P G xlog) w
     = ([EvStat (done_marker xlog) r1; EvStat (ready_marker xlog) r2;
         EvStat (done_marker xlog) r3],
        Returned true, w3))
  ∧ (∀ r1 w1 r2 w2 r3 w3,
     XLogArchivingActive G = true →
     os (stat (done_marker xlog)) w = (r1, w1) → stat_ok r1 = false →
     os (stat (ready_marker xlog)) w1 = (r2, w2) → stat_ok r2 = false →
     os (stat (done_marker xlog)) w2 = (r3, w3) → stat_ok r3 = false →
     run os (XLogArchiveCheckDone P G xlog) w
     = ([EvStat (done_marker xlog) r1; EvStat (ready_marker xlog) r2;
         EvStat (done_marker xlog) r3]
          ++ trace_of os (XLogArchiveNotify P G xlog) w3,
        Returned false,
        (run os (XLogArchiveNotify P G xlog) w3).2)).
Proof.
  unfold XLogArchiveCheckDone.
  split; [|split; [|split; [|split]]].
  - by intros ->.
  - intros r1 w1 -> H1 O1. cbn [negb]. answered H1. by rewrite O1.
  - intros r1 w1 r2 w2 -> H1 O1 H2 O2. cbn [negb].
    answered H1. rewrite O1. answered H2. by rewrite O2.
  - intros r1 w1 r2 w2 r3 w3 -> H1 O1 H2 O2 H3 O3. cbn [negb].
    answered H1. rewrite O1. answered H2. rewrite O2. answered H3. by rewrite O3.
  - intros r1 w1 r2 w2 r3 w3 -> H1 O1 H2 O2 H3 O3. cbn [negb].
    answered H1. rewrite O1. answered H2. rewrite O2. answered H3. rewrite O3.
    rewrite run_mbind. unfold trace_of.
    pose proof (XLogArchiveNotify_returns xlog w3) as Hret. unfold outcome_of in Hret.
    destruct (run os (XLogArchiveNotify P G xlog) w3) as [[tr o] w4].
    simpl in Hret. subst o. cbn [run fst snd]. by rewrite app_nil_r.
Qed.

(** C6.  [XLogArchiveIsBusy] only ever calls [stat], so it creates no
    marker, and it answers: [false] when the [.done] marker is found;
    else [true] when the [.ready] marker is found; else [false] when the
    [.done] marker is found at the second look; else [false] when the
    segment file itself is reported missing ([ENOENT]); and [true] in
    what remains. *)
Theorem XLogArchiveIsBusy_order xlog w :
  (∀ r1 w1,
     os (stat (done_marker xlog)) w = (r1, w1) → stat_ok r1 = true →
     run os (XLogArchiveIsBusy P xlog) w
     = ([EvStat (done_marker xlog) r1], Returned false, w1))
  ∧ (∀ r1 w1 r2 w2,
     os (stat (done_marker xlog)) w = (r1, w1) → stat_ok r1 = false →
     os (stat (ready_marker xlog)) w1 = (r2, w2) → stat_ok r2 = true →
     run os (XLogArchiveIsBusy P xlog) w
     = ([EvStat (done_marker xlog) r1; EvStat (ready_marker xlog) r2],
        Returned true, w2))
  ∧ (∀ r1 w1 r2 w2 r3 w3,
     os (stat (done_marker xlog)) w = (r1, w1) → stat_ok r1 = false →
     os (stat (ready_marker xlog)) w1 = (r2, w2) → stat_ok r2 = false →
     os (stat (done_marker xlog)) w2 = (r3, w3) → stat_ok r3 = true →
     run os (XLogArchiveIsBusy P xlog) w
     = ([EvStat (done_marker xlog) r1; EvStat (ready_marker xlog) r2;
         EvStat (done_marker xlog) r3],
        Returned false, w3))
  ∧ (∀ r1 w1 r2 w2 r3 w3 w4,
     os (stat (done_marker xlog)) w = (r1, w1) → stat_ok r1 = false →
     os (stat (ready_marker xlog)) w1 = (r2, w2) → stat_ok r2 = false →
     os (stat (done_marker xlog)) w2 = (r3, w3) → stat_ok r3 = false →
     os (stat (segment_file xlog)) w3 = (StatErr ENOENT, w4) →
     run os (XLogArchiveIsBusy P xlog) w
     = ([EvStat (done_marker xlog) r1; EvStat (ready_marker xlog) r2;
         EvStat (done_marker xlog) r3; EvStat (segment_file xlog) (StatErr ENOENT)],
        Returned false, w4))
  ∧ (∀ r1 w1 r2 w2 r3 w3 r4 w4,
     os (stat (done_marker xlog)) w = (r1, w1) → stat_ok r1 = false →
     os (stat (ready_marker xlog)) w1 = (r2, w2) → stat_ok r2 = false →
     os (stat (done_marker xlog)) w2 = (r3, w3) → stat_ok r3 = false →
     os (stat (segment_file xlog)) w3 = (r4, w4) → r4 ≠ StatErr ENOENT →
     run os (XLogArchiveIsBusy P xlog) w
     = ([EvStat (done_marker xlog) r1; EvStat (ready_marker xlog) r2;
         EvStat (done_marker xlog) r3; EvStat (segment_file xlog) r4],
        Returned true, w4))
  ∧ (∀ e, e ∈ trace_of os (XLogArchiveIsBusy P xlog) w → ∃ path r, e = EvStat path r).
Proof.
  unfold XLogArchiveIsBusy.
  split; [|split; [|split; [|split; [|split]]]].
  - intros r1 w1 H1 O1. answered H1. by rewrite O1.
  - intros r1 w1 r2 w2 H1 O1 H2 O2.
    answered H1. rewrite O1. answered H2. by rewrite O2.
  - intros r1 w1 r2 w2 r3 w3 H1 O1 H2 O2 H3 O3.
    answered H1. rewrite O1. answered H2. rewrite O2. answered H3. by rewrite O3.
  - intros r1 w1 r2 w2 r3 w3 w4 H1 O1 H2 O2 H3 O3 H4.
    answered H1. rewrite O1. answered H2. rewrite O2. answered H3. rewrite O3.
    by answered H4.
  - intros r1 w1 r2 w2 r3 w3 r4 w4 H1 O1 H2 O2 H3 O3 H4 Hne.
    answered H1. rewrite O1. answered H2. rewrite O2. answered H3. rewrite O3.
    answered H4. destruct r4 as [sz|errno]; [done|].
    destruct (errno =? ENOENT)%Z eqn:E; [|done].
    apply Z.eqb_eq in E as ->. done.
  - intros e. unfold trace_of.
    assert (Hstats : ∀ tr : list event,
              Forall (λ e, ∃ path r, e = EvStat path r) tr →
              e ∈ tr → ∃ path r, e = EvStat path r).
    { intros tr Hall He. by apply (proj1 (Forall_forall _ _) Hall). }
    any_answer r1 w1. destruct (stat_ok r1).
    { apply Hstats. repeat constructor; eauto. }
    any_answer r2 w2. destruct (stat_ok r2).
    { apply Hstats. repeat constructor; eauto. }
    any_answer r3 w3. destruct (stat_ok r3).
    { apply Hstats. repeat constructor; eauto. }
    any_answer r4 w4.
    destruct r4 as [sz|errno]; [|destruct (errno =? ENOENT)%Z];
      apply Hstats; repeat constructor; eauto.
Qed.

End Protocol.

Lemma XLogArchiveNotify_signals_after_close_scripted :
  (trace_of scripted (XLogArchiveNotify pg_build in_recovery (lit "0001"))
     (Script [] [] [] [] [None] [])
   = [EvAllocateFile (lit "pg_xlog/archive_status/0001.ready") (lit "w") None;
      EvLog LOG (could_not_create_status (lit "pg_xlog/archive_status/0001.ready"))])
  ∧ (trace_of scripted (XLogArchiveNotify pg_build in_recovery (lit "0001"))
       (Script [] [] [] [] [Some 3] [(-1)%Z])
     = [EvAllocateFile (lit "pg_xlog/archive_status/0001.ready") (lit "w") (Some 3);
        EvFreeFile 3 (-1);
        EvLog LOG (could_not_write_status (lit "pg_xlog/archive_status/0001.ready"))])
  ∧ (trace_of scripted (XLogArchiveNotify pg_build in_recovery (lit "0001"))
       (Script [] [] [] [] [Some 3] [0%Z])
     = [EvAllocateFile (lit "pg_xlog/archive_status/0001.ready") (lit "w") (Some 3);
        EvFreeFile 3 0;
        EvSendPostmasterSignal PMSIGNAL_WAKEN_ARCHIVER]).
Proof.
  split; [|split].
  - destruct (XLogArchiveNotify_signals_after_close scripted pg_build in_recovery
                (lit "0001") (Script [] [] [] [] [None] [])) as (Ha & _).
    destruct (Ha _ eq_refl) as [Ht _]. exact Ht.
  - destruct (XLogArchiveNotify_signals_after_close scripted pg_build in_recovery
                (lit "0001") (Script [] [] [] [] [Some 3] [(-1)%Z])) as (_ & Hb & _).
    destruct (Hb 3 _ (-1)%Z _ eq_refl eq_refl) as [Ht _]; [lia|]. exact Ht.
  - destruct (XLogArchiveNotify_signals_after_close scripted pg_build in_recovery
                (lit "0001") (Script [] [] [] [] [Some 3] [0%Z])) as (_ & _ & Hc & _).
    destruct (Hc 3 _ _ eq_refl eq_refl) as [Ht _]. exact Ht.
Defined.

(** ** Segment file names *)

Lemma hexdigit_from_zero (d : Z) : 48 ≤ nat_of_ascii (hexdigit d).
Proof.
  unfold hexdigit. generalize (Z.to_nat d). intros k.
  do 17 (destruct k as [|k]; [vm_compute; lia|]). vm_compute. lia.
Qed.

Lemma hex8_from_zero (n : Z) : Forall (λ c, 48 ≤ nat_of_ascii c) (hex8 n).
Proof. unfold hex8. repeat constructor; apply hexdigit_from_zero. Qed.

Lemma hex8_length (n : Z) : length (hex8 n) = 8.
Proof. reflexivity. Qed.

Lemma XLogFileName_from_zero (P : platform) (tli logSegNo : Z) :
  Forall (λ c, 48 ≤ nat_of_ascii c) (XLogFileName P tli logSegNo).
Proof. unfold XLogFileName. rewrite !Forall_app. repeat split; apply hex8_from_zero. Qed.

Lemma XLogFileName_length (P : platform) (tli logSegNo : Z) :
  length (XLogFileName P tli logSegNo) = 24.
Proof. unfold XLogFileName. by rewrite !length_app, !hex8_length. Qed.

Lemma XLogFileName_zero (P : platform) : XLogFileName P 0 0 = replicate 24 "0".
Proof. unfold XLogFileName. by rewrite Zdiv_0_l, Zmod_0_l. Qed.

Lemma strcmp_cons (x y : ascii) (a b : list ascii) :
  strcmp (x :: a) (y :: b)
  = if Ascii.eqb x y
    then (if is_nul x then 0%Z else strcmp a b)
    else (Z.of_nat (nat_of_ascii x) - Z.of_nat (nat_of_ascii y))%Z.
Proof. reflexivity. Qed.

Lemma strcmp_zeros (b : list ascii) :
  Forall (λ c, 48 ≤ nat_of_ascii c) b →
  (strcmp (replicate (length b) "0") b ≤ 0)%Z.
Proof.
  induction 1 as [|y b Hy _ IH]; [done|].
  cbn [length replicate]. rewrite strcmp_cons.
  destruct (Ascii.eqb "0" y) eqn:E.
  - change (is_nul "0") with false. cbv iota. exact IH.
  - change (nat_of_ascii "0") with 48. lia.
Qed.

(** No segment file name sorts before the one of timeline 0, segment 0. *)
Lemma XLogFileName_least (P : platform) (tli logSegNo : Z) :
  (strcmp (XLogFileName P 0 0) (XLogFileName P tli logSegNo) ≤ 0)%Z.
Proof.
  rewrite XLogFileName_zero, <- (XLogFileName_length P tli logSegNo).
  apply strcmp_zeros, XLogFileName_from_zero.
Qed.

Example XLogFileName_example :
  XLogFileName pg_build 1 515 = lit "000000010000000200000003".
Proof. vm_compute. reflexivity. Qed.

(** ** Restoring a file from the archive *)

(** A trace is cut at its only call of [system]. *)
Lemma split_at_system (l1 : list event) : ∀ (l2 before after : list event) c r c' r',
  l1 ++ EvSystem c r :: l2 = before ++ EvSystem c' r' :: after →
  Forall (λ e, ¬ is_system e) l1 → Forall (λ e, ¬ is_system e) l2 →
  before = l1 ∧ c' = c ∧ r' = r ∧ after = l2.
Proof.
  induction l1 as [|e l1 IH]; intros l2 before after c r c' r' Heq H1 H2.
  - destruct before as [|e' before]; simpl in Heq.
    + by injection Heq as <- <- <-.
    + injection Heq as <- Heq. subst l2. exfalso.
      apply Forall_app in H2 as [_ H2]. apply Forall_cons in H2 as [H2 _]. by apply H2.
  - apply Forall_cons in H1 as [He H1].
    destruct before as [|e' before]; simpl in Heq.
    + injection Heq as -> _. exfalso. by apply He.
    + injection Heq as <- Heq.
      destruct (IH _ _ _ _ _ _ _ Heq H1 H2) as (-> & -> & -> & ->). done.
Qed.

Lemma peel_event (e : event) (l before after : list event) c r :
  match e with EvSystem _ _ => False | _ => True end →
  e :: l = before ++ EvSystem c r :: after →
  ∃ before', before = e :: before' ∧ l = before' ++ EvSystem c r :: after.
Proof.
  intros He Heq. destruct before as [|e' before]; simpl in Heq.
  - injection Heq as -> _. destruct He.
  - injection Heq as <- Heq. by exists before.
Qed.

(** The events of a trace before its call of [system], and the call. *)
Ltac cut_at_system H :=
  repeat (apply peel_event in H as (? & -> & H); [|exact I]);
  apply (split_at_system []) in H as (-> & -> & -> & ->); [|constructor|].

(** The trace is the run step by step with the worlds left out. *)
Lemma steps_trace {W R : Type} (os : environment W) (p : prog R) (w : W) :
  (steps os p w).*1 = trace_of os p w.
Proof.
  unfold trace_of. revert w. induction p as [r|c k IH|h]; intros w; cbn [steps run]; [done| |done].
  destruct (os c w) as [x w1]. specialize (IH x w1).
  destruct (run os (k x) w1) as [[tr o] w2]. cbn [fst] in IH |- *.
  by rewrite fmap_cons, IH.
Qed.

Lemma steps_no_system {W R : Type} (os : environment W) (p : prog R) (w : W) :
  Forall (λ e, ¬ is_system e) (trace_of os p w) →
  Forall (λ s, ¬ is_system s.1) (steps os p w).
Proof. rewrite <- steps_trace. by rewrite Forall_fmap. Qed.

(** A run step by step is cut at its only call of [system]. *)
Lemma split_at_system_steps {W : Type} (l1 : list (event * W)) :
  ∀ (l2 before after : list (event * W)) c r w c' r' w',
  l1 ++ (EvSystem c r, w) :: l2 = before ++ (EvSystem c' r', w') :: after →
  Forall (λ s, ¬ is_system s.1) l1 → Forall (λ s, ¬ is_system s.1) l2 →
  before = l1 ∧ c' = c ∧ r' = r ∧ w' = w ∧ after = l2.
Proof.
  induction l1 as [|e l1 IH]; intros l2 before after c r w c' r' w' Heq H1 H2.
  - destruct before as [|e' before]; simpl in Heq.
    + by injection Heq as <- <- <- <-.
    + injection Heq as <- Heq. subst l2. exfalso.
      apply Forall_app in H2 as [_ H2]. apply Forall_cons in H2 as [H2 _]. by apply H2.
  - apply Forall_cons in H1 as [He H1].
    destruct before as [|e' before]; simpl in Heq.
    + injection Heq as -> _. exfalso. by apply He.
    + injection Heq as <- Heq.
      destruct (IH _ _ _ _ _ _ _ _ _ Heq H1 H2) as (-> & -> & -> & -> & ->). done.
Qed.

(** How a run gets to its command: through calls other than [system],
    unless it ends the process before. *)
Lemma up_to_command_halt {W R : Type} (os : environment W) (rest : Z → prog R)
    (h : halt) (w : W) :
  up_to_command os rest (Halt h) w.
Proof. left. split; [constructor | by exists h]. Qed.

Lemma up_to_command_do {W R : Type} (os : environment W) (rest : Z → prog R)
    (c : syscall) (k : reply c → prog R) (w : W) :
  ¬ is_system (observe c (os c w).1) →
  up_to_command os rest (k (os c w).1) (os c w).2 →
  up_to_command os rest (Do c k) w.
Proof.
  unfold up_to_command, outcome_of. cbn [steps run].
  destruct (os c w) as [x w1]. cbn [fst snd].
  destruct (run os (k x) w1) as [[tr o] w2]. cbn [fst snd].
  intros Hns [[Hall Hh]|(before & cmd & rc & w0 & Hb & Hs & Ho)].
  - left. split; [by constructor | done].
  - right. exists ((observe c x, w1) :: before), cmd, rc, w0.
    split; [by constructor|]. split; [by rewrite Hs | done].
Qed.

Lemma up_to_command_system {W R : Type} (os : environment W) (rest : Z → prog R)
    (cmd : list ascii) (w : W) :
  up_to_command os rest
    (Do (system cmd) (λ rc, Do PostRestoreCommand (λ _, rest rc))) w.
Proof.
  right. unfold outcome_of. cbn [steps run].
  destruct (os (system cmd) w) as [rc w0].
  exists [], cmd, rc, w0.
  destruct (os PostRestoreCommand w0) as [u w1]. cbn [fst snd observe].
  destruct (run os (rest rc) w1) as [[tr o] w2]. done.
Qed.

Section FromArchive.

Context {W : Type} (os : environment W).
Variable P : platform.
Variable G : globals.

Implicit Types (path xlogfname recovername xlogpath : list ascii) (w : W).

Local Abbreviation temporary_path recovername :=
  (snprintf (MAXPGPATH P) (XLOGDIR P ++ lit "/" ++ cstr recovername)).
Local Abbreviation conventional_path xlogfname :=
  (snprintf (MAXPGPATH P) (XLOGDIR P ++ lit "/" ++ cstr xlogfname)).

Lemma restore_result_no_system path xlogfname xlogpath expectedSize rc w :
  Forall (λ e, ¬ is_system e)
    (trace_of os (restore_result P G path xlogfname xlogpath expectedSize rc) w).
Proof.
  unfold trace_of, restore_result, restore_failed, not_available.
  destruct (rc =? 0)%Z.
  - any_answer st w1. destruct st as [sz|errno].
    + destruct (_ && _).
      * any_answer u w2.
        destruct (_ && _); cbn [run fst]; repeat constructor; tauto.
      * any_answer u w2. repeat constructor; tauto.
    + destruct (errno =? ENOENT)%Z.
      * run_step. destruct (_ && _); [repeat constructor; tauto|].
        any_answer u w2. destruct (_ || _); repeat constructor; tauto.
      * any_answer u w2. repeat constructor; tauto.
  - destruct (_ && _); [constructor|].
    any_answer u w2. destruct (_ || _); repeat constructor; tauto.
Qed.

(** Up to the call of [system]: the command is built from the
    configured template, the temporary path, the requested file name
    and the cutoff; what follows the call is [restore_result]. *)
Lemma RestoreArchivedFile_run path xlogfname recovername expectedSize cleanupEnabled w
    before cmd rc after : ∀ tr o w',
  run os (RestoreArchivedFile P G path xlogfname recovername expectedSize cleanupEnabled) w
  = (tr, o, w') →
  tr = before ++ EvSystem cmd rc :: after →
  ∃ template lastRestartPointFname w1 tl,
    recoveryRestoreCommand G = Some template
    ∧ BuildRestoreCommand (MAXPGPATH P) (automatic P (MAXPGPATH P)) template
        (temporary_path recovername) xlogfname lastRestartPointFname
        ≫= (λ m, string_at m 0) = Some cmd
    ∧ (if cleanupEnabled
       then ∃ ptr tli,
              EvGetOldestRestartPoint ptr tli ∈ before
              ∧ lastRestartPointFname = XLogFileName P tli (XLByteToSeg P ptr)
              ∧ (USE_ASSERT_CHECKING P = true →
                 (strcmp lastRestartPointFname xlogfname ≤ 0)%Z)
       else lastRestartPointFname = XLogFileName P 0 0
            ∧ Forall (λ e, ¬ is_restart_point e) before)
    ∧ after = EvPostRestoreCommand :: tl
    ∧ run os (restore_result P G path xlogfname (temporary_path recovername)
                expectedSize rc) w1 = (tl, o, w').
Proof.
  unfold RestoreArchivedFile.
  destruct (recoveryRestoreCommand G) as [template|];
    [|intros tr o w' [= <- <- <-] Htr; trace_cases before].
  cbv zeta. any_answer st w1.
  assert (Hcommand : ∀ w0 pre lastRestartPointFname,
    Forall (λ e, ¬ is_system e) pre →
    (if cleanupEnabled
     then ∃ ptr tli,
            EvGetOldestRestartPoint ptr tli ∈ pre
            ∧ lastRestartPointFname = XLogFileName P tli (XLByteToSeg P ptr)
            ∧ (USE_ASSERT_CHECKING P = true →
               (strcmp lastRestartPointFname xlogfname ≤ 0)%Z)
     else lastRestartPointFname = XLogFileName P 0 0
          ∧ Forall (λ e, ¬ is_restart_point e) pre) →
    ∀ tr1 o w',
      run os
        match BuildRestoreCommand (MAXPGPATH P) (automatic P (MAXPGPATH P)) template
                (temporary_path recovername) xlogfname lastRestartPointFname
              ≫= (λ m, string_at m 0) with
        | Some xlogRestoreCmd =>
          _ ← ereport DEBUG3 (executing_restore_command xlogRestoreCmd);
          _ ← call PreRestoreCommand;
          rc ← call (system xlogRestoreCmd);
          _ ← call PostRestoreCommand;
          restore_result P G path xlogfname (temporary_path recovername) expectedSize rc
        | None => Halt memory_fault
        end w0 = (tr1, o, w') →
      pre ++ tr1 = before ++ EvSystem cmd rc :: after →
      ∃ template' lastRestartPointFname' w1 tl,
        Some template = Some template'
        ∧ BuildRestoreCommand (MAXPGPATH P) (automatic P (MAXPGPATH P)) template'
            (temporary_path recovername) xlogfname lastRestartPointFname'
            ≫= (λ m, string_at m 0) = Some cmd
        ∧ (if cleanupEnabled
           then ∃ ptr tli,
                  EvGetOldestRestartPoint ptr tli ∈ before
                  ∧ lastRestartPointFname' = XLogFileName P tli (XLByteToSeg P ptr)
                  ∧ (USE_ASSERT_CHECKING P = true →
                     (strcmp lastRestartPointFname' xlogfname ≤ 0)%Z)
           else lastRestartPointFname' = XLogFileName P 0 0
                ∧ Forall (λ e, ¬ is_restart_point e) before)
        ∧ after = EvPostRestoreCommand :: tl
        ∧ run os (restore_result P G path xlogfname (temporary_path recovername)
                    expectedSize rc) w1 = (tl, o, w')).
  { intros w0 pre lastRestartPointFname Hpre Hcut.
    destruct (_ ≫= _) as [cmd'|] eqn:Hb.
    - any_answer u wa. any_answer u' wb. any_answer rc' wc. any_answer u'' wd.
      destruct (run os _ wd) as [[tl o1] w2'] eqn:Hres.
      intros tr1 o w' [= <- <- <-] Htr.
      assert (Htl : Forall (λ e, ¬ is_system e) tl).
      { pose proof (restore_result_no_system path xlogfname (temporary_path recovername)
                      expectedSize rc' wd) as Hns.
        unfold trace_of in Hns. by rewrite Hres in Hns. }
      change (pre ++ ?a :: ?b :: ?X) with (pre ++ [a; b] ++ X) in Htr.
      rewrite app_assoc in Htr.
      apply split_at_system in Htr as (-> & -> & -> & ->).
      2:{ apply Forall_app. split; [done|]. repeat constructor; tauto. }
      2:{ constructor; [tauto | done]. }
      exists template, lastRestartPointFname, wd, tl.
      split; [done|]. split; [done|]. split; [|done].
      destruct cleanupEnabled.
      + destruct Hcut as (ptr & tli & Hin & -> & Hle). exists ptr, tli.
        split; [|done]. apply elem_of_app. by left.
      + destruct Hcut as [-> Hall]. split; [done|].
        apply Forall_app. split; [done|]. repeat constructor; tauto.
    - cbn [run]. intros tr1 o w' [= <- <- <-] Htr. exfalso.
      rewrite app_nil_r in Htr. subst pre.
      apply Forall_app in Hpre as [_ Hpre]. apply Forall_cons in Hpre as [Hs _].
      by apply Hs. }
  assert (Hcutoff : ∀ w0 pre,
    Forall (λ e, ¬ is_system e) pre → Forall (λ e, ¬ is_restart_point e) pre →
    ∀ tr1 o w',
      run os
        (lastRestartPointFname ← restore_cutoff P xlogfname cleanupEnabled;
         match BuildRestoreCommand (MAXPGPATH P) (automatic P (MAXPGPATH P)) template
                 (temporary_path recovername) xlogfname lastRestartPointFname
               ≫= (λ m, string_at m 0) with
         | Some xlogRestoreCmd =>
           _ ← ereport DEBUG3 (executing_restore_command xlogRestoreCmd);
           _ ← call PreRestoreCommand;
           rc ← call (system xlogRestoreCmd);
           _ ← call PostRestoreCommand;
           restore_result P G path xlogfname (temporary_path recovername) expectedSize rc
         | None => Halt memory_fault
         end) w0 = (tr1, o, w') →
      pre ++ tr1 = before ++ EvSystem cmd rc :: after →
      ∃ template' lastRestartPointFname' w1 tl,
        Some template = Some template'
        ∧ BuildRestoreCommand (MAXPGPATH P) (automatic P (MAXPGPATH P)) template'
            (temporary_path recovername) xlogfname lastRestartPointFname'
            ≫= (λ m, string_at m 0) = Some cmd
        ∧ (if cleanupEnabled
           then ∃ ptr tli,
                  EvGetOldestRestartPoint ptr tli ∈ before
                  ∧ lastRestartPointFname' = XLogFileName P tli (XLByteToSeg P ptr)
                  ∧ (USE_ASSERT_CHECKING P = true →
                     (strcmp lastRestartPointFname' xlogfname ≤ 0)%Z)
           else lastRestartPointFname' = XLogFileName P 0 0
                ∧ Forall (λ e, ¬ is_restart_point e) before)
        ∧ after = EvPostRestoreCommand :: tl
        ∧ run os (restore_result P G path xlogfname (temporary_path recovername)
                    expectedSize rc) w1 = (tl, o, w')).
  { intros w0 pre Hsys Hrp. unfold restore_cutoff.
    destruct cleanupEnabled.
    - any_answer rp w2. destruct rp as [ptr tli]. run_step. unfold Assert.
      destruct (USE_ASSERT_CHECKING P) eqn:HA;
        destruct (strcmp _ _ <=? 0)%Z eqn:Hcmp; cbn [andb negb]; run_step.
      2:{ (* the assertion fails: the process is trapped before any command *)
          intros tr1 o w' [= <- <- <-] Htr. exfalso.
          assert (Hall : Forall (λ e, ¬ is_system e)
                           (pre ++ [EvGetOldestRestartPoint ptr tli])).
          { apply Forall_app. split; [done|]. repeat constructor; tauto. }
          rewrite Htr in Hall. apply Forall_app in Hall as [_ Hall].
          apply Forall_cons in Hall as [Hs _]. by apply Hs. }
      all: destruct (run os _ w2) as [[tr2 o2] w3] eqn:Hrun.
      all: intros tr1 o w' [= <- <- <-] Htr.
      all: rewrite (cons_middle (EvGetOldestRestartPoint ptr tli)), app_assoc in Htr.
      all: eapply (Hcommand w2 (pre ++ [EvGetOldestRestartPoint ptr tli]));
        [ apply Forall_app; split; [done|]; repeat constructor; tauto
        | exists ptr, tli; split; [apply elem_of_app; right; constructor|];
          split; [done|]; try done; intros _; by apply Z.leb_le
        | exact Hrun | exact Htr ].
    - run_step. intros tr1 o w' Hrun Htr.
      by eapply (Hcommand w0 pre). }
  destruct st as [sz|errno].
  - any_answer r w2. destruct (r =? 0)%Z.
    + run_step. destruct (run os _ w2) as [[tr1 o1] w3] eqn:Hrun.
      intros tr o w' [= <- <- <-] Htr.
      eapply (Hcutoff w2 [EvStat _ _; EvUnlink _ _]);
        [repeat constructor; tauto | repeat constructor; tauto | exact Hrun | exact Htr].
    + any_answer u w3. intros tr o w' [= <- <- <-] Htr. trace_cases before.
  - destruct (errno =? ENOENT)%Z.
    + run_step. destruct (run os _ w1) as [[tr1 o1] w3] eqn:Hrun.
      intros tr o w' [= <- <- <-] Htr.
      eapply (Hcutoff w1 [EvStat _ _]);
        [repeat constructor; tauto | repeat constructor; tauto | exact Hrun | exact Htr].
    + any_answer u w3. intros tr o w' [= <- <- <-] Htr. trace_cases before.
Qed.

(** After the call of [system] the function goes on as [restore_result]. *)
Lemma RestoreArchivedFile_after_command
    path xlogfname recovername expectedSize cleanupEnabled w before cmd rc after :
  trace_of os
    (RestoreArchivedFile P G path xlogfname recovername expectedSize cleanupEnabled) w
  = before ++ EvSystem cmd rc :: after →
  ∃ w1,
    after = EvPostRestoreCommand
            :: trace_of os (restore_result P G path xlogfname
                              (temporary_path recovername) expectedSize rc) w1
    ∧ outcome_of os
        (RestoreArchivedFile P G path xlogfname recovername expectedSize cleanupEnabled) w
      = outcome_of os (restore_result P G path xlogfname
                         (temporary_path recovername) expectedSize rc) w1.
Proof.
  unfold trace_of, outcome_of.
  destruct (run os (RestoreArchivedFile _ _ _ _ _ _ _) w) as [[tr o] w'] eqn:Hrun.
  cbn [fst snd]. intros Htr.
  destruct (RestoreArchivedFile_run _ _ _ _ _ _ _ _ _ _ _ _ _ Hrun Htr)
    as (t & l & w1 & tl & _ & _ & _ & -> & Hres).
  exists w1. by rewrite Hres.
Qed.

(** Every run of [RestoreArchivedFile] with a command configured gets to
    the command or ends the process before; after the command it goes on
    as [restore_result]. *)
Lemma RestoreArchivedFile_up_to_command
    path xlogfname recovername expectedSize cleanupEnabled w :
  (recoveryRestoreCommand G = None
   ∧ run os (RestoreArchivedFile P G path xlogfname recovername expectedSize cleanupEnabled) w
     = ([], Returned (false, conventional_path xlogfname), w))
  ∨ (is_Some (recoveryRestoreCommand G)
     ∧ up_to_command os
         (restore_result P G path xlogfname (temporary_path recovername) expectedSize)
         (RestoreArchivedFile P G path xlogfname recovername expectedSize cleanupEnabled) w).
Proof.
  unfold RestoreArchivedFile.
  destruct (recoveryRestoreCommand G) as [template|]; [right|by left].
  split; [by eexists|]. cbv zeta.
  assert (Hcommand : ∀ w0 lastRestartPointFname,
    up_to_command os
      (restore_result P G path xlogfname (temporary_path recovername) expectedSize)
      match BuildRestoreCommand (MAXPGPATH P) (automatic P (MAXPGPATH P)) template
              (temporary_path recovername) xlogfname lastRestartPointFname
            ≫= (λ m, string_at m 0) with
      | Some xlogRestoreCmd =>
        _ ← ereport DEBUG3 (executing_restore_command xlogRestoreCmd);
        _ ← call PreRestoreCommand;
        rc ← call (system xlogRestoreCmd);
        _ ← call PostRestoreCommand;
        restore_result P G path xlogfname (temporary_path recovername) expectedSize rc
      | None => Halt memory_fault
      end w0).
  { intros w0 lastRestartPointFname.
    destruct (_ ≫= _) as [cmd|]; [|apply up_to_command_halt].
    cbn [bind mbind prog_bind call ereport].
    apply up_to_command_do; [tauto|]. apply up_to_command_do; [tauto|].
    apply up_to_command_system. }
  assert (Hcutoff : ∀ w0,
    up_to_command os
      (restore_result P G path xlogfname (temporary_path recovername) expectedSize)
      (lastRestartPointFname ← restore_cutoff P xlogfname cleanupEnabled;
       match BuildRestoreCommand (MAXPGPATH P) (automatic P (MAXPGPATH P)) template
               (temporary_path recovername) xlogfname lastRestartPointFname
             ≫= (λ m, string_at m 0) with
       | Some xlogRestoreCmd =>
         _ ← ereport DEBUG3 (executing_restore_command xlogRestoreCmd);
         _ ← call PreRestoreCommand;
         rc ← call (system xlogRestoreCmd);
         _ ← call PostRestoreCommand;
         restore_result P G path xlogfname (temporary_path recovername) expectedSize rc
       | None => Halt memory_fault
       end) w0).
  { intros w0. unfold restore_cutoff. destruct cleanupEnabled.
    - cbn [bind mbind prog_bind call]. apply up_to_command_do; [tauto|].
      destruct (os GetOldestRestartPoint w0) as [[ptr tli] w2]. cbn [fst snd].
      unfold Assert. destruct (USE_ASSERT_CHECKING P && negb _); cbn [bind].
      + apply up_to_command_halt.
      + apply Hcommand.
    - cbn [bind mbind prog_bind]. apply Hcommand. }
  cbn [bind mbind prog_bind call]. apply up_to_command_do; [tauto|].
  destruct (os (stat _) w) as [[size|errno] w1]; cbn [fst snd].
  - cbn [bind]. apply up_to_command_do; [tauto|].
    destruct (os (unlink _) w1) as [r w2]. cbn [fst snd].
    destruct (r =? 0)%Z; cbn [bind ereport].
    + apply Hcutoff.
    + apply up_to_command_do; [tauto|]. apply up_to_command_halt.
  - destruct (errno =? ENOENT)%Z; cbn [bind ereport].
    + apply Hcutoff.
    + apply up_to_command_do; [tauto|]. apply up_to_command_halt.
Qed.

(** The run cut at the command's return: what follows is
    [PostRestoreCommand] and then [restore_result], run in the world that
    [PostRestoreCommand] left. *)
Lemma RestoreArchivedFile_steps
    path xlogfname recovername expectedSize cleanupEnabled w before cmd rc w0 after :
  steps os
    (RestoreArchivedFile P G path xlogfname recovername expectedSize cleanupEnabled) w
  = before ++ (EvSystem cmd rc, w0) :: after →
  is_Some (recoveryRestoreCommand G)
  ∧ trace_of os
      (RestoreArchivedFile P G path xlogfname recovername expectedSize cleanupEnabled) w
    = before.*1 ++ EvSystem cmd rc :: EvPostRestoreCommand
        :: trace_of os (restore_result P G path xlogfname (temporary_path recovername)
                          expectedSize rc) (os PostRestoreCommand w0).2
  ∧ outcome_of os
      (RestoreArchivedFile P G path xlogfname recovername expectedSize cleanupEnabled) w
    = outcome_of os (restore_result P G path xlogfname (temporary_path recovername)
                       expectedSize rc) (os PostRestoreCommand w0).2.
Proof.
  intros Hst.
  destruct (RestoreArchivedFile_up_to_command path xlogfname recovername expectedSize
              cleanupEnabled w)
    as [[_ Hrun]|[Hcfg [[Hall _]|(b & c & r & w0' & Hb & Hs & Ho)]]].
  - exfalso. apply (f_equal (fmap fst)) in Hst. rewrite steps_trace in Hst.
    unfold trace_of in Hst. rewrite Hrun in Hst. cbn [fst] in Hst.
    rewrite fmap_app in Hst. by destruct before.
  - exfalso. rewrite Hst in Hall. apply Forall_app in Hall as [_ Hall].
    apply Forall_cons in Hall as [Hsys _]. by apply Hsys.
  - split; [done|]. rewrite <- (steps_trace os (RestoreArchivedFile _ _ _ _ _ _ _)).
    rewrite Hs in Hst. apply split_at_system_steps in Hst as (-> & -> & -> & -> & ->).
    + split; [|done]. rewrite Hs, fmap_app, !fmap_cons, steps_trace. done.
    + done.
    + constructor; [tauto|]. apply steps_no_system, restore_result_no_system.
Qed.

(** C7.  A run in which the restore command is executed and returns
    status 0, leaving the world [w0].  If, in the world that
    [PostRestoreCommand] then leaves, [stat] finds a file at the temporary
    recovery path with size [st_size], where either no size was expected
    ([expectedSize = 0]) or [st_size] is the expected size, then the run
    goes on with exactly that [stat] and a report at [LOG] that the file
    was restored, and the function returns [true] with the temporary
    recovery path in [path]. *)
Theorem RestoreArchivedFile_found
    path xlogfname recovername expectedSize cleanupEnabled w before cmd w0 after
    w1 st_size w2 :
  steps os
    (RestoreArchivedFile P G path xlogfname recovername expectedSize cleanupEnabled) w
  = before ++ (EvSystem cmd 0, w0) :: after →
  os PostRestoreCommand w0 = (tt, w1) →
  os (stat (temporary_path recovername)) w1 = (StatOk st_size, w2) →
  expectedSize = 0%Z ∨ st_size = expectedSize →
  is_Some (recoveryRestoreCommand G)
  ∧ trace_of os
      (RestoreArchivedFile P G path xlogfname recovername expectedSize cleanupEnabled) w
    = before.*1
        ++ [EvSystem cmd 0; EvPostRestoreCommand;
            EvStat (temporary_path recovername) (StatOk st_size);
            EvLog LOG (restored_log_file xlogfname)]
  ∧ outcome_of os
      (RestoreArchivedFile P G path xlogfname recovername expectedSize cleanupEnabled) w
    = Returned (true, temporary_path recovername).
Proof.
  intros Hst Hpost Hstat Hsize.
  destruct (RestoreArchivedFile_steps _ _ _ _ _ _ _ _ _ _ _ Hst) as (Hcfg & -> & ->).
  split; [done|]. rewrite Hpost. cbn [snd].
  unfold trace_of, outcome_of, restore_result. cbn [Z.eqb].
  answered Hstat.
  destruct ((expectedSize >? 0)%Z && negb (st_size =? expectedSize)%Z) eqn:Hc.
  - apply andb_prop in Hc as [Hpos Hne].
    apply Z.gtb_lt in Hpos. apply negb_true_iff, Z.eqb_neq in Hne. lia.
  - any_answer u w3. by rewrite cstr_snprintf.
Qed.

(** C2.  A run in which the restore command is executed and returns
    status 0, leaving the world [w0].  Let [stat], in the world that
    [PostRestoreCommand] then leaves, find a file at the temporary
    recovery path with size [st_size], where an expected size other than 0
    was supplied (a size is not negative) and [st_size] differs from it.
    In standby mode with a file that is smaller than expected, the run goes
    on with a report of the mismatch at [DEBUG1] and the function returns
    [false]; otherwise (not in standby mode, or the file is not smaller)
    the mismatch is reported at [FATAL] and the process ends. *)
Theorem RestoreArchivedFile_wrong_size
    path xlogfname recovername expectedSize cleanupEnabled w before cmd w0 after
    w1 st_size w2 :
  steps os
    (RestoreArchivedFile P G path xlogfname recovername expectedSize cleanupEnabled) w
  = before ++ (EvSystem cmd 0, w0) :: after →
  os PostRestoreCommand w0 = (tt, w1) →
  os (stat (temporary_path recovername)) w1 = (StatOk st_size, w2) →
  (0 ≤ expectedSize)%Z → expectedSize ≠ 0%Z → st_size ≠ expectedSize →
  (StandbyMode G = true → (st_size < expectedSize)%Z →
     trace_of os
       (RestoreArchivedFile P G path xlogfname recovername expectedSize cleanupEnabled) w
     = before.*1
         ++ [EvSystem cmd 0; EvPostRestoreCommand;
             EvStat (temporary_path recovername) (StatOk st_size);
             EvLog DEBUG1 (wrong_size xlogfname st_size expectedSize)]
     ∧ outcome_of os
         (RestoreArchivedFile P G path xlogfname recovername expectedSize cleanupEnabled) w
       = Returned (false, path))
  ∧ (StandbyMode G = false ∨ (expectedSize ≤ st_size)%Z →
     trace_of os
       (RestoreArchivedFile P G path xlogfname recovername expectedSize cleanupEnabled) w
     = before.*1
         ++ [EvSystem cmd 0; EvPostRestoreCommand;
             EvStat (temporary_path recovername) (StatOk st_size);
             EvLog FATAL (wrong_size xlogfname st_size expectedSize)]
     ∧ outcome_of os
         (RestoreArchivedFile P G path xlogfname recovername expectedSize cleanupEnabled) w
       = Halted fatal_error).
Proof.
  intros Hst Hpost Hstat Hdom Hnz Hne.
  destruct (RestoreArchivedFile_steps _ _ _ _ _ _ _ _ _ _ _ Hst) as (_ & -> & ->).
  rewrite Hpost. cbn [snd].
  unfold trace_of, outcome_of, restore_result. cbn [Z.eqb].
  answered Hstat.
  destruct ((expectedSize >? 0)%Z && negb (st_size =? expectedSize)%Z) eqn:Hc.
  2:{ apply andb_false_iff in Hc as [Hc|Hc].
      - rewrite Z.gtb_ltb in Hc. apply Z.ltb_ge in Hc. lia.
      - apply negb_false_iff, Z.eqb_eq in Hc. done. }
  destruct (StandbyMode G && (st_size <? expectedSize)%Z) eqn:Hs.
  - apply andb_prop in Hs as [Hs Hlt]. apply Z.ltb_lt in Hlt.
    any_answer u w3. split; [done|].
    intros [Hno|Hge]; [congruence | lia].
  - any_answer u w3. split; [|done].
    intros Hsb Hlt. apply Z.ltb_lt in Hlt. rewrite Hsb, Hlt in Hs. done.
Qed.

Lemma WIFSIGNALED_nonzero (rc : Z) : WIFSIGNALED rc = true → (rc =? 0)%Z = false.
Proof.
  intros Hs. destruct (rc =? 0)%Z eqn:E; [|done].
  apply Z.eqb_eq in E. subst rc. discriminate Hs.
Qed.

(** C4.  In every run in which the restore command is executed and
    returns a status that is not zero and not a termination by
    [SIGTERM]: when the command was killed by a signal or exited with a
    status above 125 the failure is reported at [FATAL] and the process
    ends; otherwise it is logged at [DEBUG2] and the function returns
    [false] with the conventional path of the segment in [path]. *)
Theorem RestoreArchivedFile_command_failed
    path xlogfname recovername expectedSize cleanupEnabled w before cmd rc after :
  trace_of os
    (RestoreArchivedFile P G path xlogfname recovername expectedSize cleanupEnabled) w
  = before ++ EvSystem cmd rc :: after →
  rc ≠ 0%Z →
  WIFSIGNALED rc && (WTERMSIG rc =? SIGTERM)%Z = false →
  (WIFSIGNALED rc = true ∨ (125 < WEXITSTATUS rc)%Z →
     after = [EvPostRestoreCommand; EvLog FATAL (could_not_restore xlogfname rc)]
     ∧ outcome_of os
         (RestoreArchivedFile P G path xlogfname recovername expectedSize cleanupEnabled) w
       = Halted fatal_error)
  ∧ (WIFSIGNALED rc = false → (WEXITSTATUS rc ≤ 125)%Z →
     after = [EvPostRestoreCommand; EvLog DEBUG2 (could_not_restore xlogfname rc)]
     ∧ outcome_of os
         (RestoreArchivedFile P G path xlogfname recovername expectedSize cleanupEnabled) w
       = Returned (false, conventional_path xlogfname)).
Proof.
  intros Htr Hrc Hterm.
  destruct (RestoreArchivedFile_after_command _ _ _ _ _ _ _ _ _ _ Htr) as (w1 & -> & ->).
  unfold trace_of, outcome_of, restore_result, restore_failed, not_available.
  apply Z.eqb_neq in Hrc. rewrite Hrc, Hterm.
  destruct (WIFSIGNALED rc || (WEXITSTATUS rc >? 125)%Z) eqn:Hs.
  - any_answer u w2. split; [done|].
    intros Hn Hle. apply orb_prop in Hs as [Hs|Hs]; [congruence|].
    apply Z.gtb_lt in Hs. lia.
  - any_answer u w2. split; [|done].
    apply orb_false_iff in Hs as [Hs Hle].
    intros [Hy|Hgt]; [congruence|].
    rewrite Z.gtb_ltb in Hle. apply Z.ltb_ge in Hle. lia.
Qed.

(** C3 (as amended).  In [RestoreArchivedFile], when the command was
    terminated by [SIGTERM] the process exits through [proc_exit(1)]
    right after [PostRestoreCommand], and nothing is logged about the
    command.  [ExecuteRecoveryCommand] has no such case: a command
    terminated by a signal, [SIGTERM] included, is reported as a failure
    of the command, at [FATAL] when [failOnSignal] is set (which ends the
    process) and at [WARNING] otherwise (after which the function
    returns). *)
Theorem SIGTERM_at_the_call_sites :
  (∀ path xlogfname recovername expectedSize cleanupEnabled w before cmd rc after,
     trace_of os
       (RestoreArchivedFile P G path xlogfname recovername expectedSize cleanupEnabled) w
     = before ++ EvSystem cmd rc :: after →
     WIFSIGNALED rc = true → WTERMSIG rc = SIGTERM →
     after = [EvPostRestoreCommand]
     ∧ outcome_of os
         (RestoreArchivedFile P G path xlogfname recovername expectedSize cleanupEnabled) w
       = Halted (proc_exit 1))
  ∧ (∀ command commandName failOnSignal w before cmd rc after,
     trace_of os (ExecuteRecoveryCommand P command commandName failOnSignal) w
     = before ++ EvSystem cmd rc :: after →
     WIFSIGNALED rc = true →
     after = [EvLog (if failOnSignal then FATAL else WARNING)
                    (return_code (cstr commandName) (cstr command) rc)]
     ∧ outcome_of os (ExecuteRecoveryCommand P command commandName failOnSignal) w
       = if failOnSignal then Halted fatal_error else Returned tt).
Proof.
  split.
  - intros path xlogfname recovername expectedSize cleanupEnabled w before cmd rc after
      Htr Hsig Hterm.
    destruct (RestoreArchivedFile_after_command _ _ _ _ _ _ _ _ _ _ Htr)
      as (w1 & -> & ->).
    unfold trace_of, outcome_of, restore_result, restore_failed.
    rewrite (WIFSIGNALED_nonzero rc Hsig), Hsig, Hterm. done.
  - intros command commandName failOnSignal w before cmd rc after.
    unfold trace_of, outcome_of, ExecuteRecoveryCommand.
    any_answer rp w1. destruct rp as [ptr tli]. run_step.
    destruct (_ ≫= _) as [cmd'|]; [|intros Htr; trace_cases before].
    any_answer u w2. any_answer rc' w3.
    destruct (rc' =? 0)%Z eqn:Hz.
    + run_step. intros Htr Hsig. cut_at_system Htr; [|constructor].
      rewrite (WIFSIGNALED_nonzero rc' Hsig) in Hz. done.
    + destruct (WIFSIGNALED rc') eqn:Hs'; cbn [orb andb].
      * destruct failOnSignal; any_answer u' w4; intros Htr Hsig;
          (cut_at_system Htr; [done | repeat constructor; tauto]).
      * destruct ((WEXITSTATUS rc' >? 125)%Z && failOnSignal);
          any_answer u' w4; intros Htr Hsig;
          (cut_at_system Htr; [congruence | repeat constructor; tauto]).
Qed.

(** C5.  The file name that [%r] stands for.  With [cleanupEnabled] it is
    the name of the segment of the oldest restart point, as obtained
    from [GetOldestRestartPoint]; that it does not sort after the
    requested file name is an assertion (a violation traps the process
    in a build with assertions and is reported to nobody).  Without
    [cleanupEnabled] it is the name of segment 0 of timeline 0, before
    which no segment file name sorts.  The command handed to [system] is
    built with this name. *)
Theorem RestoreArchivedFile_cutoff
    path xlogfname recovername expectedSize cleanupEnabled w :
  (∀ ptr tli w1,
     os GetOldestRestartPoint w = ((ptr, tli), w1) →
     run os (restore_cutoff P xlogfname true) w
     = ([EvGetOldestRestartPoint ptr tli],
        (if USE_ASSERT_CHECKING P
            && (0 <? strcmp (XLogFileName P tli (XLByteToSeg P ptr)) xlogfname)%Z
         then Halted assertion_trap
         else Returned (XLogFileName P tli (XLByteToSeg P ptr))),
        w1))
  ∧ run os (restore_cutoff P xlogfname false) w = ([], Returned (XLogFileName P 0 0), w)
  ∧ (∀ tli logSegNo,
       (strcmp (XLogFileName P 0 0) (XLogFileName P tli logSegNo) ≤ 0)%Z)
  ∧ (∀ before cmd rc after,
     trace_of os
       (RestoreArchivedFile P G path xlogfname recovername expectedSize cleanupEnabled) w
     = before ++ EvSystem cmd rc :: after →
     ∃ template lastRestartPointFname,
       recoveryRestoreCommand G = Some template
       ∧ BuildRestoreCommand (MAXPGPATH P) (automatic P (MAXPGPATH P)) template
           (temporary_path recovername) xlogfname lastRestartPointFname
           ≫= (λ m, string_at m 0) = Some cmd
       ∧ (if cleanupEnabled
          then ∃ ptr tli,
                 EvGetOldestRestartPoint ptr tli ∈ before
                 ∧ lastRestartPointFname = XLogFileName P tli (XLByteToSeg P ptr)
                 ∧ (USE_ASSERT_CHECKING P = true →
                    (strcmp lastRestartPointFname xlogfname ≤ 0)%Z)
          else lastRestartPointFname = XLogFileName P 0 0
               ∧ Forall (λ e, ¬ is_restart_point e) before)).
Proof.
  split; [|split; [|split]].
  - intros ptr tli w1 Hrp. unfold restore_cutoff, Assert.
    answered Hrp. rewrite Z.leb_antisym, negb_involutive.
    by destruct (_ && _).
  - done.
  - apply XLogFileName_least.
  - intros before cmd rc after Htr. unfold trace_of in Htr.
    destruct (run os (RestoreArchivedFile _ _ _ _ _ _ _) w) as [[tr o] w'] eqn:Hrun.
    destruct (RestoreArchivedFile_run _ _ _ _ _ _ _ _ _ _ _ _ _ Hrun Htr)
      as (t & l & _ & _ & Hcfg & Hb & Hcut & _).
    by exists t, l.
Qed.

End FromArchive.

(** ** The theorems at work in the scripted environment *)

Lemma XLogArchiveCheckDone_order_scripted :
  run scripted (XLogArchiveCheckDone pg_build no_archiving segment3) quiet
  = ([], Returned true, quiet)
  ∧ run scripted (XLogArchiveCheckDone pg_build in_recovery segment3)
      (Script [StatOk 0] [] [] [] [] [])
    = ([EvStat (lit "pg_xlog/archive_status/000000010000000000000003.done") (StatOk 0)],
       Returned true, quiet)
  ∧ run scripted (XLogArchiveCheckDone pg_build in_recovery segment3)
      (Script [StatErr ENOENT; StatOk 0] [] [] [] [] [])
    = ([EvStat (lit "pg_xlog/archive_status/000000010000000000000003.done") (StatErr ENOENT);
        EvStat (lit "pg_xlog/archive_status/000000010000000000000003.ready") (StatOk 0)],
       Returned false, quiet)
  ∧ run scripted (XLogArchiveCheckDone pg_build in_recovery segment3)
      (Script [StatErr ENOENT; StatErr ENOENT; StatOk 0] [] [] [] [] [])
    = ([EvStat (lit "pg_xlog/archive_status/000000010000000000000003.done") (StatErr ENOENT);
        EvStat (lit "pg_xlog/archive_status/000000010000000000000003.ready") (StatErr ENOENT);
        EvStat (lit "pg_xlog/archive_status/000000010000000000000003.done") (StatOk 0)],
       Returned true, quiet)
  ∧ run scripted (XLogArchiveCheckDone pg_build in_recovery segment3)
      (Script [StatErr ENOENT; StatErr ENOENT; StatErr ENOENT] [] [] [] [Some 7] [0%Z])
    = ([EvStat (lit "pg_xlog/archive_status/000000010000000000000003.done") (StatErr ENOENT);
        EvStat (lit "pg_xlog/archive_status/000000010000000000000003.ready") (StatErr ENOENT);
        EvStat (lit "pg_xlog/archive_status/000000010000000000000003.done") (StatErr ENOENT);
        EvAllocateFile (lit "pg_xlog/archive_status/000000010000000000000003.ready")
          (lit "w") (Some 7);
        EvFreeFile 7 0;
        EvSendPostmasterSignal PMSIGNAL_WAKEN_ARCHIVER],
       Returned false, quiet).
Proof.
  split; [|split; [|split; [|split]]].
  - apply (XLogArchiveCheckDone_order scripted pg_build no_archiving segment3 quiet).
    reflexivity.
  - destruct (XLogArchiveCheckDone_order scripted pg_build in_recovery segment3
                (Script [StatOk 0] [] [] [] [] [])) as (_ & H & _).
    apply (H (StatOk 0) quiet); reflexivity.
  - destruct (XLogArchiveCheckDone_order scripted pg_build in_recovery segment3
                (Script [StatErr ENOENT; StatOk 0] [] [] [] [] [])) as (_ & _ & H & _).
    apply (H (StatErr ENOENT) (Script [StatOk 0] [] [] [] [] []) (StatOk 0) quiet);
      reflexivity.
  - destruct (XLogArchiveCheckDone_order scripted pg_build in_recovery segment3
                (Script [StatErr ENOENT; StatErr ENOENT; StatOk 0] [] [] [] [] []))
      as (_ & _ & _ & H & _).
    apply (H (StatErr ENOENT) (Script [StatErr ENOENT; StatOk 0] [] [] [] [] [])
             (StatErr ENOENT) (Script [StatOk 0] [] [] [] [] []) (StatOk 0) quiet);
      reflexivity.
  - destruct (XLogArchiveCheckDone_order scripted pg_build in_recovery segment3
                (Script [StatErr ENOENT; StatErr ENOENT; StatErr ENOENT] [] [] []
                   [Some 7] [0%Z]))
      as (_ & _ & _ & _ & H).
    apply (H (StatErr ENOENT)
             (Script [StatErr ENOENT; StatErr ENOENT] [] [] [] [Some 7] [0%Z])
             (StatErr ENOENT) (Script [StatErr ENOENT] [] [] [] [Some 7] [0%Z])
             (StatErr ENOENT) (Script [] [] [] [] [Some 7] [0%Z]));
      reflexivity.
Defined.

Lemma XLogArchiveIsBusy_order_scripted :
  run scripted (XLogArchiveIsBusy pg_build segment3) (Script [StatOk 0] [] [] [] [] [])
  = ([EvStat (lit "pg_xlog/archive_status/000000010000000000000003.done") (StatOk 0)],
     Returned false, quiet)
  ∧ run scripted (XLogArchiveIsBusy pg_build segment3)
      (Script [StatErr ENOENT; StatOk 0] [] [] [] [] [])
    = ([EvStat (lit "pg_xlog/archive_status/000000010000000000000003.done") (StatErr ENOENT);
        EvStat (lit "pg_xlog/archive_status/000000010000000000000003.ready") (StatOk 0)],
       Returned true, quiet)
  ∧ run scripted (XLogArchiveIsBusy pg_build segment3)
      (Script [StatErr ENOENT; StatErr ENOENT; StatOk 0] [] [] [] [] [])
    = ([EvStat (lit "pg_xlog/archive_status/000000010000000000000003.done") (StatErr ENOENT);
        EvStat (lit "pg_xlog/archive_status/000000010000000000000003.ready") (StatErr ENOENT);
        EvStat (lit "pg_xlog/archive_status/000000010000000000000003.done") (StatOk 0)],
       Returned false, quiet)
  ∧ run scripted (XLogArchiveIsBusy pg_build segment3)
      (Script [StatErr ENOENT; StatErr ENOENT; StatErr ENOENT; StatErr ENOENT] [] [] [] [] [])
    = ([EvStat (lit "pg_xlog/archive_status/000000010000000000000003.done") (StatErr ENOENT);
        EvStat (lit "pg_xlog/archive_status/000000010000000000000003.ready") (StatErr ENOENT);
        EvStat (lit "pg_xlog/archive_status/000000010000000000000003.done") (StatErr ENOENT);
        EvStat (lit "pg_xlog/000000010000000000000003") (StatErr ENOENT)],
       Returned false, quiet)
  ∧ run scripted (XLogArchiveIsBusy pg_build segment3)
      (Script [StatErr ENOENT; StatErr ENOENT; StatErr ENOENT; StatOk 16777216] [] [] [] [] [])
    = ([EvStat (lit "pg_xlog/archive_status/000000010000000000000003.done") (StatErr ENOENT);
        EvStat (lit "pg_xlog/archive_status/000000010000000000000003.ready") (StatErr ENOENT);
        EvStat (lit "pg_xlog/archive_status/000000010000000000000003.done") (StatErr ENOENT);
        EvStat (lit "pg_xlog/000000010000000000000003") (StatOk 16777216)],
       Returned true, quiet).
Proof.
  split; [|split; [|split; [|split]]].
  - destruct (XLogArchiveIsBusy_order scripted pg_build segment3
                (Script [StatOk 0] [] [] [] [] [])) as (H & _).
    apply (H (StatOk 0) quiet); reflexivity.
  - destruct (XLogArchiveIsBusy_order scripted pg_build segment3
                (Script [StatErr ENOENT; StatOk 0] [] [] [] [] [])) as (_ & H & _).
    apply (H (StatErr ENOENT) (Script [StatOk 0] [] [] [] [] []) (StatOk 0) quiet);
      reflexivity.
  - destruct (XLogArchiveIsBusy_order scripted pg_build segment3
                (Script [StatErr ENOENT; StatErr ENOENT; StatOk 0] [] [] [] [] []))
      as (_ & _ & H & _).
    apply (H (StatErr ENOENT) (Script [StatErr ENOENT; StatOk 0] [] [] [] [] [])
             (StatErr ENOENT) (Script [StatOk 0] [] [] [] [] []) (StatOk 0) quiet);
      reflexivity.
  - destruct (XLogArchiveIsBusy_order scripted pg_build segment3
                (Script [StatErr ENOENT; StatErr ENOENT; StatErr ENOENT; StatErr ENOENT]
                   [] [] [] [] []))
      as (_ & _ & _ & H & _).
    apply (H (StatErr ENOENT)
             (Script [StatErr ENOENT; StatErr ENOENT; StatErr ENOENT] [] [] [] [] [])
             (StatErr ENOENT) (Script [StatErr ENOENT; StatErr ENOENT] [] [] [] [] [])
             (StatErr ENOENT) (Script [StatErr ENOENT] [] [] [] [] []) quiet);
      reflexivity.
  - destruct (XLogArchiveIsBusy_order scripted pg_build segment3
                (Script [StatErr ENOENT; StatErr ENOENT; StatErr ENOENT; StatOk 16777216]
                   [] [] [] [] []))
      as (_ & _ & _ & _ & H & _).
    apply (H (StatErr ENOENT)
             (Script [StatErr ENOENT; StatErr ENOENT; StatOk 16777216] [] [] [] [] [])
             (StatErr ENOENT) (Script [StatErr ENOENT; StatOk 16777216] [] [] [] [] [])
             (StatErr ENOENT) (Script [StatOk 16777216] [] [] [] [] [])
             (StatOk 16777216) quiet);
      (reflexivity || discriminate).
Defined.

Lemma RestoreArchivedFile_found_scripted :
  (is_Some (recoveryRestoreCommand in_recovery)
   ∧ trace_of scripted
       (RestoreArchivedFile pg_build in_recovery [] segment3 RECOVERYXLOG 16777216 false)
       (Script [StatErr ENOENT; StatOk 16777216] [] [0%Z] [] [] [])
     = before_command
         ++ [EvSystem cp_segment3 0; EvPostRestoreCommand;
             EvStat (lit "pg_xlog/RECOVERYXLOG") (StatOk 16777216);
             EvLog LOG (restored_log_file segment3)]
   ∧ outcome_of scripted
       (RestoreArchivedFile pg_build in_recovery [] segment3 RECOVERYXLOG 16777216 false)
       (Script [StatErr ENOENT; StatOk 16777216] [] [0%Z] [] [] [])
     = Returned (true, lit "pg_xlog/RECOVERYXLOG"))
  ∧ (is_Some (recoveryRestoreCommand in_recovery)
     ∧ trace_of scripted
         (RestoreArchivedFile pg_build in_recovery [] segment3 RECOVERYXLOG 0 false)
         (Script [StatErr ENOENT; StatOk 4096] [] [0%Z] [] [] [])
       = before_command
           ++ [EvSystem cp_segment3 0; EvPostRestoreCommand;
               EvStat (lit "pg_xlog/RECOVERYXLOG") (StatOk 4096);
               EvLog LOG (restored_log_file segment3)]
     ∧ outcome_of scripted
         (RestoreArchivedFile pg_build in_recovery [] segment3 RECOVERYXLOG 0 false)
         (Script [StatErr ENOENT; StatOk 4096] [] [0%Z] [] [] [])
       = Returned (true, lit "pg_xlog/RECOVERYXLOG")).
Proof.
  split.
  - generalize (RestoreArchivedFile_found scripted pg_build in_recovery [] segment3 RECOVERYXLOG
             16777216 false (Script [StatErr ENOENT; StatOk 16777216] [] [0%Z] [] [] [])
             ((λ e, (e, Script [StatOk 16777216] [] [0%Z] [] [] [])) <$> before_command)
             cp_segment3 (Script [StatOk 16777216] [] [] [] [] [])
             [(EvPostRestoreCommand, Script [StatOk 16777216] [] [] [] [] []);
              (EvStat (lit "pg_xlog/RECOVERYXLOG") (StatOk 16777216), quiet);
              (EvLog LOG (restored_log_file segment3), quiet)]
             (Script [StatOk 16777216] [] [] [] [] []) 16777216 quiet).
    vm_compute. intros H. apply H; [reflexivity | reflexivity | reflexivity |].
    right. reflexivity.
  - generalize (RestoreArchivedFile_found scripted pg_build in_recovery [] segment3 RECOVERYXLOG
             0 false (Script [StatErr ENOENT; StatOk 4096] [] [0%Z] [] [] [])
             ((λ e, (e, Script [StatOk 4096] [] [0%Z] [] [] [])) <$> before_command)
             cp_segment3 (Script [StatOk 4096] [] [] [] [] [])
             [(EvPostRestoreCommand, Script [StatOk 4096] [] [] [] [] []);
              (EvStat (lit "pg_xlog/RECOVERYXLOG") (StatOk 4096), quiet);
              (EvLog LOG (restored_log_file segment3), quiet)]
             (Script [StatOk 4096] [] [] [] [] []) 4096 quiet).
    vm_compute. intros H. apply H; [reflexivity | reflexivity | reflexivity |].
    left. reflexivity.
Defined.

Lemma RestoreArchivedFile_wrong_size_scripted :
  (trace_of scripted
     (RestoreArchivedFile pg_build standby (lit "unchanged") segment3 RECOVERYXLOG
        16777216 false)
     (Script [StatErr ENOENT; StatOk 4096] [] [0%Z] [] [] [])
   = before_command
       ++ [EvSystem cp_segment3 0; EvPostRestoreCommand;
           EvStat (lit "pg_xlog/RECOVERYXLOG") (StatOk 4096);
           EvLog DEBUG1 (wrong_size segment3 4096 16777216)]
   ∧ outcome_of scripted
       (RestoreArchivedFile pg_build standby (lit "unchanged") segment3 RECOVERYXLOG
          16777216 false)
       (Script [StatErr ENOENT; StatOk 4096] [] [0%Z] [] [] [])
     = Returned (false, lit "unchanged"))
  ∧ (trace_of scripted
       (RestoreArchivedFile pg_build in_recovery (lit "unchanged") segment3 RECOVERYXLOG
          16777216 false)
       (Script [StatErr ENOENT; StatOk 4096] [] [0%Z] [] [] [])
     = before_command
         ++ [EvSystem cp_segment3 0; EvPostRestoreCommand;
             EvStat (lit "pg_xlog/RECOVERYXLOG") (StatOk 4096);
             EvLog FATAL (wrong_size segment3 4096 16777216)]
     ∧ outcome_of scripted
         (RestoreArchivedFile pg_build in_recovery (lit "unchanged") segment3 RECOVERYXLOG
            16777216 false)
         (Script [StatErr ENOENT; StatOk 4096] [] [0%Z] [] [] [])
       = Halted fatal_error)
  ∧ (trace_of scripted
       (RestoreArchivedFile pg_build standby (lit "unchanged") segment3 RECOVERYXLOG
          4096 false)
       (Script [StatErr ENOENT; StatOk 16777216] [] [0%Z] [] [] [])
     = before_command
         ++ [EvSystem cp_segment3 0; EvPostRestoreCommand;
             EvStat (lit "pg_xlog/RECOVERYXLOG") (StatOk 16777216);
             EvLog FATAL (wrong_size segment3 16777216 4096)]
     ∧ outcome_of scripted
         (RestoreArchivedFile pg_build standby (lit "unchanged") segment3 RECOVERYXLOG
            4096 false)
         (Script [StatErr ENOENT; StatOk 16777216] [] [0%Z] [] [] [])
       = Halted fatal_error).
Proof.
  split; [|split].
  - destruct (RestoreArchivedFile_wrong_size scripted pg_build standby (lit "unchanged")
                segment3 RECOVERYXLOG 16777216 false
                (Script [StatErr ENOENT; StatOk 4096] [] [0%Z] [] [] [])
                ((λ e, (e, Script [StatOk 4096] [] [0%Z] [] [] [])) <$> before_command)
                cp_segment3 (Script [StatOk 4096] [] [] [] [] [])
                [(EvPostRestoreCommand, Script [StatOk 4096] [] [] [] [] []);
                 (EvStat (lit "pg_xlog/RECOVERYXLOG") (StatOk 4096), quiet);
                 (EvLog DEBUG1 (wrong_size segment3 4096 16777216), quiet)]
                (Script [StatOk 4096] [] [] [] [] []) 4096 quiet) as (H & _).
    + vm_compute. reflexivity.
    + reflexivity.
    + reflexivity.
    + lia.
    + lia.
    + lia.
    + apply H; [reflexivity | lia].
  - destruct (RestoreArchivedFile_wrong_size scripted pg_build in_recovery (lit "unchanged")
                segment3 RECOVERYXLOG 16777216 false
                (Script [StatErr ENOENT; StatOk 4096] [] [0%Z] [] [] [])
                ((λ e, (e, Script [StatOk 4096] [] [0%Z] [] [] [])) <$> before_command)
                cp_segment3 (Script [StatOk 4096] [] [] [] [] [])
                [(EvPostRestoreCommand, Script [StatOk 4096] [] [] [] [] []);
                 (EvStat (lit "pg_xlog/RECOVERYXLOG") (StatOk 4096), quiet);
                 (EvLog FATAL (wrong_size segment3 4096 16777216), quiet)]
                (Script [StatOk 4096] [] [] [] [] []) 4096 quiet) as (_ & H).
    + vm_compute. reflexivity.
    + reflexivity.
    + reflexivity.
    + lia.
    + lia.
    + lia.
    + apply H. left. reflexivity.
  - destruct (RestoreArchivedFile_wrong_size scripted pg_build standby (lit "unchanged")
                segment3 RECOVERYXLOG 4096 false
                (Script [StatErr ENOENT; StatOk 16777216] [] [0%Z] [] [] [])
                ((λ e, (e, Script [StatOk 16777216] [] [0%Z] [] [] [])) <$> before_command)
                cp_segment3 (Script [StatOk 16777216] [] [] [] [] [])
                [(EvPostRestoreCommand, Script [StatOk 16777216] [] [] [] [] []);
                 (EvStat (lit "pg_xlog/RECOVERYXLOG") (StatOk 16777216), quiet);
                 (EvLog FATAL (wrong_size segment3 16777216 4096), quiet)]
                (Script [StatOk 16777216] [] [] [] [] []) 16777216 quiet) as (_ & H).
    + vm_compute. reflexivity.
    + reflexivity.
    + reflexivity.
    + lia.
    + lia.
    + lia.
    + apply H. right. lia.
Defined.

(** Outside the documented range of [expectedSize] (a size, or 0 when the
    size is not known): the guard of the size check is [expectedSize > 0],
    so that with a negative value no check is made. *)
Example negative_expected_size_is_no_mismatch :
  run scripted
    (RestoreArchivedFile pg_build in_recovery [] segment3 RECOVERYXLOG (-1) false)
    (Script [StatErr ENOENT; StatOk 4096] [] [0%Z] [] [] [])
  = (before_command
       ++ [EvSystem cp_segment3 0; EvPostRestoreCommand;
           EvStat (lit "pg_xlog/RECOVERYXLOG") (StatOk 4096);
           EvLog LOG (restored_log_file segment3)],
     Returned (true, lit "pg_xlog/RECOVERYXLOG"),
     quiet).
Proof. vm_compute. reflexivity. Qed.

Lemma RestoreArchivedFile_command_failed_scripted :
  outcome_of scripted
    (RestoreArchivedFile pg_build in_recovery [] segment3 RECOVERYXLOG 16777216 false)
    (Script [StatErr ENOENT] [] [256%Z] [] [] [])
  = Returned (false, snprintf 1024 (lit "pg_xlog" ++ lit "/" ++ cstr segment3))
  ∧ outcome_of scripted
      (RestoreArchivedFile pg_build in_recovery [] segment3 RECOVERYXLOG 16777216 false)
      (Script [StatErr ENOENT] [] [32512%Z] [] [] [])
    = Halted fatal_error
  ∧ outcome_of scripted
      (RestoreArchivedFile pg_build in_recovery [] segment3 RECOVERYXLOG 16777216 false)
      (Script [StatErr ENOENT] [] [2%Z] [] [] [])
    = Halted fatal_error.
Proof.
  split; [|split].
  - destruct (RestoreArchivedFile_command_failed scripted pg_build in_recovery [] segment3
                RECOVERYXLOG 16777216 false (Script [StatErr ENOENT] [] [256%Z] [] [] [])
                before_command cp_segment3 256
                [EvPostRestoreCommand; EvLog DEBUG2 (could_not_restore segment3 256)])
      as (_ & H).
    + vm_compute. reflexivity.
    + lia.
    + reflexivity.
    + destruct H as [_ H]; [reflexivity | vm_compute; discriminate | exact H].
  - destruct (RestoreArchivedFile_command_failed scripted pg_build in_recovery [] segment3
                RECOVERYXLOG 16777216 false (Script [StatErr ENOENT] [] [32512%Z] [] [] [])
                before_command cp_segment3 32512
                [EvPostRestoreCommand; EvLog FATAL (could_not_restore segment3 32512)])
      as (H & _).
    + vm_compute. reflexivity.
    + lia.
    + reflexivity.
    + destruct H as [_ H]; [right; vm_compute; reflexivity | exact H].
  - destruct (RestoreArchivedFile_command_failed scripted pg_build in_recovery [] segment3
                RECOVERYXLOG 16777216 false (Script [StatErr ENOENT] [] [2%Z] [] [] [])
                before_command cp_segment3 2
                [EvPostRestoreCommand; EvLog FATAL (could_not_restore segment3 2)])
      as (H & _).
    + vm_compute. reflexivity.
    + lia.
    + reflexivity.
    + destruct H as [_ H]; [left; reflexivity | exact H].
Defined.

Lemma SIGTERM_at_the_call_sites_scripted :
  outcome_of scripted
    (RestoreArchivedFile pg_build in_recovery [] segment3 RECOVERYXLOG 16777216 false)
    (Script [StatErr ENOENT] [] [15%Z] [] [] [])
  = Halted (proc_exit 1)
  ∧ outcome_of scripted
      (ExecuteRecoveryCommand pg_build (lit "pg_archivecleanup /mnt/archive %r")
         (lit "archive_cleanup_command") true)
      (Script [] [] [15%Z] [(33554432%Z, 1%Z)] [] [])
    = Halted fatal_error.
Proof.
  destruct (SIGTERM_at_the_call_sites scripted pg_build in_recovery) as [Hrestore Hrecovery].
  split.
  - apply (Hrestore [] segment3 RECOVERYXLOG 16777216%Z false
             (Script [StatErr ENOENT] [] [15%Z] [] [] [])
             before_command cp_segment3 15%Z [EvPostRestoreCommand]).
    + vm_compute. reflexivity.
    + reflexivity.
    + reflexivity.
  - apply (Hrecovery (lit "pg_archivecleanup /mnt/archive %r")
             (lit "archive_cleanup_command") true
             (Script [] [] [15%Z] [(33554432%Z, 1%Z)] [] [])
             [EvGetOldestRestartPoint 33554432 1;
              EvLog DEBUG3 (executing (lit "archive_cleanup_command")
                              (lit "pg_archivecleanup /mnt/archive %r"))]
             (lit "pg_archivecleanup /mnt/archive 000000010000000000000002") 15%Z
             [EvLog FATAL (return_code (lit "archive_cleanup_command")
                             (lit "pg_archivecleanup /mnt/archive %r") 15)]).
    + vm_compute. reflexivity.
    + reflexivity.
Defined.

(** C3, as it is stated, fails in [ExecuteRecoveryCommand]: a command
    terminated by [SIGTERM] (status 15) is logged as a failure of the
    command, and with [failOnSignal] unset the function returns to its
    caller instead of ending the process. *)
Lemma ExecuteRecoveryCommand_reports_SIGTERM :
  WIFSIGNALED 15 = true
  ∧ WTERMSIG 15 = SIGTERM
  ∧ run scripted
      (ExecuteRecoveryCommand pg_build (lit "pg_archivecleanup /mnt/archive %r")
         (lit "archive_cleanup_command") false)
      (Script [] [] [15%Z] [(33554432%Z, 1%Z)] [] [])
    = ([EvGetOldestRestartPoint 33554432 1;
        EvLog DEBUG3 (executing (lit "archive_cleanup_command")
                        (lit "pg_archivecleanup /mnt/archive %r"));
        EvSystem (lit "pg_archivecleanup /mnt/archive 000000010000000000000002") 15;
        EvLog WARNING (return_code (lit "archive_cleanup_command")
                         (lit "pg_archivecleanup /mnt/archive %r") 15)],
       Returned tt,
       quiet).
Proof. repeat split; vm_compute; reflexivity. Qed.

Lemma RestoreArchivedFile_cutoff_scripted :
  run scripted (restore_cutoff pg_build segment3 true)
    (Script [] [] [] [(33554432%Z, 1%Z)] [] [])
  = ([EvGetOldestRestartPoint 33554432 1],
     Returned (lit "000000010000000000000002"), quiet)
  ∧ run scripted (restore_cutoff pg_build (lit "000000010000000000000001") true)
      (Script [] [] [] [(33554432%Z, 1%Z)] [] [])
    = ([EvGetOldestRestartPoint 33554432 1], Halted assertion_trap, quiet)
  ∧ ∃ template lastRestartPointFname,
      recoveryRestoreCommand in_recovery = Some template
      ∧ BuildRestoreCommand 1024 (automatic pg_build 1024) template
          (snprintf 1024 (lit "pg_xlog" ++ lit "/" ++ cstr RECOVERYXLOG)) segment3
          lastRestartPointFname
          ≫= (λ m, string_at m 0) = Some cp_segment3
      ∧ ∃ ptr tli,
          EvGetOldestRestartPoint ptr tli ∈ before_command_with_cutoff
          ∧ lastRestartPointFname = XLogFileName pg_build tli (XLByteToSeg pg_build ptr)
          ∧ (USE_ASSERT_CHECKING pg_build = true →
             (strcmp lastRestartPointFname segment3 ≤ 0)%Z).
Proof.
  split; [|split].
  - destruct (RestoreArchivedFile_cutoff scripted pg_build in_recovery [] segment3
                RECOVERYXLOG 16777216 true (Script [] [] [] [(33554432%Z, 1%Z)] [] []))
      as (H & _).
    exact (H 33554432%Z 1%Z quiet eq_refl).
  - destruct (RestoreArchivedFile_cutoff scripted pg_build in_recovery []
                (lit "000000010000000000000001")
                RECOVERYXLOG 16777216 true (Script [] [] [] [(33554432%Z, 1%Z)] [] []))
      as (H & _).
    exact (H 33554432%Z 1%Z quiet eq_refl).
  - destruct (RestoreArchivedFile_cutoff scripted pg_build in_recovery [] segment3
                RECOVERYXLOG 16777216 true
                (Script [StatErr ENOENT; StatOk 16777216] [] [0%Z] [(33554432%Z, 1%Z)] [] []))
      as (_ & _ & _ & H).
    apply (H before_command_with_cutoff cp_segment3 0%Z
             [EvPostRestoreCommand;
              EvStat (lit "pg_xlog/RECOVERYXLOG") (StatOk 16777216);
              EvLog LOG (restored_log_file segment3)]).
    vm_compute. reflexivity.
Defined.

(** * Further properties of the code *)

(** ** The command of [ExecuteRecoveryCommand] *)

(** X1.  The lines that build the command of [ExecuteRecoveryCommand] keep
    within the destination array as well: whatever the command template
    and the name of the restart point, nothing is stored or loaded outside
    the array, and the string that is left has fewer than [MAXPGPATH]
    characters, is followed by a NUL inside the array, and is the full
    expansion with characters left out. *)
Theorem BuildRecoveryCommand_within_bounds (M : nat)
    (array command lastRestartPointFname : list ascii) :
  1 ≤ M → length array = M →
  ∃ m cmd,
    BuildRecoveryCommand M array command lastRestartPointFname = Some m
    ∧ length m = M
    ∧ string_at m 0 = Some cmd
    ∧ length cmd < M
    ∧ m !! length cmd = Some NUL
    ∧ Forall (λ c, c ≠ NUL) cmd
    ∧ sublist cmd (expansion (recovery_placeholders lastRestartPointFname) command).
Proof.
  intros HM Hlen. rewrite BuildRecoveryCommand_table.
  destruct (build_spec (M - 1) (recovery_placeholders lastRestartPointFname)
              command array) as (m & -> & Hl & Ht & Hs & Hn & Hr); [lia|].
  eexists m, _. split; [done|]. split; [lia|]. split; [exact Hs|].
  split; [lia|]. split; [done|]. split; [done|].
  apply (emitted_sublist _ _ _ []).
Qed.

Lemma BuildRecoveryCommand_within_bounds_overlong :
  ∃ m cmd,
    BuildRecoveryCommand 8 (replicate 8 "x") (lit "rm %r %%") (lit "000000010000000000000002")
      = Some m
    ∧ length m = 8
    ∧ string_at m 0 = Some cmd
    ∧ length cmd < 8
    ∧ m !! length cmd = Some NUL
    ∧ Forall (λ c, c ≠ NUL) cmd
    ∧ sublist cmd
        (expansion (recovery_placeholders (lit "000000010000000000000002")) (lit "rm %r %%")).
Proof.
  apply (BuildRecoveryCommand_within_bounds 8); [lia | reflexivity].
Defined.

(** The commands are strings of fewer than [MAXPGPATH] characters. *)
Lemma restore_command_bounded (P : platform) (template xlogpath xlogfname last cmd : list ascii) :
  BuildRestoreCommand (MAXPGPATH P) (automatic P (MAXPGPATH P)) template xlogpath xlogfname last
    ≫= (λ m, string_at m 0) = Some cmd →
  length cmd < MAXPGPATH P ∧ Forall (λ c, c ≠ NUL) cmd.
Proof.
  intros Hb. destruct (decide (1 ≤ MAXPGPATH P)) as [HM|HM].
  - rewrite BuildRestoreCommand_table in Hb.
    destruct (build_spec (MAXPGPATH P - 1) (restore_placeholders xlogpath xlogfname last)
                template (automatic P (MAXPGPATH P)))
      as (m & Hm & _ & _ & Hs & Hn & Hr); [rewrite length_automatic; lia|].
    rewrite Hm in Hb. simpl in Hb. rewrite Hs in Hb. injection Hb as <-.
    split; [lia | done].
  - exfalso. unfold BuildRestoreCommand in Hb.
    replace (MAXPGPATH P) with 0 in Hb by lia. discriminate Hb.
Qed.

Lemma recovery_command_bounded (P : platform) (command last cmd : list ascii) :
  BuildRecoveryCommand (MAXPGPATH P) (automatic P (MAXPGPATH P)) command last
    ≫= (λ m, string_at m 0) = Some cmd →
  length cmd < MAXPGPATH P ∧ Forall (λ c, c ≠ NUL) cmd.
Proof.
  intros Hb. destruct (decide (1 ≤ MAXPGPATH P)) as [HM|HM].
  - rewrite BuildRecoveryCommand_table in Hb.
    destruct (build_spec (MAXPGPATH P - 1) (recovery_placeholders last)
                command (automatic P (MAXPGPATH P)))
      as (m & Hm & _ & _ & Hs & Hn & Hr); [rewrite length_automatic; lia|].
    rewrite Hm in Hb. simpl in Hb. rewrite Hs in Hb. injection Hb as <-.
    split; [lia | done].
  - exfalso. unfold BuildRecoveryCommand in Hb.
    replace (MAXPGPATH P) with 0 in Hb by lia. discriminate Hb.
Qed.

(** ** More on restoring a file from the archive *)

Section FromArchiveMore.

Context {W : Type} (os : environment W).
Variable P : platform.
Variable G : globals.

Implicit Types (path xlogfname recovername xlogpath : list ascii) (w : W).

Local Abbreviation temporary_path recovername :=
  (snprintf (MAXPGPATH P) (XLOGDIR P ++ lit "/" ++ cstr recovername)).
Local Abbreviation conventional_path xlogfname :=
  (snprintf (MAXPGPATH P) (XLOGDIR P ++ lit "/" ++ cstr xlogfname)).

(** What a run has done when it calls [system]. *)
Lemma RestoreArchivedFile_before_command
    path xlogfname recovername expectedSize cleanupEnabled w before cmd rc after :
  trace_of os
    (RestoreArchivedFile P G path xlogfname recovername expectedSize cleanupEnabled) w
  = before ++ EvSystem cmd rc :: after →
  ∃ removal cutoff,
    before = removal ++ cutoff
               ++ [EvLog DEBUG3 (executing_restore_command cmd); EvPreRestoreCommand]
    ∧ (removal = [EvStat (temporary_path recovername) (StatErr ENOENT)]
       ∨ ∃ size, removal = [EvStat (temporary_path recovername) (StatOk size);
                            EvUnlink (temporary_path recovername) 0])
    ∧ (if cleanupEnabled
       then ∃ ptr tli, cutoff = [EvGetOldestRestartPoint ptr tli]
       else cutoff = []).
Proof.
  unfold trace_of, RestoreArchivedFile.
  destruct (recoveryRestoreCommand G) as [template|];
    [|intros Htr; trace_cases before].
  cbv zeta.
  assert (Hcommand : ∀ w0 pre lastRestartPointFname tr1 o w',
    run os
      match BuildRestoreCommand (MAXPGPATH P) (automatic P (MAXPGPATH P)) template
              (temporary_path recovername) xlogfname lastRestartPointFname
            ≫= (λ m, string_at m 0) with
      | Some xlogRestoreCmd =>
        _ ← ereport DEBUG3 (executing_restore_command xlogRestoreCmd);
        _ ← call PreRestoreCommand;
        rc ← call (system xlogRestoreCmd);
        _ ← call PostRestoreCommand;
        restore_result P G path xlogfname (temporary_path recovername) expectedSize rc
      | None => Halt memory_fault
      end w0 = (tr1, o, w') →
    Forall (λ e, ¬ is_system e) pre →
    pre ++ tr1 = before ++ EvSystem cmd rc :: after →
    before = pre ++ [EvLog DEBUG3 (executing_restore_command cmd); EvPreRestoreCommand]).
  { intros w0 pre lastRestartPointFname.
    destruct (_ ≫= _) as [cmd'|] eqn:Hb.
    - any_answer u wa. any_answer u' wb. any_answer rc' wc. any_answer u'' wd.
      destruct (run os _ wd) as [[tl o1] w2'] eqn:Hres.
      intros tr1 o w' [= <- <- <-] Hpre Htr.
      assert (Htl : Forall (λ e, ¬ is_system e) tl).
      { pose proof (restore_result_no_system os P G path xlogfname
                      (temporary_path recovername) expectedSize rc' wd) as Hns.
        unfold trace_of in Hns. by rewrite Hres in Hns. }
      change (pre ++ ?a :: ?b :: ?X) with (pre ++ [a; b] ++ X) in Htr.
      rewrite app_assoc in Htr.
      apply split_at_system in Htr as (-> & -> & -> & ->); [done| |].
      + apply Forall_app. split; [done|]. repeat constructor; tauto.
      + constructor; [tauto | done].
    - cbn [run]. intros tr1 o w' [= <- <- <-] Hpre Htr. exfalso.
      rewrite app_nil_r in Htr. subst pre.
      apply Forall_app in Hpre as [_ Hpre]. apply Forall_cons in Hpre as [Hs _].
      by apply Hs. }
  assert (Hcutoff : ∀ w0 pre tr1 o w',
    run os
      (lastRestartPointFname ← restore_cutoff P xlogfname cleanupEnabled;
       match BuildRestoreCommand (MAXPGPATH P) (automatic P (MAXPGPATH P)) template
               (temporary_path recovername) xlogfname lastRestartPointFname
             ≫= (λ m, string_at m 0) with
       | Some xlogRestoreCmd =>
         _ ← ereport DEBUG3 (executing_restore_command xlogRestoreCmd);
         _ ← call PreRestoreCommand;
         rc ← call (system xlogRestoreCmd);
         _ ← call PostRestoreCommand;
         restore_result P G path xlogfname (temporary_path recovername) expectedSize rc
       | None => Halt memory_fault
       end) w0 = (tr1, o, w') →
    Forall (λ e, ¬ is_system e) pre →
    pre ++ tr1 = before ++ EvSystem cmd rc :: after →
    ∃ cutoff,
      before = pre ++ cutoff
                 ++ [EvLog DEBUG3 (executing_restore_command cmd); EvPreRestoreCommand]
      ∧ (if cleanupEnabled
         then ∃ ptr tli, cutoff = [EvGetOldestRestartPoint ptr tli]
         else cutoff = [])).
  { intros w0 pre. unfold restore_cutoff.
    destruct cleanupEnabled.
    - any_answer rp w2. destruct rp as [ptr tli]. run_step. unfold Assert.
      destruct (USE_ASSERT_CHECKING P && negb _) eqn:HA; run_step.
      + intros tr1 o w' [= <- <- <-] Hpre Htr. exfalso.
        assert (Hall : Forall (λ e, ¬ is_system e)
                         (pre ++ [EvGetOldestRestartPoint ptr tli])).
        { apply Forall_app. split; [done|]. repeat constructor; tauto. }
        rewrite Htr in Hall. apply Forall_app in Hall as [_ Hall].
        apply Forall_cons in Hall as [Hs _]. by apply Hs.
      + destruct (run os _ w2) as [[tr2 o2] w3] eqn:Hrun.
        intros tr1 o w' [= <- <- <-] Hpre Htr.
        rewrite (cons_middle (EvGetOldestRestartPoint ptr tli)), app_assoc in Htr.
        exists [EvGetOldestRestartPoint ptr tli]. split; [|by exists ptr, tli].
        rewrite app_assoc.
        eapply (Hcommand w2 (pre ++ [EvGetOldestRestartPoint ptr tli]));
          [exact Hrun | | exact Htr].
        apply Forall_app. split; [done|]. repeat constructor; tauto.
    - run_step. intros tr1 o w' Hrun Hpre Htr. exists []. split; [|done].
      by eapply (Hcommand w0 pre). }
  any_answer st w1. destruct st as [size|errno].
  - any_answer r w2. destruct (r =? 0)%Z eqn:Hr.
    + apply Z.eqb_eq in Hr as ->.
      run_step. destruct (run os _ w2) as [[tr1 o1] w3] eqn:Hrun.
      cbn [fst]. intros Htr.
      edestruct (Hcutoff w2 [EvStat (temporary_path recovername) (StatOk size);
                             EvUnlink (temporary_path recovername) 0%Z])
        as (cutoff & -> & Hcut); [exact Hrun | repeat constructor; tauto | exact Htr |].
      eexists _, cutoff. split; [done|]. split; [|done]. right. by exists size.
    + any_answer u w3. intros Htr. trace_cases before.
  - destruct (errno =? ENOENT)%Z eqn:He.
    + apply Z.eqb_eq in He as ->.
      run_step. destruct (run os _ w1) as [[tr1 o1] w3] eqn:Hrun.
      cbn [fst]. intros Htr.
      edestruct (Hcutoff w1 [EvStat (temporary_path recovername) (StatErr ENOENT)])
        as (cutoff & -> & Hcut); [exact Hrun | repeat constructor; tauto | exact Htr |].
      eexists _, cutoff. split; [done|]. split; [|done]. by left.
    + any_answer u w3. intros Htr. trace_cases before.
Qed.

(** X2.  The command never runs with a stale file at the temporary path.
    In every run that calls [system], the run began by finding no file at
    that path ([ENOENT]) or by removing the file it found.  When the first
    [stat] fails for another reason, or the [unlink] fails, the failure is
    reported at [FATAL] and the process ends without running a command. *)
Theorem RestoreArchivedFile_removes_stale_file
    path xlogfname recovername expectedSize cleanupEnabled w :
  (∀ before cmd rc after,
     trace_of os
       (RestoreArchivedFile P G path xlogfname recovername expectedSize cleanupEnabled) w
     = before ++ EvSystem cmd rc :: after →
     ∃ rest,
       before = EvStat (temporary_path recovername) (StatErr ENOENT) :: rest
       ∨ ∃ size, before = EvStat (temporary_path recovername) (StatOk size)
                          :: EvUnlink (temporary_path recovername) 0 :: rest)
  ∧ (∀ errno w1,
     is_Some (recoveryRestoreCommand G) →
     os (stat (temporary_path recovername)) w = (StatErr errno, w1) → errno ≠ ENOENT →
     trace_of os
       (RestoreArchivedFile P G path xlogfname recovername expectedSize cleanupEnabled) w
     = [EvStat (temporary_path recovername) (StatErr errno);
        EvLog FATAL (could_not_stat (temporary_path recovername))]
     ∧ outcome_of os
         (RestoreArchivedFile P G path xlogfname recovername expectedSize cleanupEnabled) w
       = Halted fatal_error)
  ∧ (∀ size w1 r w2,
     is_Some (recoveryRestoreCommand G) →
     os (stat (temporary_path recovername)) w = (StatOk size, w1) →
     os (unlink (temporary_path recovername)) w1 = (r, w2) → r ≠ 0%Z →
     trace_of os
       (RestoreArchivedFile P G path xlogfname recovername expectedSize cleanupEnabled) w
     = [EvStat (temporary_path recovername) (StatOk size);
        EvUnlink (temporary_path recovername) r;
        EvLog FATAL (could_not_remove (temporary_path recovername))]
     ∧ outcome_of os
         (RestoreArchivedFile P G path xlogfname recovername expectedSize cleanupEnabled) w
       = Halted fatal_error).
Proof.
  split; [|split].
  - intros before cmd rc after Htr.
    destruct (RestoreArchivedFile_before_command _ _ _ _ _ _ _ _ _ _ Htr)
      as (removal & cutoff & -> & [->|[size ->]] & _).
    + eexists. left. reflexivity.
    + eexists. right. exists size. reflexivity.
  - intros errno w1 [template Hcfg] Hst Hne.
    unfold trace_of, outcome_of, RestoreArchivedFile. rewrite Hcfg. cbv zeta.
    answered Hst. apply Z.eqb_neq in Hne. rewrite Hne.
    by any_answer u w2.
  - intros size w1 r w2 [template Hcfg] Hst Hun Hne.
    unfold trace_of, outcome_of, RestoreArchivedFile. rewrite Hcfg. cbv zeta.
    answered Hst. answered Hun. apply Z.eqb_neq in Hne. rewrite Hne.
    by any_answer u w3.
Qed.

(** X3.  [system] is called at most once in a run, and only when a restore
    command is configured; the call is made right after
    [PreRestoreCommand] and is followed at once by [PostRestoreCommand];
    the command is a string of fewer than [MAXPGPATH] characters. *)
Theorem RestoreArchivedFile_runs_one_command
    path xlogfname recovername expectedSize cleanupEnabled w before cmd rc after :
  trace_of os
    (RestoreArchivedFile P G path xlogfname recovername expectedSize cleanupEnabled) w
  = before ++ EvSystem cmd rc :: after →
  is_Some (recoveryRestoreCommand G)
  ∧ Forall (λ e, ¬ is_system e) before
  ∧ Forall (λ e, ¬ is_system e) after
  ∧ (∃ before', before = before' ++ [EvPreRestoreCommand])
  ∧ (∃ after', after = EvPostRestoreCommand :: after')
  ∧ length cmd < MAXPGPATH P
  ∧ Forall (λ c, c ≠ NUL) cmd.
Proof.
  intros Htr.
  destruct (RestoreArchivedFile_before_command _ _ _ _ _ _ _ _ _ _ Htr)
    as (removal & cutoff & Hbefore & Hrem & Hcut).
  destruct (RestoreArchivedFile_after_command os P G _ _ _ _ _ _ _ _ _ _ Htr)
    as (w1 & Hafter & _).
  unfold trace_of in Htr.
  destruct (run os (RestoreArchivedFile _ _ _ _ _ _ _) w) as [[tr o] w'] eqn:Hrun.
  destruct (RestoreArchivedFile_run os P G _ _ _ _ _ _ _ _ _ _ _ _ _ Hrun Htr)
    as (t & l & _ & _ & Hcfg & Hb & _).
  apply restore_command_bounded in Hb as [Hlen Hnul].
  split; [by exists t|]. split; [|split; [|split; [|split; [|done]]]].
  - subst before. rewrite !Forall_app. split; [|split].
    + destruct Hrem as [->|[size ->]]; repeat constructor; tauto.
    + destruct cleanupEnabled; [destruct Hcut as (ptr & tli & ->)|subst cutoff];
        repeat constructor; tauto.
    + repeat constructor; tauto.
  - subst after. constructor; [tauto|]. apply restore_result_no_system.
  - exists (removal ++ cutoff ++ [EvLog DEBUG3 (executing_restore_command cmd)]).
    subst before. by rewrite <- !app_assoc.
  - by eexists.
Qed.


(** What [restore_result] can come to. *)
Lemma restore_result_outcome path xlogfname xlogpath expectedSize rc w :
  match outcome_of os (restore_result P G path xlogfname xlogpath expectedSize rc) w with
  | Returned (true, p) => p = cstr xlogpath ∧ rc = 0%Z
  | Returned (false, p) =>
    p = conventional_path xlogfname
    ∨ (p = path ∧ rc = 0%Z ∧ StandbyMode G = true ∧ (0 < expectedSize)%Z)
  | Halted h => h = fatal_error ∨ h = proc_exit 1
  end.
Proof.
  unfold outcome_of, restore_result, restore_failed, not_available.
  destruct (rc =? 0)%Z eqn:Hrc.
  - apply Z.eqb_eq in Hrc as ->.
    any_answer st w1. destruct st as [size|errno].
    + destruct ((expectedSize >? 0)%Z && _) eqn:Hc.
      * apply andb_prop in Hc as [Hpos _]. apply Z.gtb_lt in Hpos.
        destruct (StandbyMode G && _) eqn:Hs.
        -- apply andb_prop in Hs as [Hs _]. any_answer u w2. right. done.
        -- any_answer u w2. by left.
      * any_answer u w2. done.
    + destruct (errno =? ENOENT)%Z.
      * run_step. change (WIFSIGNALED 0) with false. cbn [andb orb].
        change (WEXITSTATUS 0 >? 125)%Z with false. any_answer u w2. by left.
      * any_answer u w2. by left.
  - destruct (_ && _); [by right|].
    destruct (_ || _); any_answer u w2; by left.
Qed.

(** Where a run of [RestoreArchivedFile] ends. *)
Lemma RestoreArchivedFile_outcome
    path xlogfname recovername expectedSize cleanupEnabled w :
  1 ≤ MAXPGPATH P →
  outcome_of os
    (RestoreArchivedFile P G path xlogfname recovername expectedSize cleanupEnabled) w
  = Returned (false, conventional_path xlogfname)
  ∨ outcome_of os
      (RestoreArchivedFile P G path xlogfname recovername expectedSize cleanupEnabled) w
    = Halted fatal_error
  ∨ outcome_of os
      (RestoreArchivedFile P G path xlogfname recovername expectedSize cleanupEnabled) w
    = Halted assertion_trap
  ∨ ∃ rc w1,
      outcome_of os
        (RestoreArchivedFile P G path xlogfname recovername expectedSize cleanupEnabled) w
      = outcome_of os (restore_result P G path xlogfname (temporary_path recovername)
                         expectedSize rc) w1.
Proof.
  intros HM. unfold outcome_of, RestoreArchivedFile.
  destruct (recoveryRestoreCommand G) as [template|]; [|by left].
  cbv zeta.
  assert (Hcommand : ∀ w0 (pre : list event) lastRestartPointFname,
    let res :=
      run os
        match BuildRestoreCommand (MAXPGPATH P) (automatic P (MAXPGPATH P)) template
                (temporary_path recovername) xlogfname lastRestartPointFname
              ≫= (λ m, string_at m 0) with
        | Some xlogRestoreCmd =>
          _ ← ereport DEBUG3 (executing_restore_command xlogRestoreCmd);
          _ ← call PreRestoreCommand;
          rc ← call (system xlogRestoreCmd);
          _ ← call PostRestoreCommand;
          restore_result P G path xlogfname (temporary_path recovername) expectedSize rc
        | None => Halt memory_fault
        end w0 in
    ∃ rc w1,
      res.1.2 = (run os (restore_result P G path xlogfname (temporary_path recovername)
                           expectedSize rc) w1).1.2).
  { intros w0 pre lastRestartPointFname.
    rewrite restore_command_string by (done || apply length_automatic). cbv zeta.
    any_answer u wa. any_answer u' wb. any_answer rc wc. any_answer u'' wd.
    exists rc, wd. by destruct (run os _ wd) as [[tl o1] w2']. }
  assert (Hcutoff : ∀ w0,
    let res :=
      run os
        (lastRestartPointFname ← restore_cutoff P xlogfname cleanupEnabled;
         match BuildRestoreCommand (MAXPGPATH P) (automatic P (MAXPGPATH P)) template
                 (temporary_path recovername) xlogfname lastRestartPointFname
               ≫= (λ m, string_at m 0) with
         | Some xlogRestoreCmd =>
           _ ← ereport DEBUG3 (executing_restore_command xlogRestoreCmd);
           _ ← call PreRestoreCommand;
           rc ← call (system xlogRestoreCmd);
           _ ← call PostRestoreCommand;
           restore_result P G path xlogfname (temporary_path recovername) expectedSize rc
         | None => Halt memory_fault
         end) w0 in
    res.1.2 = Halted assertion_trap
    ∨ ∃ rc w1,
        res.1.2 = (run os (restore_result P G path xlogfname (temporary_path recovername)
                             expectedSize rc) w1).1.2).
  { intros w0. unfold restore_cutoff. cbv zeta. destruct cleanupEnabled.
    - any_answer rp w2. destruct rp as [ptr tli]. run_step. unfold Assert.
      destruct (USE_ASSERT_CHECKING P && negb _); run_step; [by left|].
      right. destruct (Hcommand w2 [] (XLogFileName P tli (XLByteToSeg P ptr)))
        as (rc & w1 & Hres).
      exists rc, w1. rewrite <- Hres. by destruct (run os _ w2) as [[tr o] w3].
    - run_step. right. apply (Hcommand w0 []). }
  any_answer st w1. destruct st as [size|errno].
  - any_answer r w2. destruct (r =? 0)%Z.
    + run_step. destruct (Hcutoff w2) as [Hres|(rc & w' & Hres)]; cbv zeta in Hres.
      * right. right. left. rewrite <- Hres. by destruct (run os _ w2) as [[tr o] w3].
      * right. right. right. exists rc, w'. rewrite <- Hres.
        by destruct (run os _ w2) as [[tr o] w3].
    + any_answer u w3. right. by left.
  - destruct (errno =? ENOENT)%Z.
    + run_step. destruct (Hcutoff w1) as [Hres|(rc & w' & Hres)]; cbv zeta in Hres.
      * right. right. left. rewrite <- Hres. by destruct (run os _ w1) as [[tr o] w3].
      * right. right. right. exists rc, w'. rewrite <- Hres.
        by destruct (run os _ w1) as [[tr o] w3].
    + any_answer u w3. right. by left.
Qed.

(** How [restore_result] ends: a return of [false] follows a report, and
    leaves [path] as it was exactly when that report is the one at
    [DEBUG1]. *)
Lemma restore_result_ends path xlogfname xlogpath expectedSize rc w :
  match outcome_of os (restore_result P G path xlogfname xlogpath expectedSize rc) w with
  | Returned (true, p) => p = cstr xlogpath
  | Returned (false, p) =>
    match last (trace_of os (restore_result P G path xlogfname xlogpath expectedSize rc) w)
    with
    | Some (EvLog DEBUG1 m) =>
      p = path ∧ StandbyMode G = true
      ∧ ∃ st_size, m = wrong_size xlogfname st_size expectedSize
                   ∧ (0 < expectedSize)%Z ∧ (st_size < expectedSize)%Z
    | Some _ => p = conventional_path xlogfname
    | None => False
    end
  | Halted h => h = fatal_error ∨ h = proc_exit 1
  end.
Proof.
  unfold outcome_of, trace_of, restore_result, restore_failed, not_available.
  destruct (rc =? 0)%Z eqn:Hrc.
  - any_answer st w1. destruct st as [size|errno].
    + destruct ((expectedSize >? 0)%Z && _) eqn:Hc.
      * apply andb_prop in Hc as [Hpos _]. apply Z.gtb_lt in Hpos.
        destruct (StandbyMode G && _) eqn:Hs.
        -- apply andb_prop in Hs as [Hs Hlt]. apply Z.ltb_lt in Hlt.
           any_answer u w2. split; [done|]. split; [done|]. by exists size.
        -- any_answer u w2. by left.
      * any_answer u w2. done.
    + destruct (errno =? ENOENT)%Z.
      * run_step. destruct (WIFSIGNALED rc && _); [run_step; by right|].
        destruct (WIFSIGNALED rc || _); any_answer u w2; [by left | done].
      * any_answer u w2. by left.
  - destruct (WIFSIGNALED rc && _); [by right|].
    destruct (WIFSIGNALED rc || _); any_answer u w2; [by left | done].
Qed.

(** X5.  What [RestoreArchivedFile] hands back.  When it returns [true],
    [path] holds the temporary path.  When it returns [false], [path]
    holds the conventional path of the segment, with one exception: the
    return that follows the report at [DEBUG1] of a file found too small
    in standby mode leaves [path] as it was on entry.  A run never ends in
    an access outside the command array. *)
Theorem RestoreArchivedFile_returns
    path xlogfname recovername expectedSize cleanupEnabled w :
  1 ≤ MAXPGPATH P →
  match outcome_of os
          (RestoreArchivedFile P G path xlogfname recovername expectedSize cleanupEnabled) w
  with
  | Returned (true, p) => p = temporary_path recovername
  | Returned (false, p) =>
    match last (trace_of os
                  (RestoreArchivedFile P G path xlogfname recovername expectedSize
                     cleanupEnabled) w)
    with
    | Some (EvLog DEBUG1 m) =>
      p = path ∧ StandbyMode G = true
      ∧ ∃ st_size, m = wrong_size xlogfname st_size expectedSize
                   ∧ (0 < expectedSize)%Z ∧ (st_size < expectedSize)%Z
    | _ => p = conventional_path xlogfname
    end
  | Halted h => h ≠ memory_fault
  end.
Proof.
  intros HM.
  destruct (outcome_of os (RestoreArchivedFile _ _ _ _ _ _ _) w) as [[found p]|h] eqn:Ho.
  2:{ destruct (RestoreArchivedFile_outcome path xlogfname recovername expectedSize
                  cleanupEnabled w HM) as [Hr|[Hr|[Hr|(rc & w1 & Hr)]]];
        rewrite Ho in Hr; try by simplify_eq.
      pose proof (restore_result_outcome path xlogfname (temporary_path recovername)
                    expectedSize rc w1) as Hres.
      rewrite <- Hr in Hres. by destruct Hres as [->| ->]. }
  destruct (RestoreArchivedFile_up_to_command os P G path xlogfname recovername expectedSize
              cleanupEnabled w)
    as [[_ Hrun]|[_ [[_ [h Hh]]|(before & cmd & rc & w0 & _ & Hs & Hrr)]]].
  - unfold outcome_of, trace_of in *. rewrite Hrun in Ho |- *. cbn [fst snd] in *.
    by injection Ho as <- <-.
  - rewrite Ho in Hh. discriminate Hh.
  - rewrite <- (steps_trace os (RestoreArchivedFile _ _ _ _ _ _ _)), Hs.
    rewrite fmap_app, !fmap_cons, steps_trace. cbn [fst].
    pose proof (restore_result_ends path xlogfname (temporary_path recovername)
                  expectedSize rc (os PostRestoreCommand w0).2) as Hres.
    rewrite <- Hrr, Ho in Hres.
    destruct found; [by rewrite cstr_snprintf in Hres|].
    rewrite last_app, !last_cons.
    destruct (last (trace_of _ _ _)) as [e|]; [|done].
    by destruct e as [| | | | | | | | |[] m].
Qed.

(** X6.  [ExecuteRecoveryCommand] ends the process only when
    [failOnSignal] is set and the command was killed by a signal or exited
    with a status above 125; with [failOnSignal] unset it always returns.
    A command that returns status 0 is followed by no report at all, and
    any other failure is reported at [WARNING].  The command is built with
    the file name of the oldest restart point and has fewer than
    [MAXPGPATH] characters; the [DEBUG3] entry before the call shows the
    template, not the command that is run. *)
Theorem ExecuteRecoveryCommand_outcomes command commandName failOnSignal w :
  1 ≤ MAXPGPATH P →
  ∃ ptr tli cmd rc report,
    trace_of os (ExecuteRecoveryCommand P command commandName failOnSignal) w
    = [EvGetOldestRestartPoint ptr tli;
       EvLog DEBUG3 (executing (cstr commandName) (cstr command));
       EvSystem cmd rc] ++ report
    ∧ BuildRecoveryCommand (MAXPGPATH P) (automatic P (MAXPGPATH P)) command
        (XLogFileName P tli (XLByteToSeg P ptr)) ≫= (λ m, string_at m 0) = Some cmd
    ∧ length cmd < MAXPGPATH P
    ∧ (rc = 0%Z →
       report = []
       ∧ outcome_of os (ExecuteRecoveryCommand P command commandName failOnSignal) w
         = Returned tt)
    ∧ (rc ≠ 0%Z →
       (failOnSignal = false ∨ (WIFSIGNALED rc = false ∧ (WEXITSTATUS rc ≤ 125)%Z)) →
       report = [EvLog WARNING (return_code (cstr commandName) (cstr command) rc)]
       ∧ outcome_of os (ExecuteRecoveryCommand P command commandName failOnSignal) w
         = Returned tt)
    ∧ (rc ≠ 0%Z →
       failOnSignal = true → (WIFSIGNALED rc = true ∨ (125 < WEXITSTATUS rc)%Z) →
       report = [EvLog FATAL (return_code (cstr commandName) (cstr command) rc)]
       ∧ outcome_of os (ExecuteRecoveryCommand P command commandName failOnSignal) w
         = Halted fatal_error).
Proof.
  intros HM. unfold trace_of, outcome_of, ExecuteRecoveryCommand.
  any_answer rp w1. destruct rp as [ptr tli]. run_step.
  destruct (_ ≫= _) as [cmd|] eqn:Hb.
  2:{ rewrite recovery_command_string in Hb by (done || apply length_automatic).
      discriminate Hb. }
  pose proof (recovery_command_bounded _ _ _ _ Hb) as [Hlen _].
  any_answer u w2. any_answer rc w3.
  destruct (rc =? 0)%Z eqn:Hrc.
  - apply Z.eqb_eq in Hrc as ->. run_step.
    exists ptr, tli, cmd, 0%Z, []. repeat split; done.
  - apply Z.eqb_neq in Hrc.
    destruct ((WIFSIGNALED rc || (WEXITSTATUS rc >? 125)%Z) && failOnSignal) eqn:Hs.
    + any_answer u' w4.
      exists ptr, tli, cmd, rc,
        [EvLog FATAL (return_code (cstr commandName) (cstr command) rc)].
      split; [done|]. split; [done|]. split; [done|]. split; [done|]. split; [|done].
      intros _ Hcase. apply andb_prop in Hs as [Hs ->]. exfalso.
      destruct Hcase as [Hf|[Hn Hle]]; [done|].
      rewrite Hn in Hs. cbn [orb] in Hs. apply Z.gtb_lt in Hs. lia.
    + any_answer u' w4.
      exists ptr, tli, cmd, rc,
        [EvLog WARNING (return_code (cstr commandName) (cstr command) rc)].
      split; [done|]. split; [done|]. split; [done|]. split; [done|]. split; [done|].
      intros _ -> Hcase. exfalso. rewrite andb_true_r in Hs.
      apply orb_false_iff in Hs as [Hn Hle].
      destruct Hcase as [Hy|Hgt]; [congruence|].
      rewrite Z.gtb_ltb in Hle. apply Z.ltb_ge in Hle. lia.
Qed.

End FromArchiveMore.

(** ** The status protocol on a local disk *)

Ltac disk_step :=
  cbn [run bind mbind prog_bind call ereport observe fst snd local_disk files wakeups
       stat_ok].

Ltac race_step :=
  cbn [run bind mbind prog_bind call ereport observe fst snd beside_archiver local_disk
       stat_ok].

Section OnDisk.

Variable P : platform.
Variable G : globals.
Variable xlog : list ascii.

Local Abbreviation done_marker := (StatusFilePath P xlog (lit ".done")).
Local Abbreviation ready_marker := (StatusFilePath P xlog (lit ".ready")).
Local Abbreviation segment_file :=
  (snprintf (MAXPGPATH P) (XLOGDIR P ++ lit "/" ++ cstr xlog)).

Lemma XLogArchiveNotify_disk (d : disk) :
  run local_disk (XLogArchiveNotify P G xlog) d
  = ([EvAllocateFile ready_marker (lit "w") (Some 0); EvFreeFile 0 0]
       ++ (if IsUnderPostmaster G
           then [EvSendPostmasterSignal PMSIGNAL_WAKEN_ARCHIVER] else []),
     Returned tt,
     Disk (<[ready_marker:=0%Z]> (files d))
          (if IsUnderPostmaster G then S (wakeups d) else wakeups d)).
Proof.
  unfold XLogArchiveNotify. cbv zeta. disk_step. cbn [Z.eqb negb].
  by destruct (IsUnderPostmaster G).
Qed.

Lemma XLogArchiveCheckDone_disk (d : disk) :
  XLogArchivingActive G = true →
  done_marker ≠ ready_marker →
  run local_disk (XLogArchiveCheckDone P G xlog) d
  = match files d !! done_marker, files d !! ready_marker with
    | Some size, _ => ([EvStat done_marker (StatOk size)], Returned true, d)
    | None, Some size =>
      ([EvStat done_marker (StatErr ENOENT); EvStat ready_marker (StatOk size)],
       Returned false, d)
    | None, None =>
      ([EvStat done_marker (StatErr ENOENT); EvStat ready_marker (StatErr ENOENT);
        EvStat done_marker (StatErr ENOENT)]
         ++ (run local_disk (XLogArchiveNotify P G xlog) d).1.1,
       Returned false,
       (run local_disk (XLogArchiveNotify P G xlog) d).2)
    end.
Proof.
  intros Hact Hne. unfold XLogArchiveCheckDone. rewrite Hact. cbn [negb].
  disk_step. destruct (files d !! done_marker) as [size|] eqn:Hd; disk_step; [done|].
  destruct (files d !! ready_marker) as [size|] eqn:Hr; disk_step; [done|].
  rewrite Hd. disk_step.
  rewrite run_mbind, XLogArchiveNotify_disk. cbn [run fst snd].
  by rewrite app_nil_r.
Qed.

Lemma XLogArchiveIsBusy_disk (d : disk) :
  run local_disk (XLogArchiveIsBusy P xlog) d
  = match files d !! done_marker, files d !! ready_marker, files d !! segment_file with
    | Some size, _, _ => ([EvStat done_marker (StatOk size)], Returned false, d)
    | None, Some size, _ =>
      ([EvStat done_marker (StatErr ENOENT); EvStat ready_marker (StatOk size)],
       Returned true, d)
    | None, None, Some size =>
      ([EvStat done_marker (StatErr ENOENT); EvStat ready_marker (StatErr ENOENT);
        EvStat done_marker (StatErr ENOENT); EvStat segment_file (StatOk size)],
       Returned true, d)
    | None, None, None =>
      ([EvStat done_marker (StatErr ENOENT); EvStat ready_marker (StatErr ENOENT);
        EvStat done_marker (StatErr ENOENT); EvStat segment_file (StatErr ENOENT)],
       Returned false, d)
    end.
Proof.
  unfold XLogArchiveIsBusy.
  disk_step. destruct (files d !! done_marker) as [size|] eqn:Hd; disk_step; [done|].
  destruct (files d !! ready_marker) as [size|] eqn:Hr; disk_step; [done|].
  rewrite Hd. disk_step.
  by destruct (files d !! segment_file) as [size|] eqn:Hs; disk_step.
Qed.

(** X7.  [XLogArchiveCleanup] leaves neither marker behind, whichever of
    them existed, touches no other file, and reports nothing: an [unlink]
    that fails because the marker is missing is passed over in silence. *)
Theorem XLogArchiveCleanup_removes_markers (d : disk) :
  ∃ tr d',
    run local_disk (XLogArchiveCleanup P xlog) d = (tr, Returned tt, d')
    ∧ Forall (λ e, ∃ p r, e = EvUnlink p r) tr
    ∧ files d' !! done_marker = None
    ∧ files d' !! ready_marker = None
    ∧ (∀ p, p ≠ done_marker → p ≠ ready_marker → files d' !! p = files d !! p)
    ∧ wakeups d' = wakeups d.
Proof.
  unfold XLogArchiveCleanup. disk_step.
  destruct (files d !! done_marker) as [s1|] eqn:Hd; disk_step.
  - destruct (delete done_marker (files d) !! ready_marker) as [s2|] eqn:Hr; disk_step.
    + eexists _, _. split; [done|]. split; [repeat constructor; eauto|].
      cbn [files wakeups]. split; [|split; [|split; [|done]]].
      * destruct (decide (done_marker = ready_marker)) as [<-|Hne].
        -- apply lookup_delete_eq.
        -- rewrite lookup_delete_ne by done. apply lookup_delete_eq.
      * apply lookup_delete_eq.
      * intros p H1 H2. by rewrite !lookup_delete_ne.
    + eexists _, _. split; [done|]. split; [repeat constructor; eauto|].
      cbn [files wakeups]. split; [|split; [|split; [|done]]].
      * apply lookup_delete_eq.
      * done.
      * intros p H1 H2. by rewrite lookup_delete_ne.
  - destruct (files d !! ready_marker) as [s2|] eqn:Hr; disk_step.
    + eexists _, _. split; [done|]. split; [repeat constructor; eauto|].
      cbn [files wakeups]. split; [|split; [|split; [|done]]].
      * destruct (decide (ready_marker = done_marker)) as [E|Hne].
        -- rewrite <- E. apply lookup_delete_eq.
        -- by rewrite lookup_delete_ne.
      * apply lookup_delete_eq.
      * intros p H1 H2. by rewrite lookup_delete_ne.
    + eexists _, _. split; [done|]. split; [repeat constructor; eauto|].
      repeat split; done.
Qed.

(** X8.  [XLogArchiveNotify] leaves an empty [.ready] marker and no other
    change on the disk; it wakes the archiver once when under the
    postmaster and not at all otherwise; a second call leaves the files as
    the first one left them. *)
Theorem XLogArchiveNotify_marks_ready (d : disk) :
  let d1 := (run local_disk (XLogArchiveNotify P G xlog) d).2 in
  let d2 := (run local_disk (XLogArchiveNotify P G xlog) d1).2 in
  outcome_of local_disk (XLogArchiveNotify P G xlog) d = Returned tt
  ∧ files d1 !! ready_marker = Some 0%Z
  ∧ (∀ p, p ≠ ready_marker → files d1 !! p = files d !! p)
  ∧ wakeups d1 = wakeups d + (if IsUnderPostmaster G then 1 else 0)
  ∧ files d2 = files d1.
Proof.
  unfold outcome_of. rewrite !XLogArchiveNotify_disk. cbn [fst snd files wakeups].
  split; [done|]. split; [apply lookup_insert_eq|]. split; [|split].
  - intros p Hp. by rewrite lookup_insert_ne.
  - destruct (IsUnderPostmaster G); lia.
  - apply insert_insert_eq.
Qed.

(** X9.  A segment that has just been notified is not yet done: with
    archiving active and no [.done] marker, [XLogArchiveCheckDone] right
    after [XLogArchiveNotify] sees the [.ready] marker at its second
    check, returns [false] and changes nothing (in particular it does not
    notify again). *)
Theorem XLogArchiveNotify_then_CheckDone (d : disk) :
  XLogArchivingActive G = true →
  done_marker ≠ ready_marker →
  files d !! done_marker = None →
  run local_disk (_ ← XLogArchiveNotify P G xlog; XLogArchiveCheckDone P G xlog) d
  = ((run local_disk (XLogArchiveNotify P G xlog) d).1.1
       ++ [EvStat done_marker (StatErr ENOENT); EvStat ready_marker (StatOk 0)],
     Returned false,
     (run local_disk (XLogArchiveNotify P G xlog) d).2).
Proof.
  intros Hact Hne Hd. rewrite run_mbind, XLogArchiveNotify_disk.
  rewrite XLogArchiveCheckDone_disk by done. cbn [files fst snd].
  rewrite lookup_insert_ne by done. rewrite Hd, lookup_insert_eq. done.
Qed.

(** X10.  On a disk that nobody else touches, [XLogArchiveCheckDone] with
    archiving active answers whether the [.done] marker exists; when it
    does not, a [.ready] marker exists afterwards (created if it was
    missing); the [.done] marker is never touched; and asking again gives
    the same answer and changes nothing more. *)
Theorem XLogArchiveCheckDone_settles (d : disk) :
  XLogArchivingActive G = true →
  done_marker ≠ ready_marker →
  let d1 := (run local_disk (XLogArchiveCheckDone P G xlog) d).2 in
  outcome_of local_disk (XLogArchiveCheckDone P G xlog) d
  = Returned (bool_decide (is_Some (files d !! done_marker)))
  ∧ files d1 !! done_marker = files d !! done_marker
  ∧ (files d !! done_marker = None → is_Some (files d1 !! ready_marker))
  ∧ (is_Some (files d !! done_marker) ∨ is_Some (files d !! ready_marker) → d1 = d)
  ∧ outcome_of local_disk (XLogArchiveCheckDone P G xlog) d1
    = outcome_of local_disk (XLogArchiveCheckDone P G xlog) d
  ∧ (run local_disk (XLogArchiveCheckDone P G xlog) d1).2 = d1.
Proof.
  intros Hact Hne. unfold outcome_of. cbv zeta.
  rewrite (XLogArchiveCheckDone_disk d) by done.
  destruct (files d !! done_marker) as [s1|] eqn:Hd.
  - cbn [fst snd]. rewrite XLogArchiveCheckDone_disk, Hd by done. cbn [fst snd].
    repeat split; done.
  - destruct (files d !! ready_marker) as [s2|] eqn:Hr.
    + cbn [fst snd]. rewrite XLogArchiveCheckDone_disk, Hd, Hr by done. cbn [fst snd].
      repeat split; done.
    + rewrite XLogArchiveNotify_disk. cbn [fst snd].
      rewrite XLogArchiveCheckDone_disk by done. cbn [files].
      rewrite lookup_insert_ne by done. rewrite Hd, lookup_insert_eq. cbn [fst snd files].
      split; [done|]. split; [done|]. split; [by eexists|]. split; [|done].
      intros [[? ?]|[? ?]]; done.
Qed.

(** X11.  [XLogArchiveIsBusy] is the opposite of [XLogArchiveCheckDone]
    but for a segment that is already gone.  On a disk that nobody else
    touches, with archiving active: when a marker or the segment file
    exists, the one returns [true] exactly when the other returns [false];
    when neither marker nor the segment file exists, both return [false].
    [XLogArchiveIsBusy] leaves the disk as it is. *)
Theorem XLogArchiveIsBusy_opposes_CheckDone (d : disk) :
  XLogArchivingActive G = true →
  done_marker ≠ ready_marker →
  (run local_disk (XLogArchiveIsBusy P xlog) d).2 = d
  ∧ (is_Some (files d !! done_marker) ∨ is_Some (files d !! ready_marker)
     ∨ is_Some (files d !! segment_file) →
     ∃ busy : bool,
       outcome_of local_disk (XLogArchiveIsBusy P xlog) d = Returned busy
       ∧ outcome_of local_disk (XLogArchiveCheckDone P G xlog) d = Returned (negb busy))
  ∧ (files d !! done_marker = None → files d !! ready_marker = None →
     files d !! segment_file = None →
     outcome_of local_disk (XLogArchiveIsBusy P xlog) d = Returned false
     ∧ outcome_of local_disk (XLogArchiveCheckDone P G xlog) d = Returned false).
Proof.
  intros Hact Hne. unfold outcome_of.
  rewrite XLogArchiveIsBusy_disk, XLogArchiveCheckDone_disk by done.
  destruct (files d !! done_marker) as [s1|] eqn:Hd;
    destruct (files d !! ready_marker) as [s2|] eqn:Hr;
    destruct (files d !! segment_file) as [s3|] eqn:Hs; cbn [fst snd];
    (split; [done|]); (split; [|done]); intros Hsome.
  all: try (by exists false).
  all: try (by exists true).
  destruct Hsome as [[? ?]|[[? ?]|[? ?]]]; done.
Qed.

(** The disk after the archiver has finished with a segment whose
    [.ready] marker existed. *)
Lemma archived_markers (d : disk) (size : Z) :
  done_marker ≠ ready_marker →
  files d !! ready_marker = Some size →
  files (archived ready_marker done_marker d) !! done_marker = Some size
  ∧ files (archived ready_marker done_marker d) !! ready_marker = None.
Proof.
  intros Hne Hr. unfold archived. rewrite Hr. cbn [files]. split.
  - apply lookup_insert_eq.
  - rewrite lookup_insert_ne by done. apply lookup_delete_eq.
Qed.

(** X12.  The second look at the [.done] marker closes the race with the
    archiver.  Let the segment have its [.ready] marker and no [.done]
    marker, and let the archiver rename the one to the other at any moment
    between the calls of the function, or not at all.
    [XLogArchiveCheckDone] then only ever calls [stat] (it never writes a
    [.ready] marker for a segment that has been archived); it returns
    [true] exactly when the archiver finished before the second call, and
    then the [.done] marker is there; otherwise it has seen the [.ready]
    marker and returns [false].  [XLogArchiveIsBusy] returns the opposite
    answers. *)
Theorem markers_beside_archiver (turn : option nat) (d : disk) (size : Z) :
  XLogArchivingActive G = true →
  done_marker ≠ ready_marker →
  files d !! ready_marker = Some size →
  files d !! done_marker = None →
  (∃ tr (deletable : bool) turn' d',
     run (beside_archiver ready_marker done_marker) (XLogArchiveCheckDone P G xlog) (turn, d)
     = (tr, Returned deletable, (turn', d'))
     ∧ Forall (λ e, ∃ p r, e = EvStat p r) tr
     ∧ (deletable = true ↔ turn = Some 0 ∨ turn = Some 1)
     ∧ (deletable = true →
        files d' !! done_marker = Some size ∧ files d' !! ready_marker = None)
     ∧ (deletable = false → d' = d))
  ∧ (∃ tr (busy : bool) turn' d',
     run (beside_archiver ready_marker done_marker) (XLogArchiveIsBusy P xlog) (turn, d)
     = (tr, Returned busy, (turn', d'))
     ∧ Forall (λ e, ∃ p r, e = EvStat p r) tr
     ∧ (busy = false ↔ turn = Some 0 ∨ turn = Some 1)
     ∧ (busy = false →
        files d' !! done_marker = Some size ∧ files d' !! ready_marker = None)
     ∧ (busy = true → d' = d)).
Proof.
  intros Hact Hne Hr Hd.
  destruct (archived_markers d size Hne Hr) as [Had Har].
  unfold XLogArchiveCheckDone, XLogArchiveIsBusy. rewrite Hact. cbn [negb].
  split.
  - destruct turn as [[|[|n]]|].
    + race_step. rewrite Had. race_step.
      eexists _, _, _, _. split; [reflexivity|]. split; [repeat constructor; eauto|].
      naive_solver.
    + race_step. rewrite Hd. race_step. rewrite Har. race_step. rewrite Had. race_step.
      eexists _, _, _, _. split; [reflexivity|]. split; [repeat constructor; eauto|].
      naive_solver.
    + race_step. rewrite Hd. race_step. rewrite Hr. race_step.
      eexists _, _, _, _. split; [reflexivity|]. split; [repeat constructor; eauto|].
      split; [split; [done | intros [[=]|[=]]]|]. split; done.
    + race_step. rewrite Hd. race_step. rewrite Hr. race_step.
      eexists _, _, _, _. split; [reflexivity|]. split; [repeat constructor; eauto|].
      split; [split; [done | intros [[=]|[=]]]|]. split; done.
  - destruct turn as [[|[|n]]|].
    + race_step. rewrite Had. race_step.
      eexists _, _, _, _. split; [reflexivity|]. split; [repeat constructor; eauto|].
      naive_solver.
    + race_step. rewrite Hd. race_step. rewrite Har. race_step. rewrite Had. race_step.
      eexists _, _, _, _. split; [reflexivity|]. split; [repeat constructor; eauto|].
      naive_solver.
    + race_step. rewrite Hd. race_step. rewrite Hr. race_step.
      eexists _, _, _, _. split; [reflexivity|]. split; [repeat constructor; eauto|].
      split; [split; [done | intros [[=]|[=]]]|]. split; done.
    + race_step. rewrite Hd. race_step. rewrite Hr. race_step.
      eexists _, _, _, _. split; [reflexivity|]. split; [repeat constructor; eauto|].
      split; [split; [done | intros [[=]|[=]]]|]. split; done.
Qed.

(** X13.  The life of a marker.  After [XLogArchiveNotify], once the
    archiver has renamed the [.ready] marker to [.done],
    [XLogArchiveCheckDone] finds the segment done at its first look and
    changes nothing, [XLogArchiveIsBusy] answers [false], and
    [XLogArchiveCleanup] then leaves the disk without either marker and
    with every other file as it was before the notification. *)
Theorem marker_life_cycle (d : disk) :
  XLogArchivingActive G = true →
  done_marker ≠ ready_marker →
  let d1 := (run local_disk (XLogArchiveNotify P G xlog) d).2 in
  let d2 := archived ready_marker done_marker d1 in
  let d3 := (run local_disk (XLogArchiveCleanup P xlog) d2).2 in
  run local_disk (XLogArchiveCheckDone P G xlog) d2
  = ([EvStat done_marker (StatOk 0)], Returned true, d2)
  ∧ run local_disk (XLogArchiveIsBusy P xlog) d2
    = ([EvStat done_marker (StatOk 0)], Returned false, d2)
  ∧ outcome_of local_disk (XLogArchiveCleanup P xlog) d2 = Returned tt
  ∧ files d3 !! done_marker = None
  ∧ files d3 !! ready_marker = None
  ∧ (∀ p, p ≠ done_marker → p ≠ ready_marker → files d3 !! p = files d !! p).
Proof.
  intros Hact Hne. cbv zeta. rewrite XLogArchiveNotify_disk. cbn [snd].
  set (d1 := Disk _ _).
  assert (Hr : files d1 !! ready_marker = Some 0%Z) by apply lookup_insert_eq.
  destruct (archived_markers d1 0%Z Hne Hr) as [Had Har].
  assert (Hfiles : files (archived ready_marker done_marker d1)
                   = <[done_marker:=0%Z]> (delete ready_marker (files d1))).
  { unfold archived. by rewrite Hr. }
  rewrite XLogArchiveCheckDone_disk, XLogArchiveIsBusy_disk by done. rewrite Had.
  split; [done|]. split; [done|].
  unfold outcome_of, XLogArchiveCleanup. disk_step. rewrite Had. disk_step.
  rewrite lookup_delete_ne, Har by done. disk_step.
  split; [done|]. split; [apply lookup_delete_eq|].
  split; [by rewrite lookup_delete_ne|].
  intros p Hd Hp.
  rewrite lookup_delete_ne, Hfiles, lookup_insert_ne, lookup_delete_ne by done.
  subst d1. cbn [files]. by rewrite lookup_insert_ne.
Qed.

End OnDisk.

(** ** The further properties at work *)

Lemma RestoreArchivedFile_removes_stale_file_scripted :
  (∃ rest,
     before_command = EvStat (lit "pg_xlog/RECOVERYXLOG") (StatErr ENOENT) :: rest
     ∨ ∃ size, before_command = EvStat (lit "pg_xlog/RECOVERYXLOG") (StatOk size)
                                :: EvUnlink (lit "pg_xlog/RECOVERYXLOG") 0 :: rest)
  ∧ outcome_of scripted
      (RestoreArchivedFile pg_build in_recovery [] segment3 RECOVERYXLOG 16777216 false)
      (Script [StatErr 13] [] [] [] [] [])
    = Halted fatal_error
  ∧ trace_of scripted
      (RestoreArchivedFile pg_build in_recovery [] segment3 RECOVERYXLOG 16777216 false)
      (Script [StatOk 512] [(-1)%Z] [] [] [] [])
    = [EvStat (lit "pg_xlog/RECOVERYXLOG") (StatOk 512);
       EvUnlink (lit "pg_xlog/RECOVERYXLOG") (-1);
       EvLog FATAL (could_not_remove (lit "pg_xlog/RECOVERYXLOG"))].
Proof.
  split; [|split].
  - destruct (RestoreArchivedFile_removes_stale_file scripted pg_build in_recovery []
                segment3 RECOVERYXLOG 16777216 false
                (Script [StatErr ENOENT; StatOk 16777216] [] [0%Z] [] [] [])) as (H & _).
    apply (H before_command cp_segment3 0%Z
             [EvPostRestoreCommand;
              EvStat (lit "pg_xlog/RECOVERYXLOG") (StatOk 16777216);
              EvLog LOG (restored_log_file segment3)]).
    vm_compute. reflexivity.
  - destruct (RestoreArchivedFile_removes_stale_file scripted pg_build in_recovery []
                segment3 RECOVERYXLOG 16777216 false
                (Script [StatErr 13] [] [] [] [] [])) as (_ & H & _).
    destruct (H 13%Z quiet) as [_ Ho];
      [by eexists | reflexivity | unfold ENOENT; lia | exact Ho].
  - destruct (RestoreArchivedFile_removes_stale_file scripted pg_build in_recovery []
                segment3 RECOVERYXLOG 16777216 false
                (Script [StatOk 512] [(-1)%Z] [] [] [] [])) as (_ & _ & H).
    destruct (H 512%Z (Script [] [(-1)%Z] [] [] [] []) (-1)%Z quiet) as [Ht _];
      [by eexists | reflexivity | reflexivity | lia | exact Ht].
Defined.

Lemma RestoreArchivedFile_runs_one_command_scripted :
  is_Some (recoveryRestoreCommand in_recovery)
  ∧ Forall (λ e, ¬ is_system e) before_command
  ∧ Forall (λ e, ¬ is_system e)
      [EvPostRestoreCommand; EvLog DEBUG2 (could_not_restore segment3 256)]
  ∧ (∃ before', before_command = before' ++ [EvPreRestoreCommand])
  ∧ (∃ after', [EvPostRestoreCommand; EvLog DEBUG2 (could_not_restore segment3 256)]
               = EvPostRestoreCommand :: after')
  ∧ length cp_segment3 < MAXPGPATH pg_build
  ∧ Forall (λ c, c ≠ NUL) cp_segment3.
Proof.
  apply (RestoreArchivedFile_runs_one_command scripted pg_build in_recovery [] segment3
           RECOVERYXLOG 16777216 false (Script [StatErr ENOENT] [] [256%Z] [] [] [])
           before_command cp_segment3 256%Z).
  vm_compute. reflexivity.
Defined.


Lemma RestoreArchivedFile_returns_scripted :
  (outcome_of scripted
     (RestoreArchivedFile pg_build standby (lit "unchanged") segment3 RECOVERYXLOG
        16777216 false)
     (Script [StatErr ENOENT; StatOk 4096] [] [0%Z] [] [] [])
   = Returned (false, lit "unchanged")
   ∧ match outcome_of scripted
             (RestoreArchivedFile pg_build standby (lit "unchanged") segment3 RECOVERYXLOG
                16777216 false)
             (Script [StatErr ENOENT; StatOk 4096] [] [0%Z] [] [] [])
     with
     | Returned (true, p) => p = snprintf 1024 (lit "pg_xlog" ++ lit "/" ++ cstr RECOVERYXLOG)
     | Returned (false, p) =>
       match last (trace_of scripted
                     (RestoreArchivedFile pg_build standby (lit "unchanged") segment3
                        RECOVERYXLOG 16777216 false)
                     (Script [StatErr ENOENT; StatOk 4096] [] [0%Z] [] [] []))
       with
       | Some (EvLog DEBUG1 m) =>
         p = lit "unchanged" ∧ StandbyMode standby = true
         ∧ ∃ st_size, m = wrong_size segment3 st_size 16777216
                      ∧ (0 < 16777216)%Z ∧ (st_size < 16777216)%Z
       | _ => p = snprintf 1024 (lit "pg_xlog" ++ lit "/" ++ cstr segment3)
       end
     | Halted h => h ≠ memory_fault
     end)
  ∧ (outcome_of scripted
       (RestoreArchivedFile pg_build standby (lit "unchanged") segment3 RECOVERYXLOG
          16777216 false)
       (Script [StatErr ENOENT] [] [256%Z] [] [] [])
     = Returned (false, lit "pg_xlog/000000010000000000000003")
     ∧ match outcome_of scripted
               (RestoreArchivedFile pg_build standby (lit "unchanged") segment3 RECOVERYXLOG
                  16777216 false)
               (Script [StatErr ENOENT] [] [256%Z] [] [] [])
       with
       | Returned (true, p) =>
         p = snprintf 1024 (lit "pg_xlog" ++ lit "/" ++ cstr RECOVERYXLOG)
       | Returned (false, p) =>
         match last (trace_of scripted
                       (RestoreArchivedFile pg_build standby (lit "unchanged") segment3
                          RECOVERYXLOG 16777216 false)
                       (Script [StatErr ENOENT] [] [256%Z] [] [] []))
         with
         | Some (EvLog DEBUG1 m) =>
           p = lit "unchanged" ∧ StandbyMode standby = true
           ∧ ∃ st_size, m = wrong_size segment3 st_size 16777216
                        ∧ (0 < 16777216)%Z ∧ (st_size < 16777216)%Z
         | _ => p = snprintf 1024 (lit "pg_xlog" ++ lit "/" ++ cstr segment3)
         end
       | Halted h => h ≠ memory_fault
       end).
Proof.
  split; (split; [vm_compute; reflexivity|]).
  - apply (RestoreArchivedFile_returns scripted pg_build standby (lit "unchanged") segment3
             RECOVERYXLOG 16777216 false
             (Script [StatErr ENOENT; StatOk 4096] [] [0%Z] [] [] [])).
    simpl. lia.
  - apply (RestoreArchivedFile_returns scripted pg_build standby (lit "unchanged") segment3
             RECOVERYXLOG 16777216 false
             (Script [StatErr ENOENT] [] [256%Z] [] [] [])).
    simpl. lia.
Defined.

Lemma ExecuteRecoveryCommand_outcomes_scripted :
  ∃ ptr tli cmd rc report,
    trace_of scripted
      (ExecuteRecoveryCommand pg_build (lit "pg_archivecleanup /mnt/archive %r")
         (lit "archive_cleanup_command") false)
      (Script [] [] [256%Z] [(33554432%Z, 1%Z)] [] [])
    = [EvGetOldestRestartPoint ptr tli;
       EvLog DEBUG3 (executing (cstr (lit "archive_cleanup_command"))
                       (cstr (lit "pg_archivecleanup /mnt/archive %r")));
       EvSystem cmd rc] ++ report
    ∧ BuildRecoveryCommand (MAXPGPATH pg_build) (automatic pg_build (MAXPGPATH pg_build))
        (lit "pg_archivecleanup /mnt/archive %r")
        (XLogFileName pg_build tli (XLByteToSeg pg_build ptr)) ≫= (λ m, string_at m 0)
      = Some cmd
    ∧ length cmd < MAXPGPATH pg_build
    ∧ (rc = 0%Z →
       report = []
       ∧ outcome_of scripted
           (ExecuteRecoveryCommand pg_build (lit "pg_archivecleanup /mnt/archive %r")
              (lit "archive_cleanup_command") false)
           (Script [] [] [256%Z] [(33554432%Z, 1%Z)] [] [])
         = Returned tt)
    ∧ (rc ≠ 0%Z →
       (false = false ∨ (WIFSIGNALED rc = false ∧ (WEXITSTATUS rc ≤ 125)%Z)) →
       report = [EvLog WARNING (return_code (cstr (lit "archive_cleanup_command"))
                                  (cstr (lit "pg_archivecleanup /mnt/archive %r")) rc)]
       ∧ outcome_of scripted
           (ExecuteRecoveryCommand pg_build (lit "pg_archivecleanup /mnt/archive %r")
              (lit "archive_cleanup_command") false)
           (Script [] [] [256%Z] [(33554432%Z, 1%Z)] [] [])
         = Returned tt)
    ∧ (rc ≠ 0%Z →
       false = true → (WIFSIGNALED rc = true ∨ (125 < WEXITSTATUS rc)%Z) →
       report = [EvLog FATAL (return_code (cstr (lit "archive_cleanup_command"))
                                (cstr (lit "pg_archivecleanup /mnt/archive %r")) rc)]
       ∧ outcome_of scripted
           (ExecuteRecoveryCommand pg_build (lit "pg_archivecleanup /mnt/archive %r")
              (lit "archive_cleanup_command") false)
           (Script [] [] [256%Z] [(33554432%Z, 1%Z)] [] [])
         = Halted fatal_error).
Proof.
  apply (ExecuteRecoveryCommand_outcomes scripted pg_build
           (lit "pg_archivecleanup /mnt/archive %r") (lit "archive_cleanup_command") false
           (Script [] [] [256%Z] [(33554432%Z, 1%Z)] [] [])).
  simpl. lia.
Defined.

Lemma XLogArchiveCleanup_removes_markers_on_notified_disk :
  ∃ tr d',
    run local_disk (XLogArchiveCleanup pg_build segment3) notified_disk
    = (tr, Returned tt, d')
    ∧ Forall (λ e, ∃ p r, e = EvUnlink p r) tr
    ∧ files d' !! StatusFilePath pg_build segment3 (lit ".done") = None
    ∧ files d' !! StatusFilePath pg_build segment3 (lit ".ready") = None
    ∧ (∀ p, p ≠ StatusFilePath pg_build segment3 (lit ".done") →
            p ≠ StatusFilePath pg_build segment3 (lit ".ready") →
            files d' !! p = files notified_disk !! p)
    ∧ wakeups d' = wakeups notified_disk.
Proof.
  apply (XLogArchiveCleanup_removes_markers pg_build segment3 notified_disk).
Defined.

Lemma XLogArchiveNotify_marks_ready_on_empty_disk :
  let d1 := (run local_disk (XLogArchiveNotify pg_build in_recovery segment3) empty_disk).2 in
  let d2 := (run local_disk (XLogArchiveNotify pg_build in_recovery segment3) d1).2 in
  outcome_of local_disk (XLogArchiveNotify pg_build in_recovery segment3) empty_disk
  = Returned tt
  ∧ files d1 !! StatusFilePath pg_build segment3 (lit ".ready") = Some 0%Z
  ∧ (∀ p, p ≠ StatusFilePath pg_build segment3 (lit ".ready") →
          files d1 !! p = files empty_disk !! p)
  ∧ wakeups d1
    = wakeups empty_disk + (if IsUnderPostmaster in_recovery then 1 else 0)
  ∧ files d2 = files d1.
Proof.
  apply (XLogArchiveNotify_marks_ready pg_build in_recovery segment3 empty_disk).
Defined.

Lemma marker_life_cycle_on_notified_disk :
  let d1 :=
    (run local_disk (XLogArchiveNotify pg_build in_recovery segment3) notified_disk).2 in
  let d2 := archived (StatusFilePath pg_build segment3 (lit ".ready"))
              (StatusFilePath pg_build segment3 (lit ".done")) d1 in
  let d3 := (run local_disk (XLogArchiveCleanup pg_build segment3) d2).2 in
  run local_disk (XLogArchiveCheckDone pg_build in_recovery segment3) d2
  = ([EvStat (StatusFilePath pg_build segment3 (lit ".done")) (StatOk 0)],
     Returned true, d2)
  ∧ run local_disk (XLogArchiveIsBusy pg_build segment3) d2
    = ([EvStat (StatusFilePath pg_build segment3 (lit ".done")) (StatOk 0)],
       Returned false, d2)
  ∧ outcome_of local_disk (XLogArchiveCleanup pg_build segment3) d2 = Returned tt
  ∧ files d3 !! StatusFilePath pg_build segment3 (lit ".done") = None
  ∧ files d3 !! StatusFilePath pg_build segment3 (lit ".ready") = None
  ∧ (∀ p, p ≠ StatusFilePath pg_build segment3 (lit ".done") →
          p ≠ StatusFilePath pg_build segment3 (lit ".ready") →
          files d3 !! p = files notified_disk !! p).
Proof.
  apply (marker_life_cycle pg_build in_recovery segment3 notified_disk).
  - reflexivity.
  - vm_compute. discriminate.
Defined.

Lemma XLogArchiveNotify_then_CheckDone_on_empty_disk :
  run local_disk
    (_ ← XLogArchiveNotify pg_build in_recovery segment3;
     XLogArchiveCheckDone pg_build in_recovery segment3) empty_disk
  = ((run local_disk (XLogArchiveNotify pg_build in_recovery segment3) empty_disk).1.1
       ++ [EvStat (StatusFilePath pg_build segment3 (lit ".done")) (StatErr ENOENT);
           EvStat (StatusFilePath pg_build segment3 (lit ".ready")) (StatOk 0)],
     Returned false,
     (run local_disk (XLogArchiveNotify pg_build in_recovery segment3) empty_disk).2).
Proof.
  apply (XLogArchiveNotify_then_CheckDone pg_build in_recovery segment3 empty_disk).
  - reflexivity.
  - vm_compute. discriminate.
  - vm_compute. reflexivity.
Defined.

Lemma XLogArchiveCheckDone_settles_on_empty_disk :
  outcome_of local_disk (XLogArchiveCheckDone pg_build in_recovery segment3) empty_disk
  = Returned false
  ∧ is_Some (files (run local_disk (XLogArchiveCheckDone pg_build in_recovery segment3)
                      empty_disk).2
             !! StatusFilePath pg_build segment3 (lit ".ready")).
Proof.
  destruct (XLogArchiveCheckDone_settles pg_build in_recovery segment3 empty_disk)
    as (Ho & _ & Hr & _).
  - reflexivity.
  - vm_compute. discriminate.
  - split; [exact Ho | apply Hr; vm_compute; reflexivity].
Defined.

Lemma XLogArchiveIsBusy_opposes_CheckDone_on_notified_disk :
  ∃ busy : bool,
    outcome_of local_disk (XLogArchiveIsBusy pg_build segment3) notified_disk
    = Returned busy
    ∧ outcome_of local_disk (XLogArchiveCheckDone pg_build in_recovery segment3)
        notified_disk
      = Returned (negb busy).
Proof.
  destruct (XLogArchiveIsBusy_opposes_CheckDone pg_build in_recovery segment3 notified_disk)
    as (_ & H & _).
  - reflexivity.
  - vm_compute. discriminate.
  - apply H. right. left. vm_compute. by eexists.
Defined.

Lemma markers_beside_archiver_before_second_call :
  ∃ tr (deletable : bool) turn' d',
    run (beside_archiver (StatusFilePath pg_build segment3 (lit ".ready"))
           (StatusFilePath pg_build segment3 (lit ".done")))
        (XLogArchiveCheckDone pg_build in_recovery segment3) (Some 1, notified_disk)
    = (tr, Returned deletable, (turn', d'))
    ∧ Forall (λ e, ∃ p r, e = EvStat p r) tr
    ∧ (deletable = true ↔ Some 1 = Some 0 ∨ Some 1 = Some 1)
    ∧ (deletable = true →
       files d' !! StatusFilePath pg_build segment3 (lit ".done") = Some 0%Z
       ∧ files d' !! StatusFilePath pg_build segment3 (lit ".ready") = None)
    ∧ (deletable = false → d' = notified_disk).
Proof.
  destruct (markers_beside_archiver pg_build in_recovery segment3 (Some 1) notified_disk 0%Z)
    as [H _].
  - reflexivity.
  - vm_compute. discriminate.
  - vm_compute. reflexivity.
  - vm_compute. reflexivity.
  - exact H.
Defined.
